(** * Style Symphony: order lifecycle and proposal negotiation

    A shallow embedding of the marketplace code: the Express handlers of the
    backend (designer proposals, customization requests, payments, chat) as
    state-passing functions over the tables they query, and the React page
    handlers and loaders of the frontend (RequestDetails, ManageOrder,
    Payment, Messages, TimelineUpdateForm, ProposalForm) as functions from the
    outcomes of their awaited calls to the sequence of effects they perform. *)

From stdpp Require Import gmap strings list pretty.
From Stdlib Require Import QArith Qround Lqa Sorted.

Close Scope Q_scope.
Open Scope string_scope.
Open Scope list_scope.

(** ** JavaScript values carried by request bodies *)

(** A JSON body field.  A field that is absent reads as [undefined]; it is the
    [None] of a lookup in the body. *)
Inductive jsval : Type :=
  | JNull
  | JBool (b : bool)
  | JNum (q : Q)
  | JStr (s : string).

(** [req.body]: a JS object used as a map from field names to values. *)
Abbreviation body := (gmap string jsval).

(** Truthiness, as tested by [if (x)] and [!x]. *)
Definition truthy_val (v : jsval) : bool :=
  match v with
  | JNull => false
  | JBool b => b
  | JNum q => negb (Qeq_bool q 0%Q)
  | JStr s => negb (String.eqb s "")
  end.

Definition truthy (v : option jsval) : bool :=
  match v with
  | None => false
  | Some x => truthy_val x
  end.

(** [list.includes(v)] for a list of string literals. *)
Definition includes (l : list string) (v : jsval) : bool :=
  match v with
  | JStr s => existsb (String.eqb s) l
  | _ => false
  end.

(** A destructuring default, [{ status = d } = req.body]: it applies to an
    absent field only. *)
Definition or_default (d : jsval) (v : option jsval) : jsval :=
  match v with
  | None => d
  | Some x => x
  end.

(** A JS number: a finite value (a rational here), [NaN], or an infinity.
    [parseFloat] and the number inputs of the forms give such a value. *)
Inductive number : Type :=
  | Finite (q : Q)
  | NaN
  | Infinity
  | NegInfinity.

(** Truthiness of a number: [0] and [NaN] are falsy. *)
Definition truthy_number (n : number) : bool :=
  match n with
  | Finite q => negb (Qeq_bool q 0%Q)
  | NaN => false
  | Infinity | NegInfinity => true
  end.

(** [JSON.stringify] of a number: [null] for [NaN] and the infinities. *)
Definition json_number (n : number) : jsval :=
  match n with
  | Finite q => JNum q
  | NaN | Infinity | NegInfinity => JNull
  end.

(** ** The backend *)

Module Server.

(** Rows of the four tables the lifecycle handlers touch.  The columns hold
    the values the handlers pass as query parameters.  The generated columns
    ([created_at], [updated_at], [transaction_date], [timestamp]) are set to
    [NOW()] and are left out.  The schema is not part of the sources: the
    queries are taken to succeed (a query that throws is answered 500 by the
    [catch] of its handler, with nothing written) and the tables to carry no
    constraint beyond the checks of the handlers. *)
Record proposal_row : Type := {
  proposal_id : nat;
  p_request_id : jsval;
  p_merchant_id : jsval;
  p_price : jsval;
  p_status : jsval
}.

Record request_row : Type := {
  request_id : nat;
  r_user_id : jsval;
  r_status : jsval;
  r_description : jsval;
  r_design_images : jsval;
  r_due_date : jsval;
  r_priority : jsval
}.

Record payment_row : Type := {
  payment_id : nat;
  pay_user_id : jsval;
  pay_merchant_id : jsval;
  pay_order_id : jsval;
  pay_amount : jsval;
  pay_payment_method : jsval;
  pay_payment_type : jsval;
  pay_status : jsval;
  pay_transaction_id : jsval
}.

Record chat_row : Type := {
  chat_id : nat;
  c_sender_id : jsval;
  c_receiver_id : jsval;
  c_message : jsval;
  c_status : jsval
}.

Record DB : Type := {
  customization_requests : list request_row;
  designer_proposals : list proposal_row;
  payments : list payment_row;
  chat : list chat_row
}.

(** The JSON answer of a handler: [res.status(code).json({success, message, data})]. *)
Record response (A : Type) : Type := {
  code : nat;
  success : bool;
  message : string;
  data : option A
}.
Arguments code {A} _.
Arguments success {A} _.
Arguments message {A} _.
Arguments data {A} _.

Definition fail {A : Type} (c : nat) (m : string) : response A :=
  {| code := c; success := false; message := m; data := None |}.

Definition ok {A : Type} (c : nat) (m : string) (d : A) : response A :=
  {| code := c; success := true; message := m; data := Some d |}.

(** The key given to an inserted row: larger than every key in the table.
    The INSERT statements name no key and the schema is not part of the
    sources.  A serial column would, beyond this, never give again the key of
    a deleted row; the tables keep no counter here, and nothing below rests on
    the key chosen, only on its being new in the table. *)
Definition fresh (ids : list nat) : nat := S (foldr Nat.max 0 ids).

(** The assignment pushed for a field sent in the body ([x !== undefined]). *)
Definition pushed (column : string) (v : option jsval) : list (string * jsval) :=
  match v with
  | Some x => [(column, x)]
  | None => []
  end.

(** *** Designer proposals *)

Definition proposal_statuses : list string := ["Pending"; "Accepted"; "Cancelled"].

(** One [column = $n] assignment of a dynamically built UPDATE. *)
Definition set_proposal_column (r : proposal_row) (a : string * jsval) : proposal_row :=
  if String.eqb a.1 "price" then
    {| proposal_id := proposal_id r; p_request_id := p_request_id r;
       p_merchant_id := p_merchant_id r; p_price := a.2; p_status := p_status r |}
  else if String.eqb a.1 "status" then
    {| proposal_id := proposal_id r; p_request_id := p_request_id r;
       p_merchant_id := p_merchant_id r; p_price := p_price r; p_status := a.2 |}
  else r.

(** [UPDATE designer_proposals SET ... WHERE proposal_id = $n RETURNING *]:
    the new table and the rows returned. *)
Definition update_proposals (updates : list (string * jsval)) (proposalId : nat)
    (rows : list proposal_row) : list proposal_row * list proposal_row :=
  let hit r := Nat.eqb (proposal_id r) proposalId in
  let rows' := map (fun r => if hit r then foldl set_proposal_column r updates else r) rows in
  (rows', filter (fun r => hit r = true) rows').

Definition with_proposals (db : DB) (rows : list proposal_row) : DB :=
  {| customization_requests := customization_requests db;
     designer_proposals := rows;
     payments := payments db;
     chat := chat db |}.

(** [app.post("/api/designer-proposals")] *)
Definition post_designer_proposal (b : body) (db : DB) : response proposal_row * DB :=
  let request_id := b !! "request_id" in
  let merchant_id := b !! "merchant_id" in
  let price := b !! "price" in
  let status := or_default (JStr "Pending") (b !! "status") in
  if negb (truthy request_id) || negb (truthy merchant_id) || negb (truthy price) then
    (fail 400 "Missing required fields", db)
  else if negb (includes proposal_statuses status) then
    (fail 400 "Invalid status. Must be Pending, Accepted, or Cancelled", db)
  else
    let row := {| proposal_id := fresh (map proposal_id (designer_proposals db));
                  p_request_id := or_default JNull request_id;
                  p_merchant_id := or_default JNull merchant_id;
                  p_price := or_default JNull price;
                  p_status := status |} in
    (ok 201 "Designer proposal created successfully" row,
     with_proposals db (designer_proposals db ++ [row])).

(** [app.put("/api/designer-proposals/:proposalId")] *)
Definition put_designer_proposal (proposalId : nat) (b : body) (db : DB)
    : response proposal_row * DB :=
  let price : option jsval := b !! "price" in
  let status : option jsval := b !! "status" in
  let updates1 := pushed "price" price in
  if truthy status && negb (includes proposal_statuses (or_default JNull status)) then
    (fail 400 "Invalid status. Must be Pending, Accepted, or Cancelled", db)
  else
    let updates := updates1 ++ (if truthy status
                                then [("status", or_default JNull status)]
                                else []) in
    if Nat.eqb (length updates) 0 then
      (fail 400 "No fields to update", db)
    else
      let '(rows', returned) := update_proposals updates proposalId (designer_proposals db) in
      match returned with
      | [] => (fail 404 "Designer proposal not found", db)
      | row :: _ => (ok 200 "Designer proposal updated successfully" row,
                     with_proposals db rows')
      end.

(** *** Customization requests *)

Definition request_statuses : list string := ["Pending"; "Accepted"; "Completed"].

Definition set_request_column (r : request_row) (a : string * jsval) : request_row :=
  if String.eqb a.1 "status" then
    {| request_id := request_id r; r_user_id := r_user_id r; r_status := a.2;
       r_description := r_description r; r_design_images := r_design_images r;
       r_due_date := r_due_date r; r_priority := r_priority r |}
  else if String.eqb a.1 "description" then
    {| request_id := request_id r; r_user_id := r_user_id r; r_status := r_status r;
       r_description := a.2; r_design_images := r_design_images r;
       r_due_date := r_due_date r; r_priority := r_priority r |}
  else if String.eqb a.1 "design_images" then
    {| request_id := request_id r; r_user_id := r_user_id r; r_status := r_status r;
       r_description := r_description r; r_design_images := a.2;
       r_due_date := r_due_date r; r_priority := r_priority r |}
  else if String.eqb a.1 "due_date" then
    {| request_id := request_id r; r_user_id := r_user_id r; r_status := r_status r;
       r_description := r_description r; r_design_images := r_design_images r;
       r_due_date := a.2; r_priority := r_priority r |}
  else if String.eqb a.1 "priority" then
    {| request_id := request_id r; r_user_id := r_user_id r; r_status := r_status r;
       r_description := r_description r; r_design_images := r_design_images r;
       r_due_date := r_due_date r; r_priority := a.2 |}
  else r.

Definition update_requests (updates : list (string * jsval)) (requestId : nat)
    (rows : list request_row) : list request_row * list request_row :=
  let hit r := Nat.eqb (request_id r) requestId in
  let rows' := map (fun r => if hit r then foldl set_request_column r updates else r) rows in
  (rows', filter (fun r => hit r = true) rows').

Definition with_requests (db : DB) (rows : list request_row) : DB :=
  {| customization_requests := rows;
     designer_proposals := designer_proposals db;
     payments := payments db;
     chat := chat db |}.

(** [app.put("/api/customization-requests/:requestId")].  The handler always
    pushes [updated_at = NOW()], a generated column: the assignment is kept in
    [updates] (the length test sees it) and changes no modelled column. *)
Definition put_customization_request (requestId : nat) (b : body) (db : DB)
    : response request_row * DB :=
  let status : option jsval := b !! "status" in
  if truthy status && negb (includes request_statuses (or_default JNull status)) then
    (fail 400 "Invalid status. Must be Pending, Accepted, or Completed", db)
  else
    let updates :=
      (if truthy status then [("status", or_default JNull status)] else [])
      ++ pushed "description" (b !! "description")
      ++ pushed "design_images" (b !! "design_images")
      ++ pushed "due_date" (b !! "due_date")
      ++ pushed "priority" (b !! "priority")
      ++ [("updated_at", JNull)] in
    if Nat.eqb (length updates) 0 then
      (fail 400 "No fields to update", db)
    else
      let '(rows', returned) := update_requests updates requestId (customization_requests db) in
      match returned with
      | [] => (fail 404 "Customization request not found", db)
      | row :: _ => (ok 200 "Customization request updated successfully" row,
                     with_requests db rows')
      end.

(** *** Payments *)

Definition payment_statuses : list string := ["Pending"; "Completed"; "Failed"].
Definition payment_types : list string := ["Customer Payment"; "Merchant Payout"].

Definition with_payments (db : DB) (rows : list payment_row) : DB :=
  {| customization_requests := customization_requests db;
     designer_proposals := designer_proposals db;
     payments := rows;
     chat := chat db |}.

(** [app.post("/api/payments")] *)
Definition post_payment (b : body) (db : DB) : response payment_row * DB :=
  let user_id := b !! "user_id" in
  let merchant_id := b !! "merchant_id" in
  let order_id := b !! "order_id" in
  let amount := b !! "amount" in
  let payment_method := b !! "payment_method" in
  let payment_type := b !! "payment_type" in
  let status := or_default (JStr "Pending") (b !! "status") in
  let transaction_id := b !! "transaction_id" in
  if negb (truthy user_id) || negb (truthy merchant_id) || negb (truthy order_id)
     || negb (truthy amount) || negb (truthy payment_method) || negb (truthy payment_type) then
    (fail 400 "Missing required fields", db)
  else if negb (includes payment_statuses status) then
    (fail 400 "Invalid status. Must be Pending, Completed, or Failed", db)
  else if negb (includes payment_types (or_default JNull payment_type)) then
    (fail 400 "Invalid payment_type. Must be Customer Payment or Merchant Payout", db)
  else
    let row := {| payment_id := fresh (map payment_id (payments db));
                  pay_user_id := or_default JNull user_id;
                  pay_merchant_id := or_default JNull merchant_id;
                  pay_order_id := or_default JNull order_id;
                  pay_amount := or_default JNull amount;
                  pay_payment_method := or_default JNull payment_method;
                  pay_payment_type := or_default JNull payment_type;
                  pay_status := status;
                  pay_transaction_id := or_default JNull transaction_id |} in
    (ok 201 "Payment created successfully" row, with_payments db (payments db ++ [row])).

(** *** Chat *)

Definition with_chat (db : DB) (rows : list chat_row) : DB :=
  {| customization_requests := customization_requests db;
     designer_proposals := designer_proposals db;
     payments := payments db;
     chat := rows |}.

(** [app.post("/api/chat")] *)
Definition post_chat (b : body) (db : DB) : response chat_row * DB :=
  let sender_id := b !! "sender_id" in
  let receiver_id := b !! "receiver_id" in
  let message := b !! "message" in
  let status := or_default (JStr "sent") (b !! "status") in
  if negb (truthy sender_id) || negb (truthy receiver_id) || negb (truthy message) then
    (fail 400 "Missing required fields", db)
  else
    let row := {| chat_id := fresh (map chat_id (chat db));
                  c_sender_id := or_default JNull sender_id;
                  c_receiver_id := or_default JNull receiver_id;
                  c_message := or_default JNull message;
                  c_status := status |} in
    (ok 201 "Chat message sent successfully" row, with_chat db (chat db ++ [row])).

End Server.

(** ** The frontend *)

Module Client.

(** The records of [types/index.ts].  The status fields are string-literal
    unions in TypeScript; they are strings at run time and data arrives from
    the backend unchecked, so they are strings here. *)
Record User : Type := {
  u_last_name : string;
  u_first_name : string;
  u_id : string;
  u_name : string;
  u_email : string;
  u_role : string;
  u_profileImage : option string
}.

Record ProjectRequest : Type := {
  rq_id : string;
  rq_title : string;
  rq_description : string;
  rq_customerId : string;
  rq_customerName : string;
  rq_images : list string;
  rq_material : string;
  rq_budget : option Q;
  rq_timeframe : option string;
  rq_status : string;
  rq_createdAt : string;
  rq_additionalDetails : option string;
  rq_acceptedProposalId : option string;
  rq_acceptedPrice : option Q;
  rq_designerId : option string;
  rq_designerName : option string;
  rq_size : option string
}.

Record Proposal : Type := {
  pr_id : string;
  pr_requestId : string;
  pr_designerId : string;
  pr_designerName : string;
  pr_designerImage : option string;
  pr_price : Q;
  pr_estimatedTime : string;
  pr_message : string;
  pr_status : string;
  pr_createdAt : string
}.

Record Message : Type := {
  m_id : string;
  m_senderId : string;
  m_receiverId : string;
  m_content : string;
  m_timestamp : string;
  m_read : bool;
  m_image : option string
}.

Record TimelineUpdate : Type := {
  tu_id : string;
  tu_requestId : string;
  tu_status : string;
  tu_message : string;
  tu_timestamp : string;
  tu_paymentRequired : option bool;
  tu_paymentAmount : option Q;
  tu_paymentStatus : option string
}.

(** [{ ...prop, status: s }] *)
Definition proposal_with_status (prop : Proposal) (s : string) : Proposal :=
  {| pr_id := pr_id prop; pr_requestId := pr_requestId prop;
     pr_designerId := pr_designerId prop; pr_designerName := pr_designerName prop;
     pr_designerImage := pr_designerImage prop; pr_price := pr_price prop;
     pr_estimatedTime := pr_estimatedTime prop; pr_message := pr_message prop;
     pr_status := s; pr_createdAt := pr_createdAt prop |}.

(** [{ ...request, status: s }] *)
Definition request_with_status (request : ProjectRequest) (s : string) : ProjectRequest :=
  {| rq_id := rq_id request; rq_title := rq_title request;
     rq_description := rq_description request; rq_customerId := rq_customerId request;
     rq_customerName := rq_customerName request; rq_images := rq_images request;
     rq_material := rq_material request; rq_budget := rq_budget request;
     rq_timeframe := rq_timeframe request; rq_status := s;
     rq_createdAt := rq_createdAt request;
     rq_additionalDetails := rq_additionalDetails request;
     rq_acceptedProposalId := rq_acceptedProposalId request;
     rq_acceptedPrice := rq_acceptedPrice request;
     rq_designerId := rq_designerId request;
     rq_designerName := rq_designerName request;
     rq_size := rq_size request |}.

(** [{ ...request, status: "assigned", acceptedProposalId, acceptedPrice,
    designerId, designerName }] *)
Definition request_assigned (request : ProjectRequest) (proposalId : string)
    (acceptedProposal : Proposal) : ProjectRequest :=
  {| rq_id := rq_id request; rq_title := rq_title request;
     rq_description := rq_description request; rq_customerId := rq_customerId request;
     rq_customerName := rq_customerName request; rq_images := rq_images request;
     rq_material := rq_material request; rq_budget := rq_budget request;
     rq_timeframe := rq_timeframe request; rq_status := "assigned";
     rq_createdAt := rq_createdAt request;
     rq_additionalDetails := rq_additionalDetails request;
     rq_acceptedProposalId := Some proposalId;
     rq_acceptedPrice := Some (pr_price acceptedProposal);
     rq_designerId := Some (pr_designerId acceptedProposal);
     rq_designerName := Some (pr_designerName acceptedProposal);
     rq_size := rq_size request |}.

(** The result of an awaited call: the promise resolves with a value or the
    [await] throws into the handler's [catch]. *)
Inductive outcome (A : Type) : Type :=
  | Resolved (a : A)
  | Thrown (msg : string).
Arguments Resolved {A} _.
Arguments Thrown {A} _.

(** [authService.getCurrentUser] is an [async] function: a call evaluates to
    a Promise, which settles to the user of the stored token or to [null] (the
    function catches what its own request throws, so the Promise is never
    rejected).  [me] is what it settles to. *)
Inductive promise (A : Type) : Type :=
  | Promise (settled : A).
Arguments Promise {A} _.

Definition getCurrentUser (me : option User) : promise (option User) := Promise me.

(** [await p] *)
Definition await {A : Type} (p : promise A) : A :=
  match p with Promise a => a end.

(** A Promise is an object.  It is truthy, and it has none of the fields of
    the value it settles to: [p.role] and [p.id] are [undefined]. *)
Definition promise_truthy {A : Type} (p : promise A) : bool := true.

Definition promise_field {A : Type} (p : promise A) (field : string) : option string := None.

(** [a === b] for two values that are strings or [undefined]. *)
Definition same (a b : option string) : bool :=
  match a, b with
  | Some x, Some y => String.eqb x y
  | None, None => true
  | _, _ => false
  end.

(** A value in a template literal: [undefined] is written out. *)
Definition template (x : option string) : string :=
  match x with
  | Some s => s
  | None => "undefined"
  end.

(** The query string the services build from a filters object:
    [Object.entries(filters).forEach(([key, value]) => { if (value) queryParams.append(key, value) })]. *)
Definition queryParams (filters : list (string * option string)) : list (string * string) :=
  omap (fun kv => match kv.2 with
                  | Some v => if String.eqb v "" then None else Some (kv.1, v)
                  | None => None
                  end) filters.

(** The calls the pages make, each with the JSON body or the query it
    sends. *)
Inductive api_call : Type :=
  | createProposal (proposalData : body)
  | updateProposal (proposalId : string) (proposalData : body)
  | updateRequest (requestId : string) (requestData : body)
  | sendMessage (messageData : body)
  | fetchTimeline (id : string)
  | postTimeline (b : body)
  | postPayments (b : body)
  | getRequests (query : list (string * string))
  | getRequestById (requestId : string)
  | getProposals (query : list (string * string))
  | getUserById (userId : string)
  | getMessages (senderId receiverId : string).

(** What a handler does, in order: it issues a call and awaits it, sets the
    page state (a [setX] of React; [SetState s] carries the state after it),
    shows a toast or navigates. *)
Inductive event (S : Type) : Type :=
  | Call (c : api_call)
  | SetState (s : S)
  | Toast (title description : string) (destructive : bool)
  | Navigate (path : string).
Arguments Call {S} _.
Arguments SetState {S} _.
Arguments Toast {S} _ _ _.
Arguments Navigate {S} _.

(** The page state a run of a handler ends in. *)
Definition final {S : Type} (s0 : S) (evs : list (event S)) : S :=
  foldl (fun s e => match e with SetState s' => s' | _ => s end) s0 evs.

(** The calls a run issues, in order. *)
Definition calls {S : Type} (evs : list (event S)) : list api_call :=
  omap (fun e => match e with Call c => Some c | _ => None end) evs.

(** A run in progress, for the loaders, which await in loops: the events so
    far and the value reached, or what was thrown. *)
Definition run (S A : Type) : Type := list (event S) * outcome A.

Definition ret {S A : Type} (a : A) : run S A := ([], Resolved a).

Definition bind {S A B : Type} (m : run S A) (k : A -> run S B) : run S B :=
  match m.2 with
  | Resolved a => (m.1 ++ (k a).1, (k a).2)
  | Thrown msg => (m.1, Thrown msg)
  end.

(** [await] of a call: [r] is its outcome. *)
Definition awaiting {S A : Type} (c : api_call) (r : outcome A) : run S A := ([Call c], r).

Definition emit {S : Type} (e : event S) : run S unit := ([e], Resolved tt).

Notation "'let!' x ':=' m 'in' k" := (bind m (fun x => k))
  (at level 10, x name, k at level 200).

(** Axios rejects the promise of a call whose response is not 2xx. *)
Definition axios {A : Type} (r : Server.response A) : outcome unit :=
  if Nat.leb 200 (Server.code r) && Nat.ltb (Server.code r) 300
  then Resolved tt
  else Thrown ("Request failed with status code " +:+ pretty (Server.code r)).

End Client.

(** ** pages/shared/RequestDetails.tsx *)

Module RequestDetails.
Import Client.

Record State : Type := {
  id : string;
  user : option User;
  request : option ProjectRequest;
  proposals : list Proposal;
  timeline : list TimelineUpdate;
  activeTab : string
}.

Definition setUser (st : State) (u : option User) : State :=
  {| id := id st; user := u; request := request st; proposals := proposals st;
     timeline := timeline st; activeTab := activeTab st |}.

Definition setRequest (st : State) (r : option ProjectRequest) : State :=
  {| id := id st; user := user st; request := r; proposals := proposals st;
     timeline := timeline st; activeTab := activeTab st |}.

Definition setProposals (st : State) (f : list Proposal -> list Proposal) : State :=
  {| id := id st; user := user st; request := request st; proposals := f (proposals st);
     timeline := timeline st; activeTab := activeTab st |}.

Definition setTimeline (st : State) (f : list TimelineUpdate -> list TimelineUpdate) : State :=
  {| id := id st; user := user st; request := request st; proposals := proposals st;
     timeline := f (timeline st); activeTab := activeTab st |}.

Definition setActiveTab (st : State) (tab : string) : State :=
  {| id := id st; user := user st; request := request st; proposals := proposals st;
     timeline := timeline st; activeTab := tab |}.

(** The page as it is mounted on the route of the request [id]. *)
Definition initial (id : string) : State :=
  {| id := id; user := None; request := None; proposals := []; timeline := [];
     activeTab := "details" |}.

(** [fetchData], the loader of the page.  [userData] is the Promise of
    [getCurrentUser], which this page awaits; [r1] is the outcome of
    [requestService.getRequestById] (the [data] of its answer), [r2] of
    [proposalService.getProposals], [r3] of the timeline fetch and of its
    [json()].  The [loading] flag is left out. *)
Definition fetchData (st : State) (userData : promise (option User))
    (r1 : outcome (option ProjectRequest)) (r2 : outcome (list Proposal))
    (r3 : outcome (list TimelineUpdate)) : list (event State) :=
  if negb (promise_truthy userData) then [Navigate "/auth"]
  else
    let st1 := setUser st (await userData) in
    SetState st1 ::
    if String.eqb (id st) "" then []
    else
      Call (getRequestById (id st)) ::
      match r1 with
      | Thrown _ => [Toast "Error" "Failed to load request details" true]
      | Resolved None =>
          [Toast "Request not found" "The requested project could not be found." true;
           Navigate "/"]
      | Resolved (Some requestData) =>
          let st2 := setRequest st1 (Some requestData) in
          SetState st2 ::
          Call (getProposals (queryParams [("requestId", Some (id st))])) ::
          match r2 with
          | Thrown _ => [Toast "Error" "Failed to load request details" true]
          | Resolved proposalsData =>
              let st3 := setProposals st2 (fun _ => proposalsData) in
              SetState st3 ::
              Call (fetchTimeline (id st)) ::
              match r3 with
              | Thrown _ => [Toast "Error" "Failed to load request details" true]
              | Resolved timelineData => [SetState (setTimeline st3 (fun _ => timelineData))]
              end
          end
      end.

(** [handleMakePayment], the [onMakePayment] given to the timeline: it goes
    to the payment page of the update. *)
Definition handleMakePayment (st : State) (updateId : string) : list (event State) :=
  if String.eqb (id st) "" then []
  else [Navigate ("/payment/" +:+ id st +:+ "/" +:+ updateId)].

(** [handleManageOrder] *)
Definition handleManageOrder (requestId : string) : list (event State) :=
  [Navigate ("/manage-order/" +:+ requestId)].

(** The form data of a proposal: [{ price, estimatedTime, message }]. *)
Record ProposalData : Type := {
  price : number;
  estimatedTime : string;
  message : string
}.

(** [{ requestId: request.id, ...proposalData }] *)
Definition create_payload (request : ProjectRequest) (proposalData : ProposalData) : body :=
  {[ "requestId" := JStr (rq_id request);
     "price" := json_number (price proposalData);
     "estimatedTime" := JStr (estimatedTime proposalData);
     "message" := JStr (message proposalData) ]}.

(** [handleSubmitProposal]; [r] is the outcome of [proposalService.createProposal]. *)
Definition handleSubmitProposal (st : State) (proposalData : ProposalData)
    (r : outcome Proposal) : list (event State) :=
  match user st, request st with
  | Some user, Some request =>
      match find (fun p => String.eqb (pr_designerId p) (u_id user)) (proposals st) with
      | Some existingProposal =>
          [Toast "Proposal already submitted"
                 "You have already submitted a proposal for this request." true]
      | None =>
          Call (createProposal (create_payload request proposalData)) ::
          match r with
          | Resolved newProposal =>
              let st1 := setProposals st (fun prev => prev ++ [newProposal]) in
              [SetState st1;
               Toast "Proposal submitted" "Your proposal has been successfully submitted." false;
               SetState (setActiveTab st1 "proposals")]
          | Thrown msg => [Toast "Error" msg true]
          end
      end
  | _, _ => []
  end.

(** The update of the local list in [handleAcceptProposal]. *)
Definition accept_in_list (proposalId : string) (prev : list Proposal) : list Proposal :=
  map (fun prop =>
         if String.eqb (pr_id prop) proposalId then proposal_with_status prop "accepted"
         else if negb (String.eqb (pr_id prop) proposalId)
                 && negb (String.eqb (pr_status prop) "rejected")
              then proposal_with_status prop "rejected"
              else prop) prev.

(** The update of the local list in [handleRejectProposal]. *)
Definition reject_in_list (proposalId : string) (prev : list Proposal) : list Proposal :=
  map (fun prop =>
         if String.eqb (pr_id prop) proposalId then proposal_with_status prop "rejected"
         else prop) prev.

(** The number of accepted proposals of a list. *)
Definition accepted_count (ps : list Proposal) : nat :=
  length (List.filter (fun p => String.eqb (pr_status p) "accepted") ps).

(** What a run of the accept or of the reject handler whose call resolved
    does to the local list. *)
Inductive decision : Type :=
  | Accept (proposalId : string)
  | Reject (proposalId : string).

Definition decide_in_list (ps : list Proposal) (d : decision) : list Proposal :=
  match d with
  | Accept proposalId => accept_in_list proposalId ps
  | Reject proposalId => reject_in_list proposalId ps
  end.

Definition accept_payload : body := {[ "status" := JStr "accepted" ]}.
Definition reject_payload : body := {[ "status" := JStr "rejected" ]}.

Definition assign_payload (proposalId : string) (acceptedProposal : Proposal) : body :=
  {[ "status" := JStr "assigned";
     "acceptedProposalId" := JStr proposalId;
     "acceptedPrice" := JNum (pr_price acceptedProposal);
     "designerId" := JStr (pr_designerId acceptedProposal);
     "designerName" := JStr (pr_designerName acceptedProposal) ]}.

(** The end of [handleAcceptProposal]: the success toast and the reload of the
    timeline; [r3] is the outcome of the fetch and of its [json()]. *)
Definition reload_timeline (st : State) (r3 : outcome (list TimelineUpdate))
    : list (event State) :=
  Toast "Proposal accepted" "You can now message the designer to discuss details." false ::
  Call (fetchTimeline (id st)) ::
  match r3 with
  | Resolved updatedTimelineData => [SetState (setTimeline st (fun _ => updatedTimelineData))]
  | Thrown msg => [Toast "Error" msg true]
  end.

(** [handleAcceptProposal]; [r1] is the outcome of [proposalService.updateProposal],
    [r2] of [requestService.updateRequest], [r3] of the timeline fetch.  The
    [proposals] and [request] the handler reads are those of the render it was
    created in, [st]. *)
Definition handleAcceptProposal (st : State) (proposalId : string)
    (r1 r2 : outcome unit) (r3 : outcome (list TimelineUpdate)) : list (event State) :=
  Call (updateProposal proposalId accept_payload) ::
  match r1 with
  | Thrown msg => [Toast "Error" msg true]
  | Resolved _ =>
      let st1 := setProposals st (accept_in_list proposalId) in
      SetState st1 ::
      match request st with
      | Some request =>
          match find (fun p => String.eqb (pr_id p) proposalId) (proposals st) with
          | Some acceptedProposal =>
              let st2 := setRequest st1 (Some (request_assigned request proposalId acceptedProposal)) in
              SetState st2 ::
              Call (updateRequest (rq_id request) (assign_payload proposalId acceptedProposal)) ::
              match r2 with
              | Resolved _ => reload_timeline st2 r3
              | Thrown msg => [Toast "Error" msg true]
              end
          | None => reload_timeline st1 r3
          end
      | None => reload_timeline st1 r3
      end
  end.

(** [handleRejectProposal] *)
Definition handleRejectProposal (st : State) (proposalId : string) (r : outcome unit)
    : list (event State) :=
  Call (updateProposal proposalId reject_payload) ::
  match r with
  | Resolved _ =>
      [SetState (setProposals st (reject_in_list proposalId));
       Toast "Proposal rejected" "The proposal has been rejected." false]
  | Thrown msg => [Toast "Error" msg true]
  end.

Definition timeline_payload (request : ProjectRequest) (status message : string) : body :=
  {[ "requestId" := JStr (rq_id request);
     "status" := JStr status;
     "message" := JStr message ]}.

Definition completed_payload : body := {[ "status" := JStr "completed" ]}.

(** [handleAddTimelineUpdate]; [r1] is the outcome of the POST to
    [/api/timeline] and of its [json()], [r2] of [requestService.updateRequest].
    A failure of the latter is caught by the inner [try]: it is logged and the
    request is put back. *)
Definition handleAddTimelineUpdate (st : State) (status message : string)
    (r1 : outcome TimelineUpdate) (r2 : outcome unit) : list (event State) :=
  match request st with
  | None => []
  | Some request =>
      Call (postTimeline (timeline_payload request status message)) ::
      match r1 with
      | Thrown msg => [Toast "Error" msg true]
      | Resolved newUpdate =>
          let st1 := setTimeline st (fun prev => prev ++ [newUpdate]) in
          SetState st1 ::
          (if String.eqb status "delivered" then
             let updatedRequest := request_with_status request "completed" in
             let st2 := setRequest st1 (Some updatedRequest) in
             SetState st2 ::
             Call (updateRequest (rq_id request) completed_payload) ::
             match r2 with
             | Resolved _ => []
             | Thrown _ => [SetState (setRequest st2 (Some request))]
             end
           else [])
          ++ [Toast "Timeline updated" "The project timeline has been updated successfully." false]
      end
  end.

End RequestDetails.

(** ** components/designer/ProposalCard.tsx *)

Module ProposalCard.
Import Client.

(** The footer with the Accept and Decline buttons is rendered for
    [isCustomer && proposal.status === 'pending']. *)
Definition accept_footer (isCustomer : bool) (proposal : Proposal) : bool :=
  isCustomer && String.eqb (pr_status proposal) "pending".

End ProposalCard.

(** ** components/shared/TimelineUpdateForm.tsx *)

Module TimelineUpdateForm.
Import Client.

Record StatusOption : Type := {
  value : string;
  label : string
}.

Definition defaultStatuses : list StatusOption :=
  [ {| value := "design"; label := "Design Complete" |};
    {| value := "material"; label := "Materials Selected" |};
    {| value := "production"; label := "Production Started" |};
    {| value := "quality"; label := "Quality Check" |};
    {| value := "shipping"; label := "Shipping" |};
    {| value := "delivered"; label := "Delivered" |} ].

(** [customStatuses || defaultStatuses] *)
Definition availableStatuses (customStatuses : option (list StatusOption)) : list StatusOption :=
  match customStatuses with
  | Some l => l
  | None => defaultStatuses
  end.

(** The options of the status select: those whose value is not yet in the
    timeline. *)
Definition filteredStatuses (existingStatuses : list string)
    (customStatuses : option (list StatusOption)) : list StatusOption :=
  List.filter (fun statusOption => negb (existsb (String.eqb (value statusOption)) existingStatuses))
              (availableStatuses customStatuses).

(** The state of the form; [status] starts as ['design']. *)
Record Form : Type := {
  status : string;
  message : string;
  paymentRequired : bool;
  paymentAmount : option number
}.

Definition initial : Form :=
  {| status := "design"; message := ""; paymentRequired := false; paymentAmount := None |}.

(** The submit button is disabled for
    [!status || !message || (paymentRequired && !paymentAmount)]. *)
Definition submit_disabled (f : Form) : bool :=
  String.eqb (status f) ""
  || String.eqb (message f) ""
  || (paymentRequired f
      && match paymentAmount f with
         | Some a => negb (truthy_number a)
         | None => true
         end).

(** [handleSubmit]: the arguments given to [onSubmit], if it is called, and
    the form afterwards (the message is cleared, the status is kept). *)
Definition handleSubmit (f : Form)
    : option (string * string * bool * option number) * Form :=
  if negb (String.eqb (status f) "") && negb (String.eqb (message f) "") then
    (Some (status f, message f, paymentRequired f, paymentAmount f),
     {| status := status f; message := ""; paymentRequired := paymentRequired f;
        paymentAmount := paymentAmount f |})
  else (None, f).

(** A submission of the form.  It goes through the submit button, by a click
    or by the Enter key in the amount field, and a disabled button submits
    nothing. *)
Definition submit (f : Form) : option (string * string * bool * option number) * Form :=
  if submit_disabled f then (None, f) else handleSubmit f.

End TimelineUpdateForm.

(** ** pages/designer/ManageOrder.tsx *)

Module ManageOrder.
Import Client.

(** The state of the page.  What the page stores as its user is the Promise
    of [getCurrentUser], which it does not await. *)
Record State : Type := {
  user : option (promise (option User));
  request : option ProjectRequest;
  timeline : list TimelineUpdate
}.

Definition setUser (st : State) (u : option (promise (option User))) : State :=
  {| user := u; request := request st; timeline := timeline st |}.

Definition setRequest (st : State) (r : option ProjectRequest) : State :=
  {| user := user st; request := r; timeline := timeline st |}.

Definition setTimeline (st : State) (f : list TimelineUpdate -> list TimelineUpdate) : State :=
  {| user := user st; request := request st; timeline := f (timeline st) |}.

(** The page as it is mounted. *)
Definition initial : State := {| user := None; request := None; timeline := [] |}.

(** [fetchData], the loader of the page; [id] is the parameter of the route.
    [userData] is the Promise of [getCurrentUser] itself: the page reads
    [role] and [id] off it.  [r1] is the outcome of
    [requestService.getRequestById], [r2] of the timeline fetch.  The
    [loading] flag is left out. *)
Definition fetchData (st : State) (id : string) (userData : promise (option User))
    (r1 : outcome (option ProjectRequest)) (r2 : outcome (list TimelineUpdate))
    : list (event State) :=
  if negb (promise_truthy userData)
     || negb (same (promise_field userData "role") (Some "designer"))
  then [Navigate "/auth"]
  else
    let st1 := setUser st (Some userData) in
    SetState st1 ::
    if String.eqb id "" then []
    else
      Call (getRequestById id) ::
      match r1 with
      | Thrown _ => [Toast "Error" "Failed to load order details" true]
      | Resolved requestData =>
          match requestData with
          | Some rd =>
              if negb (same (rq_designerId rd) (promise_field userData "id")) then
                [Toast "Access denied" "You don't have permission to manage this order." true;
                 Navigate "/marketplace"]
              else
                let st2 := setRequest st1 (Some rd) in
                SetState st2 ::
                Call (fetchTimeline id) ::
                match r2 with
                | Thrown _ => [Toast "Error" "Failed to load order details" true]
                | Resolved timelineData =>
                    [SetState (setTimeline st2 (fun _ => timelineData))]
                end
          | None =>
              [Toast "Access denied" "You don't have permission to manage this order." true;
               Navigate "/marketplace"]
          end
      end.

(** What the page renders once loading is over: "Order not found" without a
    request, the order with its form and its cards with one. *)
Definition order_shown (st : State) : bool :=
  match request st with
  | Some _ => true
  | None => false
  end.

(** The body of the POST to [/api/timeline]; [JSON.stringify] drops the
    [paymentAmount] that is [undefined]. *)
Definition timeline_payload (request : ProjectRequest) (status message : string)
    (paymentRequired : bool) (paymentAmount : option Q) : body :=
  let b : body :=
    {[ "requestId" := JStr (rq_id request);
       "status" := JStr status;
       "message" := JStr message;
       "paymentRequired" := JBool paymentRequired ]} in
  match paymentAmount with
  | Some a => <[ "paymentAmount" := JNum a ]> b
  | None => b
  end.

(** [handleAddTimelineUpdate]; [r] is the outcome of the POST to
    [/api/timeline] and of its [json()]. *)
Definition handleAddTimelineUpdate (st : State) (status message : string)
    (paymentRequired : bool) (paymentAmount : option Q)
    (r : outcome TimelineUpdate) : list (event State) :=
  match request st with
  | None => []
  | Some request =>
      Call (postTimeline (timeline_payload request status message paymentRequired paymentAmount)) ::
      match r with
      | Thrown msg => [Toast "Error" msg true]
      | Resolved newUpdate =>
          let st1 := setTimeline st (fun prev => prev ++ [newUpdate]) in
          SetState st1 ::
          (if String.eqb status "delivered"
           then [SetState (setRequest st1 (Some (request_with_status request "completed")))]
           else [])
          ++ [Toast "Timeline updated" "The project timeline has been updated successfully." false]
      end
  end.

(** [request.acceptedPrice || 0].  Amounts are rationals here; the product
    by 0.25 the page computes is exact in binary floating point (short of
    underflow), so no rounding is lost on it. *)
Definition acceptedPrice_or_0 (request : ProjectRequest) : Q :=
  match rq_acceptedPrice request with
  | Some p => p
  | None => 0%Q
  end.

(** The [onSubmit] given to the form: the payment of a stage,
    [(paymentRequired, paymentAmount)]. *)
Definition stage_payment (request : ProjectRequest) (status : string) : bool * option Q :=
  let p1 : bool * option Q :=
    if existsb (String.eqb status) ["stitched"; "fitting"]
    then (true, Some (acceptedPrice_or_0 request * (25 # 100))%Q)
    else (false, None) in
  if String.eqb status "delivered"
  then (true, Some (acceptedPrice_or_0 request * (25 # 100))%Q)
  else p1.

Definition onSubmit (st : State) (status message : string) (r : outcome TimelineUpdate)
    : list (event State) :=
  match request st with
  | None => []
  | Some request =>
      let '(paymentRequired, paymentAmount) := stage_payment request status in
      handleAddTimelineUpdate st status message paymentRequired paymentAmount r
  end.

(** The stages the page offers in the form. *)
Definition customStatuses : list TimelineUpdateForm.StatusOption :=
  [ {| TimelineUpdateForm.value := "assigned"; TimelineUpdateForm.label := "Order Assigned" |};
    {| TimelineUpdateForm.value := "stitched"; TimelineUpdateForm.label := "Stitching Complete" |};
    {| TimelineUpdateForm.value := "dyed"; TimelineUpdateForm.label := "Dyeing Complete" |};
    {| TimelineUpdateForm.value := "fitting"; TimelineUpdateForm.label := "Fitting Complete" |};
    {| TimelineUpdateForm.value := "out_for_delivery"; TimelineUpdateForm.label := "Out for Delivery" |};
    {| TimelineUpdateForm.value := "delivered"; TimelineUpdateForm.label := "Delivered" |} ].

(** [x.toFixed(2)], read in cents: the integer [n] for which [n / 100] is
    nearest to [x], the larger one when two are as near; the sign of a
    negative [x] is put apart first.  (Below 1e21, where the method writes
    digits.  The method rounds the exact value of the number, so on the
    rationals that are floating-point numbers this is what it gives.) *)
Definition toFixed2 (x : Q) : Z :=
  if Qle_bool 0 x then Qfloor (x * 100 + (1 # 2))%Q
  else (- Qfloor ((- x) * 100 + (1 # 2))%Q)%Z.

(** The lines of the Payment Schedule card, as the card shows them: in
    cents.  The last line is the total. *)
Definition payment_schedule (request : ProjectRequest) : list (string * Z) :=
  [ ("Initial Payment (25%)", toFixed2 (acceptedPrice_or_0 request * (25 # 100))%Q);
    ("Stitching Complete (25%)", toFixed2 (acceptedPrice_or_0 request * (25 # 100))%Q);
    ("Fitting Complete (25%)", toFixed2 (acceptedPrice_or_0 request * (25 # 100))%Q);
    ("Delivery (25%)", toFixed2 (acceptedPrice_or_0 request * (25 # 100))%Q);
    ("Total", toFixed2 (acceptedPrice_or_0 request)) ].

(** What happens on the page: the loader runs, when the page is mounted and
    when its route changes, or the form is submitted, which the page renders
    with the order only. *)
Inductive action : Type :=
  | Load (id : string) (me : option User)
         (r1 : outcome (option ProjectRequest)) (r2 : outcome (list TimelineUpdate))
  | Submit (status message : string) (r : outcome TimelineUpdate).

Definition react (st : State) (a : action) : list (event State) :=
  match a with
  | Load id me r1 r2 => fetchData st id (getCurrentUser me) r1 r2
  | Submit status message r =>
      if order_shown st then onSubmit st status message r else []
  end.

(** The page after a sequence of actions, and the calls made on the way. *)
Definition replay (st : State) (actions : list action) : State * list api_call :=
  foldl (fun acc a => (final acc.1 (react acc.1 a), acc.2 ++ calls (react acc.1 a)))
        (st, []) actions.

(** The sum of the payment amounts the stages of a timeline carry. *)
Definition stage_total (request : ProjectRequest) (stages : list string) : Q :=
  foldr (fun status acc =>
           match (stage_payment request status).2 with
           | Some a => (a + acc)%Q
           | None => acc
           end) 0%Q stages.

End ManageOrder.

(** ** pages/customer/Payment.tsx *)

Module Payment.
Import Client.

(** The state of the page.  What the page stores as its user is the Promise
    of [getCurrentUser], which it does not await. *)
Record State : Type := {
  user : option (promise (option User));
  request : option ProjectRequest;
  timelineUpdate : option TimelineUpdate;
  processingPayment : bool
}.

Definition setUser (st : State) (u : option (promise (option User))) : State :=
  {| user := u; request := request st; timelineUpdate := timelineUpdate st;
     processingPayment := processingPayment st |}.

Definition setRequest (st : State) (r : option ProjectRequest) : State :=
  {| user := user st; request := r; timelineUpdate := timelineUpdate st;
     processingPayment := processingPayment st |}.

Definition setTimelineUpdate (st : State) (u : option TimelineUpdate) : State :=
  {| user := user st; request := request st; timelineUpdate := u;
     processingPayment := processingPayment st |}.

Definition setProcessingPayment (st : State) (b : bool) : State :=
  {| user := user st; request := request st; timelineUpdate := timelineUpdate st;
     processingPayment := b |}.

(** The page as it is mounted. *)
Definition initial : State :=
  {| user := None; request := None; timelineUpdate := None; processingPayment := false |}.

(** The update the page loads: the one with the id of the route, unless it
    needs no payment or is paid already. *)
Definition select_update (timelineData : list TimelineUpdate) (updateId : string)
    : option TimelineUpdate :=
  match find (fun u => String.eqb (tu_id u) updateId) timelineData with
  | Some update =>
      if negb (match tu_paymentRequired update with Some b => b | None => false end)
         || match tu_paymentStatus update with
            | Some s => String.eqb s "paid"
            | None => false
            end
      then None
      else Some update
  | None => None
  end.

(** [fetchData], the loader of the page; [id] and [updateId] are the
    parameters of the route.  [userData] is the Promise of [getCurrentUser]
    itself: the page reads [role] and [id] off it.  [r1] is the outcome of
    [requestService.getRequestById], [r2] of the timeline fetch.  The
    [loading] flag is left out. *)
Definition fetchData (st : State) (id updateId : string) (userData : promise (option User))
    (r1 : outcome (option ProjectRequest)) (r2 : outcome (list TimelineUpdate))
    : list (event State) :=
  if negb (promise_truthy userData)
     || negb (same (promise_field userData "role") (Some "customer"))
  then [Navigate "/auth"]
  else
    let st1 := setUser st (Some userData) in
    SetState st1 ::
    if String.eqb id "" || String.eqb updateId "" then []
    else
      Call (getRequestById id) ::
      match r1 with
      | Thrown _ => [Toast "Error" "Failed to load payment details" true]
      | Resolved requestData =>
          match requestData with
          | Some rd =>
              if negb (same (Some (rq_customerId rd)) (promise_field userData "id")) then
                [Toast "Access denied"
                       "You don't have permission to view this payment page." true;
                 Navigate "/my-requests"]
              else
                let st2 := setRequest st1 (Some rd) in
                SetState st2 ::
                Call (fetchTimeline id) ::
                match r2 with
                | Thrown _ => [Toast "Error" "Failed to load payment details" true]
                | Resolved timelineData =>
                    match select_update timelineData updateId with
                    | Some update => [SetState (setTimelineUpdate st2 (Some update))]
                    | None =>
                        [Toast "Payment not required"
                               "This update does not require payment or has already been paid."
                               true;
                         Navigate ("/requests/" +:+ id)]
                    end
                end
          | None =>
              [Toast "Access denied"
                     "You don't have permission to view this payment page." true;
               Navigate "/my-requests"]
          end
      end.

Definition payment_payload (request : ProjectRequest) (update : TimelineUpdate) (amount : Q)
    : body :=
  {[ "requestId" := JStr (rq_id request);
     "timelineUpdateId" := JStr (tu_id update);
     "amount" := JNum amount ]}.

(** [handleMakePayment]; [r] is the outcome of the POST to [/api/payments]
    ([fetch] resolves whatever the status of the response, and the handler
    does not read the response).  The simulated delay before the call is left
    out, and so is the amount in the text of the toast. *)
Definition handleMakePayment (st : State) (r : outcome unit) : list (event State) :=
  match request st, timelineUpdate st with
  | Some request, Some update =>
      match tu_paymentAmount update with
      | Some amount =>
          if Qeq_bool amount 0%Q then []
          else
            SetState (setProcessingPayment st true) ::
            Call (postPayments (payment_payload request update amount)) ::
            match r with
            | Resolved _ =>
                [Toast "Payment successful" "Your payment has been processed." false;
                 Navigate ("/requests/" +:+ rq_id request)]
            | Thrown msg => [Toast "Payment failed" msg true]
            end
            ++ [SetState (setProcessingPayment (setProcessingPayment st true) false)]
      | None => []
      end
  | _, _ => []
  end.

(** What the page renders once loading is over: "Payment details not found"
    without a request or an update, the payment with its Pay button with
    both. *)
Definition payment_shown (st : State) : bool :=
  match request st, timelineUpdate st with
  | Some _, Some _ => true
  | _, _ => false
  end.

(** What happens on the page: the loader runs, when the page is mounted and
    when its route changes, or the Pay button is clicked, which is rendered
    with the payment and disabled while a payment is processed. *)
Inductive action : Type :=
  | Load (id updateId : string) (me : option User)
         (r1 : outcome (option ProjectRequest)) (r2 : outcome (list TimelineUpdate))
  | Pay (r : outcome unit).

Definition react (st : State) (a : action) : list (event State) :=
  match a with
  | Load id updateId me r1 r2 => fetchData st id updateId (getCurrentUser me) r1 r2
  | Pay r =>
      if payment_shown st && negb (processingPayment st) then handleMakePayment st r
      else []
  end.

(** The page after a sequence of actions, and the calls made on the way. *)
Definition replay (st : State) (actions : list action) : State * list api_call :=
  foldl (fun acc a => (final acc.1 (react acc.1 a), acc.2 ++ calls (react acc.1 a)))
        (st, []) actions.

End Payment.

(** ** pages/shared/Messages.tsx *)

Module Messages.
Import Client.

Record ChatPartner : Type := {
  partner : User;
  lastMessage : option Message
}.

(** The state of the page.  What the page stores as its user is the Promise
    of [getCurrentUser], which it does not await. *)
Record State : Type := {
  user : option (promise (option User));
  chatPartners : list ChatPartner;
  selectedPartner : option User;
  messages : list Message
}.

Definition setUser (st : State) (u : option (promise (option User))) : State :=
  {| user := u; chatPartners := chatPartners st;
     selectedPartner := selectedPartner st; messages := messages st |}.

Definition setChatPartners (st : State) (partners : list ChatPartner) : State :=
  {| user := user st; chatPartners := partners;
     selectedPartner := selectedPartner st; messages := messages st |}.

Definition setSelectedPartner (st : State) (p : option User) : State :=
  {| user := user st; chatPartners := chatPartners st;
     selectedPartner := p; messages := messages st |}.

Definition setMessages (st : State) (f : list Message -> list Message) : State :=
  {| user := user st; chatPartners := chatPartners st;
     selectedPartner := selectedPartner st; messages := f (messages st) |}.

(** The page as it is mounted. *)
Definition initial : State :=
  {| user := None; chatPartners := []; selectedPartner := None; messages := [] |}.

(** [checkAuthAndFetchData], the loader of the page. *)
Section Loader.

(** [messages.sort((a, b) => time b - time a)[0]]: the latest message of a
    list that is not empty. *)
Variable latest : list Message -> option Message.

(** The answers of the services, each the [data] of the response or what the
    call throws. *)
Variable requests_of : list (string * string) -> outcome (list ProjectRequest).
Variable proposals_of : list (string * string) -> outcome (list Proposal).
Variable request_by_id : string -> outcome (option ProjectRequest).
Variable user_by_id : string -> outcome (option User).
Variable messages_of : string -> string -> outcome (list Message).

(** [chatService.getMessages(userData.id, other.id)]: the ids are written into
    the query string. *)
Definition getMessages_of (userData : promise (option User)) (other : User)
    : run State (list Message) :=
  awaiting (getMessages (template (promise_field userData "id")) (u_id other))
           (messages_of (template (promise_field userData "id")) (u_id other)).

(** The partner pushed for a user that was found. *)
Definition partner_of (userData : promise (option User)) (found : User)
    : run State ChatPartner :=
  let! messages := getMessages_of userData found in
  ret {| partner := found;
         lastMessage := match messages with
                        | [] => None
                        | _ :: _ => latest messages
                        end |}.

(** The branch of a customer: the designers of the customer's requests. *)
Definition customer_partners (userData : promise (option User)) : run State (list ChatPartner) :=
  let! userRequests :=
    awaiting (getRequests (queryParams [("customerId", promise_field userData "id")]))
             (requests_of (queryParams [("customerId", promise_field userData "id")])) in
  foldl (fun (acc : run State (list ChatPartner)) request =>
           let! partners := acc in
           match rq_designerId request with
           | Some designerId =>
               if String.eqb designerId "" then ret partners
               else
                 let! designer := awaiting (getUserById designerId) (user_by_id designerId) in
                 match designer with
                 | Some d => let! p := partner_of userData d in ret (partners ++ [p])
                 | None => ret partners
                 end
           | None => ret partners
           end)
        (ret []) userRequests.

(** The other branch: the customers of the requests of the accepted
    proposals. *)
Definition designer_partners (userData : promise (option User)) : run State (list ChatPartner) :=
  let! acceptedProposals :=
    awaiting (getProposals (queryParams [("designerId", promise_field userData "id");
                                         ("status", Some "accepted")]))
             (proposals_of (queryParams [("designerId", promise_field userData "id");
                                         ("status", Some "accepted")])) in
  foldl (fun (acc : run State (list ChatPartner)) proposal =>
           let! partners := acc in
           let! request := awaiting (getRequestById (pr_requestId proposal))
                                    (request_by_id (pr_requestId proposal)) in
           match request with
           | Some rq =>
               let! customer := awaiting (getUserById (rq_customerId rq))
                                         (user_by_id (rq_customerId rq)) in
               match customer with
               | Some c => let! p := partner_of userData c in ret (partners ++ [p])
               | None => ret partners
               end
           | None => ret partners
           end)
        (ret []) acceptedProposals.

(** What follows the choice of the branch: the partners are stored and the
    first of them is selected. *)
Definition store_partners (st : State) (userData : promise (option User))
    (partners : list ChatPartner) : run State unit :=
  let st2 := setChatPartners st partners in
  let! _ := emit (SetState st2) in
  match partners with
  | [] => ret tt
  | first :: _ =>
      let st3 := setSelectedPartner st2 (Some (partner first)) in
      let! _ := emit (SetState st3) in
      let! messages := getMessages_of userData (partner first) in
      emit (SetState (setMessages st3 (fun _ => messages)))
  end.

(** [userData] is the Promise of [getCurrentUser] itself: the page stores it
    as its user and reads [role] and [id] off it.  What is thrown on the way
    is caught and logged; the [loading] flag is left out. *)
Definition checkAuthAndFetchData (st : State) (userData : promise (option User))
    : list (event State) :=
  if negb (promise_truthy userData) then [Navigate "/auth"]
  else
    let st1 := setUser st (Some userData) in
    SetState st1 ::
    (let! partners :=
       (if same (promise_field userData "role") (Some "customer")
        then customer_partners userData
        else designer_partners userData) in
     store_partners st1 userData partners).1.

End Loader.

(** The calls of a user without role and without id: the accepted proposals
    of no designer in particular, the requests and users they lead to, and
    messages of the sender "undefined". *)
Definition roleless_call (c : api_call) : bool :=
  match c with
  | getProposals query => bool_decide (query = [("status", "accepted")])
  | getRequestById _ | getUserById _ => true
  | getMessages senderId _ => String.eqb senderId "undefined"
  | _ => false
  end.

Definition roleless_event (e : event State) : bool :=
  match e with
  | Call c => roleless_call c
  | _ => false
  end.

(** [{ senderId: user.id, receiverId: selectedPartner.id, content, image }];
    [user] is what the page stores, the Promise, and the fields that are
    [undefined] are not sent. *)
Definition message_payload (user : promise (option User)) (selectedPartner : User)
    (content : string) (imageUrl : option string) : body :=
  let b0 : body :=
    {[ "receiverId" := JStr (u_id selectedPartner);
       "content" := JStr content ]} in
  let b1 : body :=
    match promise_field user "id" with
    | Some senderId => <[ "senderId" := JStr senderId ]> b0
    | None => b0
    end in
  match imageUrl with
  | Some url => <[ "image" := JStr url ]> b1
  | None => b1
  end.

(** [handleSendMessage]; [imageUrl] is the data URL read from the attached
    file, [r] the outcome of [chatService.sendMessage]. *)
Definition handleSendMessage (st : State) (content : string) (imageUrl : option string)
    (r : outcome Message) : list (event State) :=
  match user st, selectedPartner st with
  | Some user, Some selectedPartner =>
      Call (sendMessage (message_payload user selectedPartner content imageUrl)) ::
      match r with
      | Resolved newMessage => [SetState (setMessages st (fun prev => prev ++ [newMessage]))]
      | Thrown msg => [Toast "Error" msg true]
      end
  | _, _ => []
  end.

End Messages.

(** ** More of the backend *)

Module ServerMore.
Import Server.

(** The answer of a DELETE handler: [res.json({success, message})], without
    data. *)
Definition done (m : string) : response unit :=
  {| code := 200; success := true; message := m; data := None |}.

(** [app.delete("/api/designer-proposals/:proposalId")]:
    [DELETE FROM designer_proposals WHERE proposal_id = $1 RETURNING proposal_id]. *)
Definition delete_designer_proposal (proposalId : nat) (db : DB) : response unit * DB :=
  let hit r := Nat.eqb (proposal_id r) proposalId in
  let returned := List.filter hit (designer_proposals db) in
  if Nat.eqb (length returned) 0 then
    (fail 404 "Designer proposal not found", db)
  else
    (done "Designer proposal deleted successfully",
     with_proposals db (List.filter (fun r => negb (hit r)) (designer_proposals db))).

(** *** Payments *)

Definition set_payment_column (r : payment_row) (a : string * jsval) : payment_row :=
  if String.eqb a.1 "amount" then
    {| payment_id := payment_id r; pay_user_id := pay_user_id r;
       pay_merchant_id := pay_merchant_id r; pay_order_id := pay_order_id r;
       pay_amount := a.2; pay_payment_method := pay_payment_method r;
       pay_payment_type := pay_payment_type r; pay_status := pay_status r;
       pay_transaction_id := pay_transaction_id r |}
  else if String.eqb a.1 "payment_method" then
    {| payment_id := payment_id r; pay_user_id := pay_user_id r;
       pay_merchant_id := pay_merchant_id r; pay_order_id := pay_order_id r;
       pay_amount := pay_amount r; pay_payment_method := a.2;
       pay_payment_type := pay_payment_type r; pay_status := pay_status r;
       pay_transaction_id := pay_transaction_id r |}
  else if String.eqb a.1 "payment_type" then
    {| payment_id := payment_id r; pay_user_id := pay_user_id r;
       pay_merchant_id := pay_merchant_id r; pay_order_id := pay_order_id r;
       pay_amount := pay_amount r; pay_payment_method := pay_payment_method r;
       pay_payment_type := a.2; pay_status := pay_status r;
       pay_transaction_id := pay_transaction_id r |}
  else if String.eqb a.1 "status" then
    {| payment_id := payment_id r; pay_user_id := pay_user_id r;
       pay_merchant_id := pay_merchant_id r; pay_order_id := pay_order_id r;
       pay_amount := pay_amount r; pay_payment_method := pay_payment_method r;
       pay_payment_type := pay_payment_type r; pay_status := a.2;
       pay_transaction_id := pay_transaction_id r |}
  else if String.eqb a.1 "transaction_id" then
    {| payment_id := payment_id r; pay_user_id := pay_user_id r;
       pay_merchant_id := pay_merchant_id r; pay_order_id := pay_order_id r;
       pay_amount := pay_amount r; pay_payment_method := pay_payment_method r;
       pay_payment_type := pay_payment_type r; pay_status := pay_status r;
       pay_transaction_id := a.2 |}
  else r.

Definition update_payments (updates : list (string * jsval)) (paymentId : nat)
    (rows : list payment_row) : list payment_row * list payment_row :=
  let hit r := Nat.eqb (payment_id r) paymentId in
  let rows' := map (fun r => if hit r then foldl set_payment_column r updates else r) rows in
  (rows', List.filter hit rows').

(** The assignment pushed for a field that is truthy ([if (x)]). *)
Definition pushed_if_truthy (column : string) (v : option jsval) : list (string * jsval) :=
  if truthy v then [(column, or_default JNull v)] else [].

(** [app.put("/api/payments/:paymentId")].  The payment type is validated
    before the status. *)
Definition put_payment (paymentId : nat) (b : body) (db : DB) : response payment_row * DB :=
  let payment_type : option jsval := b !! "payment_type" in
  let status : option jsval := b !! "status" in
  if truthy payment_type && negb (includes payment_types (or_default JNull payment_type)) then
    (fail 400 "Invalid payment_type. Must be Customer Payment or Merchant Payout", db)
  else if truthy status && negb (includes payment_statuses (or_default JNull status)) then
    (fail 400 "Invalid status. Must be Pending, Completed, or Failed", db)
  else
    let updates :=
      pushed "amount" (b !! "amount")
      ++ pushed_if_truthy "payment_method" (b !! "payment_method")
      ++ pushed_if_truthy "payment_type" payment_type
      ++ pushed_if_truthy "status" status
      ++ pushed "transaction_id" (b !! "transaction_id") in
    if Nat.eqb (length updates) 0 then
      (fail 400 "No fields to update", db)
    else
      let '(rows', returned) := update_payments updates paymentId (payments db) in
      match returned with
      | [] => (fail 404 "Payment not found", db)
      | row :: _ => (ok 200 "Payment updated successfully" row, with_payments db rows')
      end.

(** [app.delete("/api/payments/:paymentId")] *)
Definition delete_payment (paymentId : nat) (db : DB) : response unit * DB :=
  let hit r := Nat.eqb (payment_id r) paymentId in
  let returned := List.filter hit (payments db) in
  if Nat.eqb (length returned) 0 then
    (fail 404 "Payment not found", db)
  else
    (done "Payment deleted successfully",
     with_payments db (List.filter (fun r => negb (hit r)) (payments db))).

(** *** Chat *)

Definition set_chat_column (r : chat_row) (a : string * jsval) : chat_row :=
  if String.eqb a.1 "message" then
    {| chat_id := chat_id r; c_sender_id := c_sender_id r;
       c_receiver_id := c_receiver_id r; c_message := a.2; c_status := c_status r |}
  else if String.eqb a.1 "status" then
    {| chat_id := chat_id r; c_sender_id := c_sender_id r;
       c_receiver_id := c_receiver_id r; c_message := c_message r; c_status := a.2 |}
  else r.

Definition update_chat (updates : list (string * jsval)) (chatId : nat)
    (rows : list chat_row) : list chat_row * list chat_row :=
  let hit r := Nat.eqb (chat_id r) chatId in
  let rows' := map (fun r => if hit r then foldl set_chat_column r updates else r) rows in
  (rows', List.filter hit rows').

(** [app.put("/api/chat/:chatId")]: the status is not validated. *)
Definition put_chat (chatId : nat) (b : body) (db : DB) : response chat_row * DB :=
  let updates :=
    pushed_if_truthy "message" (b !! "message")
    ++ pushed_if_truthy "status" (b !! "status") in
  if Nat.eqb (length updates) 0 then
    (fail 400 "No fields to update", db)
  else
    let '(rows', returned) := update_chat updates chatId (chat db) in
    match returned with
    | [] => (fail 404 "Chat message not found", db)
    | row :: _ => (ok 200 "Chat message updated successfully" row, with_chat db rows')
    end.

(** *** The requests against the proposals and payments tables, as steps *)

Inductive proposal_request : Type :=
  | PostProposal (b : body)
  | PutProposal (proposalId : nat) (b : body)
  | DeleteProposal (proposalId : nat).

Definition serve_proposal (db : DB) (rq : proposal_request) : DB :=
  match rq with
  | PostProposal b => (post_designer_proposal b db).2
  | PutProposal proposalId b => (put_designer_proposal proposalId b db).2
  | DeleteProposal proposalId => (delete_designer_proposal proposalId db).2
  end.

Inductive payment_request : Type :=
  | PostPayment (b : body)
  | PutPayment (paymentId : nat) (b : body)
  | DeletePayment (paymentId : nat).

Definition serve_payment (db : DB) (rq : payment_request) : DB :=
  match rq with
  | PostPayment b => (post_payment b db).2
  | PutPayment paymentId b => (put_payment paymentId b db).2
  | DeletePayment paymentId => (delete_payment paymentId db).2
  end.

(** *** The token middleware *)

(** [s.split(sep)] for a separator of one character. *)
Fixpoint split (sep : Ascii.ascii) (s : string) : list string :=
  match s with
  | EmptyString => [EmptyString]
  | String c s' =>
      if Ascii.eqb c sep then EmptyString :: split sep s'
      else match split sep s' with
           | w :: ws => String c w :: ws
           | [] => [String c EmptyString]
           end
  end.

(** The separator of the authorization header. *)
Definition space : Ascii.ascii := Ascii.ascii_of_nat 32.

(** A word: a string without the separator. *)
Fixpoint free_of (sep : Ascii.ascii) (s : string) : bool :=
  match s with
  | EmptyString => true
  | String c s' => negb (Ascii.eqb c sep) && free_of sep s'
  end.

Inductive auth_result (claims : Type) : Type :=
  | Next (user : claims)
  | Denied (status : nat) (msg : string).
Arguments Next {claims} _.
Arguments Denied {claims} _ _.

Section Token.
Variable claims : Type.

(** [jwt.verify(token, JWT_SECRET)]: the decoded claims, or nothing when it
    throws. *)
Variable verify : string -> option claims.

(** [authHeader && authHeader.split(" ")[1]] *)
Definition token_of (authHeader : option string) : option string :=
  match authHeader with
  | None => None
  | Some h => if String.eqb h "" then Some "" else split space h !! 1%nat
  end.

(** [authenticateToken]; [authHeader] is [req.headers["authorization"]]. *)
Definition authenticateToken (authHeader : option string) : auth_result claims :=
  match token_of authHeader with
  | None => Denied 401 "Access denied. No token provided."
  | Some token =>
      if String.eqb token "" then Denied 401 "Access denied. No token provided."
      else match verify token with
           | Some decoded => Next decoded
           | None => Denied 403 "Invalid token"
           end
  end.
End Token.

End ServerMore.

(** ** components/shared/Timeline.tsx *)

Module Timeline.
Import Client.

Section Sorting.
(** [new Date(timestamp).getTime()], for timestamps that are dates. *)
Variable getTime : string -> Z.

(** [[...updates].sort((a, b) => time a - time b)]: the sort of an array is
    stable, so the result is the one of a stable insertion sort. *)
Fixpoint insert_update (u : TimelineUpdate) (l : list TimelineUpdate) : list TimelineUpdate :=
  match l with
  | [] => [u]
  | v :: l' =>
      if Z.leb (getTime (tu_timestamp u)) (getTime (tu_timestamp v))
      then u :: v :: l'
      else v :: insert_update u l'
  end.

Definition sortedUpdates (updates : list TimelineUpdate) : list TimelineUpdate :=
  foldr insert_update [] updates.
End Sorting.

(** The payment box of an update: [update.paymentRequired && update.paymentAmount]. *)
Definition payment_box_shown (update : TimelineUpdate) : bool :=
  match tu_paymentRequired update with Some b => b | None => false end
  && match tu_paymentAmount update with Some a => negb (Qeq_bool a 0%Q) | None => false end.

(** The Pay Now button inside the box:
    [isCustomer && update.paymentStatus === 'pending' && onMakePayment]. *)
Definition pay_now_shown (isCustomer onMakePayment : bool) (update : TimelineUpdate) : bool :=
  payment_box_shown update
  && (isCustomer
      && match tu_paymentStatus update with Some s => String.eqb s "pending" | None => false end
      && onMakePayment).

End Timeline.

(** ** components/designer/ProposalForm *)

Module ProposalForm.
Import Client.

Section Form.
(** [parseFloat]: the number a string starts with, [NaN] when it starts with
    none. *)
Variable parseFloat : string -> number.

(** [isNaN(priceValue) || priceValue <= 0] *)
Definition invalid_price (priceValue : number) : bool :=
  match priceValue with
  | Finite q => Qle_bool q 0%Q
  | NaN => true
  | Infinity => false
  | NegInfinity => true
  end.

(** [handleSubmit]: a toast, or the data given to [onSubmit]. *)
Definition handleSubmit (price estimatedTime message : string)
    : event unit + RequestDetails.ProposalData :=
  if String.eqb price "" || String.eqb estimatedTime "" || String.eqb message "" then
    inl (Toast "Missing fields"
               "Please fill out all fields before submitting your proposal." true)
  else
    let priceValue := parseFloat price in
    if invalid_price priceValue then
      inl (Toast "Invalid price" "Please enter a valid price greater than zero." true)
    else
      inr {| RequestDetails.price := priceValue;
             RequestDetails.estimatedTime := estimatedTime;
             RequestDetails.message := message |}.
End Form.

End ProposalForm.

(** ** What the request page renders *)

Module RequestDetailsView.
Import Client RequestDetails.

(** [user?.role === "customer"] *)
Definition is_customer (st : State) : bool :=
  match user st with
  | Some u => String.eqb (u_role u) "customer"
  | None => false
  end.

(** [user?.role === "designer"] *)
Definition is_designer (st : State) : bool :=
  match user st with
  | Some u => String.eqb (u_role u) "designer"
  | None => false
  end.

(** [user && proposals.find((p) => p.designerId === user.id)] *)
Definition userProposal (st : State) : option Proposal :=
  match user st with
  | Some u => find (fun p => String.eqb (pr_designerId p) (u_id u)) (proposals st)
  | None => None
  end.

(** [user && request && user.id === request.customerId] *)
Definition isUsersRequest (st : State) : bool :=
  match user st, request st with
  | Some u, Some rq => String.eqb (u_id u) (rq_customerId rq)
  | _, _ => false
  end.

(** [proposals.find((p) => p.status === "accepted")] *)
Definition acceptedProposal (st : State) : option Proposal :=
  find (fun p => String.eqb (pr_status p) "accepted") (proposals st).

(** [user && acceptedProposal && user.id === acceptedProposal.designerId] *)
Definition isAssignedDesigner (st : State) : bool :=
  match user st, acceptedProposal st with
  | Some u, Some ap => String.eqb (u_id u) (pr_designerId ap)
  | _, _ => false
  end.

Definition request_status_is (st : State) (s : string) : bool :=
  match request st with
  | Some rq => String.eqb (rq_status rq) s
  | None => false
  end.

(** The page renders "Request not found" without a request; the flags below
    are those of the page with its request. *)
Definition submit_button_shown (st : State) : bool :=
  is_designer st && negb (isAssignedDesigner st) && request_status_is st "open"
  && match userProposal st with Some _ => false | None => true end.

Definition timeline_tab_shown (st : State) : bool :=
  match request st with
  | Some rq => negb (String.eqb (rq_status rq) "open")
               && (isUsersRequest st || isAssignedDesigner st)
  | None => false
  end.

Definition submit_tab_shown (st : State) : bool :=
  is_designer st && request_status_is st "open"
  && match userProposal st with Some _ => false | None => true end.

(** The Accept button of the card of a listed proposal does something: the
    proposals tab is the active one, the card renders its footer
    ([ProposalCard.accept_footer], with [isCustomer] the role test of the
    page) and is given an [onAccept], which the page passes for
    [isUsersRequest] only. *)
Definition accept_offered (st : State) (proposal : Proposal) : bool :=
  String.eqb (activeTab st) "proposals"
  && ProposalCard.accept_footer (is_customer st) proposal
  && isUsersRequest st.

(** The timeline form is rendered, in the timeline tab, for
    [isAssignedDesigner]. *)
Definition form_shown (st : State) : bool :=
  String.eqb (activeTab st) "timeline" && isAssignedDesigner st.

(** [timeline.map((update) => update.status)] *)
Definition existingTimelineStatuses (st : State) : list string :=
  map tu_status (timeline st).

(** The stages the page gives to the form. *)
Definition customStatuses : list TimelineUpdateForm.StatusOption :=
  [ {| TimelineUpdateForm.value := "assigned"; TimelineUpdateForm.label := "Order Assigned" |};
    {| TimelineUpdateForm.value := "stitched"; TimelineUpdateForm.label := "Stitching Complete" |};
    {| TimelineUpdateForm.value := "dyed"; TimelineUpdateForm.label := "Dyeing Complete" |};
    {| TimelineUpdateForm.value := "fitting"; TimelineUpdateForm.label := "Fitting Complete" |};
    {| TimelineUpdateForm.value := "out_for_delivery"; TimelineUpdateForm.label := "Out for Delivery" |};
    {| TimelineUpdateForm.value := "delivered"; TimelineUpdateForm.label := "Delivered" |} ].

(** The Pay Now button of an update of the timeline:
    [isCustomer={isUsersRequest}] and
    [onMakePayment={isUsersRequest ? handleMakePayment : undefined}]. *)
Definition pay_now_offered (st : State) (update : TimelineUpdate) : bool :=
  String.eqb (activeTab st) "timeline"
  && Timeline.pay_now_shown (isUsersRequest st) (isUsersRequest st) update.

End RequestDetailsView.

(** ** The timeline form in the request page *)

Module FormWiring.
Import Client.

(** The form on the request page: [onSubmit={handleAddTimelineUpdate}], a
    handler of two parameters.  (The order page gives the form the function
    [ManageOrder.onSubmit], of two parameters as well.) *)
Definition submit_on_request_page (st : RequestDetails.State) (f : TimelineUpdateForm.Form)
    (r1 : outcome TimelineUpdate) (r2 : outcome unit) : list (event RequestDetails.State) :=
  match (TimelineUpdateForm.submit f).1 with
  | Some (status, message, _, _) =>
      RequestDetails.handleAddTimelineUpdate st status message r1 r2
  | None => []
  end.

End FormWiring.

(** ** Concrete data for the examples *)

Module Examples.
Import Server.

(** Two pending proposals of two designers on request 7, which is pending. *)
Definition row1 : proposal_row :=
  {| proposal_id := 1; p_request_id := JNum 7; p_merchant_id := JNum 21;
     p_price := JNum 100; p_status := JStr "Pending" |}.

Definition row2 : proposal_row :=
  {| proposal_id := 2; p_request_id := JNum 7; p_merchant_id := JNum 22;
     p_price := JNum 120; p_status := JStr "Pending" |}.

Definition request7 : request_row :=
  {| request_id := 7; r_user_id := JNum 11; r_status := JStr "Pending";
     r_description := JStr "A silk dress"; r_design_images := JNull;
     r_due_date := JNull; r_priority := JStr "normal" |}.

Definition db0 : DB :=
  {| customization_requests := [request7];
     designer_proposals := [row1; row2];
     payments := [];
     chat := [] |}.

Definition empty_db : DB :=
  {| customization_requests := []; designer_proposals := []; payments := []; chat := [] |}.

Definition accepted_body : body := {[ "status" := JStr "Accepted" ]}.

(** The page of customer C on the open request R, with the pending proposals
    P1 of designer D1 (100) and P2 of designer D2 (120). *)
Definition customerC : Client.User :=
  {| Client.u_last_name := "C"; Client.u_first_name := "Customer"; Client.u_id := "C";
     Client.u_name := "Customer C"; Client.u_email := "c@example.org";
     Client.u_role := "customer"; Client.u_profileImage := None |}.

Definition designerD1 : Client.User :=
  {| Client.u_last_name := "D1"; Client.u_first_name := "Designer"; Client.u_id := "D1";
     Client.u_name := "Designer D1"; Client.u_email := "d1@example.org";
     Client.u_role := "designer"; Client.u_profileImage := None |}.

Definition requestR : Client.ProjectRequest :=
  {| Client.rq_id := "R"; Client.rq_title := "Silk dress";
     Client.rq_description := "A silk dress"; Client.rq_customerId := "C";
     Client.rq_customerName := "Customer C"; Client.rq_images := [];
     Client.rq_material := "silk"; Client.rq_budget := None;
     Client.rq_timeframe := None; Client.rq_status := "open";
     Client.rq_createdAt := "2025-01-01"; Client.rq_additionalDetails := None;
     Client.rq_acceptedProposalId := None; Client.rq_acceptedPrice := None;
     Client.rq_designerId := None; Client.rq_designerName := None;
     Client.rq_size := None |}.

Definition proposalP1 : Client.Proposal :=
  {| Client.pr_id := "P1"; Client.pr_requestId := "R"; Client.pr_designerId := "D1";
     Client.pr_designerName := "Designer D1"; Client.pr_designerImage := None;
     Client.pr_price := 100%Q; Client.pr_estimatedTime := "2 weeks";
     Client.pr_message := "I can do it"; Client.pr_status := "pending";
     Client.pr_createdAt := "2025-01-02" |}.

Definition proposalP2 : Client.Proposal :=
  {| Client.pr_id := "P2"; Client.pr_requestId := "R"; Client.pr_designerId := "D2";
     Client.pr_designerName := "Designer D2"; Client.pr_designerImage := None;
     Client.pr_price := 120%Q; Client.pr_estimatedTime := "3 weeks";
     Client.pr_message := "So can I"; Client.pr_status := "pending";
     Client.pr_createdAt := "2025-01-03" |}.

Definition pageC : RequestDetails.State :=
  {| RequestDetails.id := "R"; RequestDetails.user := Some customerC;
     RequestDetails.request := Some requestR;
     RequestDetails.proposals := [proposalP1; proposalP2];
     RequestDetails.timeline := []; RequestDetails.activeTab := "proposals" |}.

(** The request R once P1 is accepted. *)
Definition requestR_assigned : Client.ProjectRequest :=
  Client.request_assigned requestR "P1" proposalP1.

(** A second proposal of merchant 21 on request 7. *)
Definition second_proposal_body : body :=
  {[ "request_id" := JNum 7; "merchant_id" := JNum 21; "price" := JNum 90 ]}.

(** The tables once proposal 1 is accepted and request 7 is marked accepted. *)
Definition db_assigned : Server.DB :=
  (Server.put_customization_request 7 accepted_body
     (Server.put_designer_proposal 1 accepted_body db0).2).2.

(** The page of customer C once P1 is accepted. *)
Definition pageC_assigned : RequestDetails.State :=
  Client.final pageC
    (RequestDetails.handleAcceptProposal pageC "P1" (Client.Resolved tt)
       (Client.Resolved tt) (Client.Resolved [])).

(** The page of designer D1 on the open request R, with the proposal P1. *)
Definition pageD1 : RequestDetails.State :=
  {| RequestDetails.id := "R"; RequestDetails.user := Some designerD1;
     RequestDetails.request := Some requestR;
     RequestDetails.proposals := [proposalP1];
     RequestDetails.timeline := []; RequestDetails.activeTab := "details" |}.

Definition proposal_form : RequestDetails.ProposalData :=
  {| RequestDetails.price := Finite 90; RequestDetails.estimatedTime := "1 week";
     RequestDetails.message := "Cheaper now" |}.

(** The order page of designer D1 on the assigned request R (price 100), with
    the stage "stitched" already in the timeline. *)
Definition update_stitched : Client.TimelineUpdate :=
  {| Client.tu_id := "U1"; Client.tu_requestId := "R"; Client.tu_status := "stitched";
     Client.tu_message := "Stitching done"; Client.tu_timestamp := "2025-02-01";
     Client.tu_paymentRequired := Some true; Client.tu_paymentAmount := Some 25%Q;
     Client.tu_paymentStatus := Some "pending" |}.

Definition update_stitched_again : Client.TimelineUpdate :=
  {| Client.tu_id := "U2"; Client.tu_requestId := "R"; Client.tu_status := "stitched";
     Client.tu_message := "again"; Client.tu_timestamp := "2025-02-02";
     Client.tu_paymentRequired := Some true; Client.tu_paymentAmount := Some 25%Q;
     Client.tu_paymentStatus := Some "pending" |}.

Definition update_delivered : Client.TimelineUpdate :=
  {| Client.tu_id := "U3"; Client.tu_requestId := "R"; Client.tu_status := "delivered";
     Client.tu_message := "Delivered"; Client.tu_timestamp := "2025-03-01";
     Client.tu_paymentRequired := Some true; Client.tu_paymentAmount := Some 25%Q;
     Client.tu_paymentStatus := Some "pending" |}.

Definition orderD1 : ManageOrder.State :=
  {| ManageOrder.user := Some (Client.getCurrentUser (Some designerD1));
     ManageOrder.request := Some requestR_assigned;
     ManageOrder.timeline := [update_stitched] |}.

(** The form after "stitched" has been submitted once and a new message typed. *)
Definition form_stitched : TimelineUpdateForm.Form :=
  {| TimelineUpdateForm.status := "stitched"; TimelineUpdateForm.message := "again";
     TimelineUpdateForm.paymentRequired := false; TimelineUpdateForm.paymentAmount := None |}.

(** The request page of designer D1 on the assigned request R. *)
Definition pageD1_assigned : RequestDetails.State :=
  {| RequestDetails.id := "R"; RequestDetails.user := Some designerD1;
     RequestDetails.request := Some requestR_assigned;
     RequestDetails.proposals := [Client.proposal_with_status proposalP1 "accepted"];
     RequestDetails.timeline := [update_stitched]; RequestDetails.activeTab := "timeline" |}.

(** A message of user 1 to user 2, who share no proposal and no request. *)
Definition chat_body : body :=
  {[ "sender_id" := JNum 1; "receiver_id" := JNum 2; "message" := JStr "hi" ]}.

(** A payment of 999 on order 7. *)
Definition payment_body : body :=
  {[ "user_id" := JNum 11; "merchant_id" := JNum 21; "order_id" := JNum 7;
     "amount" := JNum 999; "payment_method" := JStr "card";
     "payment_type" := JStr "Customer Payment" ]}.

(** The payment page of customer C for the update "stitched" (25, pending). *)
Definition paymentC : Payment.State :=
  {| Payment.user := Some (Client.getCurrentUser (Some customerC));
     Payment.request := Some requestR_assigned;
     Payment.timelineUpdate := Some update_stitched;
     Payment.processingPayment := false |}.

(** The same page loaded before P1 was submitted, and the proposal the backend
    answers a second submission with. *)
Definition pageD1_stale : RequestDetails.State :=
  {| RequestDetails.id := "R"; RequestDetails.user := Some designerD1;
     RequestDetails.request := Some requestR;
     RequestDetails.proposals := [];
     RequestDetails.timeline := []; RequestDetails.activeTab := "submit-proposal" |}.

Definition proposalP3 : Client.Proposal :=
  {| Client.pr_id := "P3"; Client.pr_requestId := "R"; Client.pr_designerId := "D1";
     Client.pr_designerName := "Designer D1"; Client.pr_designerImage := None;
     Client.pr_price := 90%Q; Client.pr_estimatedTime := "1 week";
     Client.pr_message := "Cheaper now"; Client.pr_status := "pending";
     Client.pr_createdAt := "2025-01-04" |}.

(** The tables with the payment of [payment_body], and with the message of
    [chat_body]. *)
Definition db_paid : Server.DB := (Server.post_payment payment_body empty_db).2.

Definition db_chat : Server.DB := (Server.post_chat chat_body empty_db).2.

Definition completed_body : body := {[ "status" := JStr "Completed" ]}.

Definition read_body : body := {[ "status" := JStr "read" ]}.

(** A verification that accepts the token "abc" only. *)
Definition verify_abc (token : string) : option unit :=
  if String.eqb token "abc" then Some tt else None.

(** A clock that reads the day of the month of the dates of the examples. *)
Definition day_of (timestamp : string) : Z :=
  if String.eqb timestamp "2025-02-01" then 1
  else if String.eqb timestamp "2025-02-02" then 2
  else 31.

(** The form with a payment of 5 ticked, for the stage "stitched". *)
Definition form_stitched_paid : TimelineUpdateForm.Form :=
  {| TimelineUpdateForm.status := "stitched"; TimelineUpdateForm.message := "again";
     TimelineUpdateForm.paymentRequired := true;
     TimelineUpdateForm.paymentAmount := Some (Finite 5) |}.

(** A parser that reads "90" and "Infinity". *)
Definition parse_90 (s : string) : number :=
  if String.eqb s "90" then Finite 90
  else if String.eqb s "Infinity" then Infinity
  else NaN.

(** The page of customer C loaded once P1 is accepted and the request
    assigned, with the proposals tab chosen: no call was made for P2, which
    the backend still answers as pending. *)
Definition pageC_reloaded : RequestDetails.State :=
  RequestDetails.setActiveTab
    (Client.final (RequestDetails.initial "R")
       (RequestDetails.fetchData (RequestDetails.initial "R")
          (Client.getCurrentUser (Some customerC))
          (Client.Resolved (Some requestR_assigned))
          (Client.Resolved [Client.proposal_with_status proposalP1 "accepted"; proposalP2])
          (Client.Resolved [])))
    "proposals".

(** The page of customer C loaded once the timeline holds the update
    "stitched", with the timeline tab chosen. *)
Definition pageC_paying : RequestDetails.State :=
  RequestDetails.setActiveTab
    (Client.final (RequestDetails.initial "R")
       (RequestDetails.fetchData (RequestDetails.initial "R")
          (Client.getCurrentUser (Some customerC))
          (Client.Resolved (Some requestR_assigned))
          (Client.Resolved [Client.proposal_with_status proposalP1 "accepted"; proposalP2])
          (Client.Resolved [update_stitched])))
    "timeline".

(** The request page of designer D1 as it is loaded on the assigned request
    R, before the timeline tab is chosen. *)
Definition pageD1_loaded : RequestDetails.State :=
  Client.final (RequestDetails.initial "R")
    (RequestDetails.fetchData (RequestDetails.initial "R")
       (Client.getCurrentUser (Some designerD1))
       (Client.Resolved (Some requestR_assigned))
       (Client.Resolved [Client.proposal_with_status proposalP1 "accepted"])
       (Client.Resolved [update_stitched])).

(** The form with "stitched" chosen and a first message typed, and the form
    with the amount ticked and nothing entered. *)
Definition form_first : TimelineUpdateForm.Form :=
  {| TimelineUpdateForm.status := "stitched";
     TimelineUpdateForm.message := "Stitching done";
     TimelineUpdateForm.paymentRequired := false; TimelineUpdateForm.paymentAmount := None |}.

Definition form_stitched_unpriced : TimelineUpdateForm.Form :=
  {| TimelineUpdateForm.status := "stitched"; TimelineUpdateForm.message := "again";
     TimelineUpdateForm.paymentRequired := true; TimelineUpdateForm.paymentAmount := None |}.

(** The form with "fitting" chosen, and the update the backend answers its
    post with. *)
Definition form_fitting : TimelineUpdateForm.Form :=
  {| TimelineUpdateForm.status := "fitting"; TimelineUpdateForm.message := "Fitted";
     TimelineUpdateForm.paymentRequired := false; TimelineUpdateForm.paymentAmount := None |}.

Definition update_fitting : Client.TimelineUpdate :=
  {| Client.tu_id := "U4"; Client.tu_requestId := "R"; Client.tu_status := "fitting";
     Client.tu_message := "Fitted"; Client.tu_timestamp := "2025-02-10";
     Client.tu_paymentRequired := None; Client.tu_paymentAmount := None;
     Client.tu_paymentStatus := None |}.

(** The request R assigned for the price 100.50, a number that binary
    floating point holds exactly, as it does its quarter 25.125. *)
Definition requestR_10050 : Client.ProjectRequest :=
  Client.request_assigned requestR "P1"
    (Client.Build_Proposal "P1" "R" "D1" "Designer D1" None (201 # 2)%Q "2 weeks"
       "I can do it" "pending" "2025-01-02").

(** Bodies with the price 0 as a string and as a number. *)
Definition string_zero_body : body :=
  {[ "request_id" := JNum 7; "merchant_id" := JNum 21; "price" := JStr "0" ]}.

Definition number_zero_body : body :=
  {[ "request_id" := JNum 7; "merchant_id" := JNum 21; "price" := JNum 0 ]}.

(** Services of the messages page that answer with one accepted proposal, of
    designer D1 on request R of customer C, whoever asks. *)
Definition proposals_any (query : list (string * string)) : Client.outcome (list Client.Proposal) :=
  Client.Resolved [Client.proposal_with_status proposalP1 "accepted"].

Definition requests_none (query : list (string * string))
    : Client.outcome (list Client.ProjectRequest) :=
  Client.Resolved [].

Definition request_R (requestId : string) : Client.outcome (option Client.ProjectRequest) :=
  Client.Resolved (if String.eqb requestId "R" then Some requestR_assigned else None).

Definition user_C (userId : string) : Client.outcome (option Client.User) :=
  Client.Resolved (if String.eqb userId "C" then Some customerC else None).

Definition messages_none (senderId receiverId : string) : Client.outcome (list Client.Message) :=
  Client.Resolved [].

Definition latest_head (messages : list Client.Message) : option Client.Message :=
  head messages.

(** The messages page of designer D1 as these services load it: customer C
    is listed and selected. *)
Definition messagesD1 : Messages.State :=
  Client.final Messages.initial
    (Messages.checkAuthAndFetchData latest_head requests_none proposals_any request_R
       user_C messages_none Messages.initial (Client.getCurrentUser (Some designerD1))).

End Examples.

(** * Properties *)

(** ** The backend handlers *)

Section ServerFacts.
Import Server.

(** An UPDATE leaves the rows of the other keys as they are. *)
Lemma update_proposals_other updates pid rows (i : nat) (r : proposal_row) :
  rows !! i = Some r → proposal_id r ≠ pid →
  (update_proposals updates pid rows).1 !! i = Some r.
Proof.
  intros Hi Hne. unfold update_proposals; simpl.
  rewrite list_lookup_fmap, Hi; simpl.
  destruct (Nat.eqb_spec (proposal_id r) pid); [contradiction | reflexivity].
Qed.

(** A truthy status outside the list is answered 400 before any query. *)
Lemma put_designer_proposal_invalid pid (b : body) db v :
  b !! "status" = Some v → truthy_val v = true → includes proposal_statuses v = false →
  put_designer_proposal pid b db
  = (fail 400 "Invalid status. Must be Pending, Accepted, or Cancelled", db).
Proof.
  intros Hs Ht Hi. unfold put_designer_proposal.
  rewrite Hs; simpl. by rewrite Ht, Hi.
Qed.

(** The handler writes to [designer_proposals] only, and there to the rows of
    the key only. *)
Lemma put_designer_proposal_frame pid (b : body) db :
  let db' := (put_designer_proposal pid b db).2 in
  customization_requests db' = customization_requests db
  ∧ payments db' = payments db
  ∧ chat db' = chat db
  ∧ ∀ (i : nat) r, designer_proposals db !! i = Some r → proposal_id r ≠ pid →
      designer_proposals db' !! i = Some r.
Proof.
  unfold put_designer_proposal.
  destruct (truthy (b !! "status") && _); [by simpl |].
  destruct (Nat.eqb _ 0); [by simpl |].
  destruct (update_proposals _ pid (designer_proposals db)) as [rows' returned] eqn:E.
  destruct returned; [by simpl |]. simpl.
  repeat split. intros i r Hi Hne.
  replace rows' with (update_proposals
    (pushed "price" (b !! "price") ++
     (if truthy (b !! "status") then [("status", or_default JNull (b !! "status"))] else []))
    pid (designer_proposals db)).1 by (by rewrite E).
  by apply update_proposals_other.
Qed.

End ServerFacts.

Section ProposalStatus.
Import Server.

Lemma includes_proposal_statuses_false v :
  v ≠ JStr "Pending" → v ≠ JStr "Accepted" → v ≠ JStr "Cancelled" →
  includes proposal_statuses v = false.
Proof.
  intros H1 H2 H3. destruct v as [| | |s]; try reflexivity. simpl.
  destruct (String.eqb_spec s "Pending") as [->|_]; [congruence |].
  destruct (String.eqb_spec s "Accepted") as [->|_]; [congruence |].
  destruct (String.eqb_spec s "Cancelled") as [->|_]; [congruence | reflexivity].
Qed.

(** The bodies the accept and reject handlers of the page send are answered
    400 for every key and every state of the tables. *)
Lemma put_accept_payload_rejected pid db :
  put_designer_proposal pid RequestDetails.accept_payload db
  = (fail 400 "Invalid status. Must be Pending, Accepted, or Cancelled", db).
Proof. by apply (put_designer_proposal_invalid pid _ db (JStr "accepted")). Qed.

Lemma put_reject_payload_rejected pid db :
  put_designer_proposal pid RequestDetails.reject_payload db
  = (fail 400 "Invalid status. Must be Pending, Accepted, or Cancelled", db).
Proof. by apply (put_designer_proposal_invalid pid _ db (JStr "rejected")). Qed.

End ProposalStatus.

(** ** C10: validation of the status sent to the proposal update endpoint *)

(** A status that is sent but falsy is read as no status at all. *)
Lemma put_designer_proposal_falsy_status pid (b : body) db v :
  b !! "status" = Some v → truthy_val v = false →
  Server.put_designer_proposal pid b db
  = Server.put_designer_proposal pid (delete "status" b) db.
Proof.
  intros Hs Hf. unfold Server.put_designer_proposal.
  rewrite lookup_delete_eq, (lookup_delete_ne b "status" "price") by discriminate.
  rewrite Hs. simpl. rewrite Hf. reflexivity.
Qed.

(** C10, as amended.  A call of [PUT /api/designer-proposals/:proposalId] whose
    body carries a truthy status (a non-empty string, in particular the
    lowercase "accepted" and "rejected" of the page handlers) other than
    "Pending", "Accepted" and "Cancelled" is answered 400 and leaves every
    table as it was.  A status that is sent but falsy (the empty string) is
    not validated: the call is handled as if no status had been sent. *)
Theorem C10_truthy_status_validated (pid : nat) (b : body) (db : Server.DB) (v : jsval) :
  b !! "status" = Some v →
  (truthy_val v = true →
   v ≠ JStr "Pending" → v ≠ JStr "Accepted" → v ≠ JStr "Cancelled" →
   Server.put_designer_proposal pid b db
   = (Server.fail 400 "Invalid status. Must be Pending, Accepted, or Cancelled", db))
  ∧ (truthy_val v = false →
     Server.put_designer_proposal pid b db
     = Server.put_designer_proposal pid (delete "status" b) db).
Proof.
  intros Hs. split.
  - intros Ht H1 H2 H3.
    apply (put_designer_proposal_invalid pid b db v Hs Ht).
    by apply includes_proposal_statuses_false.
  - intros Hf. by apply (put_designer_proposal_falsy_status pid b db v).
Qed.

Lemma C10_truthy_status_validated_witness :
  RequestDetails.accept_payload !! "status" = Some (JStr "accepted")
  ∧ truthy_val (JStr "accepted") = true
  ∧ JStr "accepted" ≠ JStr "Pending"
  ∧ JStr "accepted" ≠ JStr "Accepted"
  ∧ JStr "accepted" ≠ JStr "Cancelled"
  ∧ Server.put_designer_proposal 1 RequestDetails.accept_payload Examples.db0
    = (Server.fail 400 "Invalid status. Must be Pending, Accepted, or Cancelled", Examples.db0).
Proof.
  assert (H1 : JStr "accepted" ≠ JStr "Pending") by discriminate.
  assert (H2 : JStr "accepted" ≠ JStr "Accepted") by discriminate.
  assert (H3 : JStr "accepted" ≠ JStr "Cancelled") by discriminate.
  split; [reflexivity |]. split; [reflexivity |].
  split; [exact H1 |]. split; [exact H2 |]. split; [exact H3 |].
  exact (proj1 (C10_truthy_status_validated 1 RequestDetails.accept_payload Examples.db0
                  (JStr "accepted") eq_refl) eq_refl H1 H2 H3).
Defined.

(** C10 fails as stated: a status that is supplied but falsy (here the empty
    string) is not validated.  The handler treats it as absent, applies the
    rest of the body and answers 200; the row is changed. *)
Lemma C10_counterexample :
  let b : body := {[ "price" := JNum 5; "status" := JStr "" ]} in
  b !! "status" = Some (JStr "")
  ∧ Server.put_designer_proposal 1 b Examples.db0
    = (Server.ok 200 "Designer proposal updated successfully"
         {| Server.proposal_id := 1; Server.p_request_id := JNum 7;
            Server.p_merchant_id := JNum 21; Server.p_price := JNum 5;
            Server.p_status := JStr "Pending" |},
       {| Server.customization_requests := [Examples.request7];
          Server.designer_proposals :=
            [ {| Server.proposal_id := 1; Server.p_request_id := JNum 7;
                 Server.p_merchant_id := JNum 21; Server.p_price := JNum 5;
                 Server.p_status := JStr "Pending" |};
              Examples.row2 ];
          Server.payments := [];
          Server.chat := [] |}).
Proof. split; reflexivity. Qed.

(** ** The accept and reject handlers of the request page *)

Section AcceptFacts.
Import Client RequestDetails.

(** After the update of [handleAcceptProposal] a listed proposal is accepted
    if it has the key and rejected if not. *)
Lemma accept_in_list_status proposalId (ps : list Proposal) (p : Proposal) :
  p ∈ accept_in_list proposalId ps →
  (pr_id p = proposalId ∧ pr_status p = "accepted")
  ∨ (pr_id p ≠ proposalId ∧ pr_status p = "rejected").
Proof.
  unfold accept_in_list. intros Hp.
  apply list_elem_of_fmap in Hp as (q & -> & _).
  destruct (String.eqb_spec (pr_id q) proposalId) as [He|Hne]; simpl.
  - left. by split.
  - right. destruct (String.eqb_spec (pr_status q) "rejected") as [Hr|Hr]; simpl; by split.
Qed.

Lemma accept_in_list_ids proposalId (ps : list Proposal) :
  map pr_id (accept_in_list proposalId ps) = map pr_id ps.
Proof.
  unfold accept_in_list. rewrite map_map. apply map_ext. intros q.
  destruct (String.eqb (pr_id q) proposalId); [reflexivity |].
  by destruct (negb _ && _).
Qed.

Lemma reject_in_list_ids proposalId (ps : list Proposal) :
  map pr_id (reject_in_list proposalId ps) = map pr_id ps.
Proof.
  unfold reject_in_list. rewrite map_map. apply map_ext. intros q.
  by destruct (String.eqb (pr_id q) proposalId).
Qed.

(** The update of [handleAcceptProposal], place by place: the proposal that
    was there, accepted if it has the key and rejected if not. *)
Lemma accept_in_list_lookup proposalId (ps : list Proposal) (i : nat) (p : Proposal) :
  ps !! i = Some p →
  accept_in_list proposalId ps !! i
  = Some (proposal_with_status p
            (if String.eqb (pr_id p) proposalId then "accepted" else "rejected")).
Proof.
  intros Hp. unfold accept_in_list. rewrite list_lookup_fmap, Hp. simpl.
  destruct (String.eqb (pr_id p) proposalId); [reflexivity |]. simpl.
  destruct (String.eqb_spec (pr_status p) "rejected") as [Hr|_]; [| reflexivity].
  simpl. rewrite <- Hr. by destruct p.
Qed.

Lemma accept_in_list_length proposalId (ps : list Proposal) :
  length (accept_in_list proposalId ps) = length ps.
Proof. unfold accept_in_list. apply length_map. Qed.

(** Whatever the outcomes of the second call and of the reload, a run whose
    first call resolved ends with the updated list. *)
Lemma handleAcceptProposal_final_proposals st proposalId r2 r3 :
  proposals (final st (handleAcceptProposal st proposalId (Resolved tt) r2 r3))
  = accept_in_list proposalId (proposals st).
Proof.
  unfold handleAcceptProposal, reload_timeline.
  destruct (request st); [destruct (find _ _) |]; try destruct r2; destruct r3; reflexivity.
Qed.

End AcceptFacts.

(** ** C1: what accepting a proposal does *)

Section C1.
Import Client RequestDetails.

(** C1, as amended.  Once [updateProposal] has resolved, [handleAcceptProposal]
    sets, in the local state of the page, the target proposal to accepted and
    every other listed proposal to rejected (the list keeps its length and, at
    each place, the proposal that was there, with its new status) and, the
    request being loaded and the target listed, the request to assigned with
    [acceptedProposalId], [acceptedPrice], [designerId] and [designerName]
    taken from the accepted proposal.  It does so in separate steps: the call
    for the target proposal, the two state updates, then a second call for the
    request.  No call is made for the other proposals, and the PUT endpoint for
    proposals writes the addressed row only and never the requests table. *)
Theorem C1_accept_in_separate_steps (st : State) (proposalId : string)
    (rq : ProjectRequest) (acceptedProposal : Proposal)
    (r2 : outcome unit) (r3 : outcome (list TimelineUpdate)) :
  request st = Some rq →
  find (fun p => String.eqb (pr_id p) proposalId) (proposals st) = Some acceptedProposal →
  let evs := handleAcceptProposal st proposalId (Resolved tt) r2 r3 in
  let st1 := setProposals st (accept_in_list proposalId) in
  let st2 := setRequest st1 (Some (request_assigned rq proposalId acceptedProposal)) in
  take 4 evs = [ Call (updateProposal proposalId accept_payload);
                 SetState st1;
                 SetState st2;
                 Call (updateRequest (rq_id rq) (assign_payload proposalId acceptedProposal)) ]
  ∧ (∀ p, p ∈ proposals (final st evs) →
       (pr_id p = proposalId ∧ pr_status p = "accepted")
       ∨ (pr_id p ≠ proposalId ∧ pr_status p = "rejected"))
  ∧ request (final st evs) = Some (request_assigned rq proposalId acceptedProposal)
  ∧ (∀ c, c ∈ calls evs →
       c = updateProposal proposalId accept_payload
       ∨ c = updateRequest (rq_id rq) (assign_payload proposalId acceptedProposal)
       ∨ c = fetchTimeline (id st))
  ∧ (∀ pid (b : body) db,
       Server.customization_requests (Server.put_designer_proposal pid b db).2
       = Server.customization_requests db
       ∧ ∀ (i : nat) r, Server.designer_proposals db !! i = Some r →
           Server.proposal_id r ≠ pid →
           Server.designer_proposals (Server.put_designer_proposal pid b db).2 !! i = Some r)
  ∧ length (proposals (final st evs)) = length (proposals st)
  ∧ (∀ (i : nat) p, proposals st !! i = Some p →
       proposals (final st evs) !! i
       = Some (proposal_with_status p
                 (if String.eqb (pr_id p) proposalId then "accepted" else "rejected")))
  ∧ proposal_with_status acceptedProposal "accepted" ∈ proposals (final st evs)
  ∧ proposals st1 = proposals (final st evs)
  ∧ proposals st2 = proposals (final st evs)
  ∧ (id st1, user st1, request st1, timeline st1, activeTab st1)
    = (id st, user st, request st, timeline st, activeTab st)
  ∧ (id st2, user st2, timeline st2, activeTab st2)
    = (id st, user st, timeline st, activeTab st).
Proof.
  intros Hrq Hfind evs st1 st2.
  assert (Hfin : proposals (final st evs) = accept_in_list proposalId (proposals st))
    by apply handleAcceptProposal_final_proposals.
  split; [| split; [| split; [| split; [| split; [| split; [| split; [| split]]]]]]].
  - subst evs. unfold handleAcceptProposal. rewrite Hrq, Hfind. reflexivity.
  - intros p Hp. rewrite Hfin in Hp. by apply accept_in_list_status in Hp.
  - subst evs. unfold handleAcceptProposal, reload_timeline. rewrite Hrq, Hfind.
    destruct r2, r3; reflexivity.
  - intros c Hc. subst evs. unfold handleAcceptProposal, reload_timeline in Hc.
    rewrite Hrq, Hfind in Hc.
    destruct r2, r3; simpl in Hc;
      repeat (apply elem_of_cons in Hc as [->|Hc]; [by auto |]);
      by apply elem_of_nil in Hc.
  - intros pid b db.
    destruct (put_designer_proposal_frame pid b db) as (H1 & _ & _ & H4).
    split; [exact H1 | exact H4].
  - rewrite Hfin. apply accept_in_list_length.
  - intros i p Hp. rewrite Hfin. by apply accept_in_list_lookup.
  - rewrite Hfin.
    assert (Hin : ∃ i : nat, proposals st !! i = Some acceptedProposal).
    { apply list_elem_of_lookup_1, list_elem_of_In.
      by apply find_some in Hfind as [Hin _]. }
    destruct Hin as [i Hi].
    assert (Hid : String.eqb (pr_id acceptedProposal) proposalId = true)
      by (by apply find_some in Hfind as [_ H]).
    apply (list_elem_of_lookup_2 _ i).
    rewrite (accept_in_list_lookup proposalId _ i acceptedProposal Hi), Hid. reflexivity.
  - rewrite Hfin. repeat split.
Qed.

Lemma C1_accept_in_separate_steps_witness :
  request Examples.pageC = Some Examples.requestR
  ∧ find (fun p => String.eqb (pr_id p) "P1") (proposals Examples.pageC)
    = Some Examples.proposalP1
  ∧ request (final Examples.pageC
               (handleAcceptProposal Examples.pageC "P1" (Resolved tt) (Resolved tt)
                  (Resolved [])))
    = Some Examples.requestR_assigned
  ∧ proposals (final Examples.pageC
                 (handleAcceptProposal Examples.pageC "P1" (Resolved tt) (Resolved tt)
                    (Resolved [])))
    = [ proposal_with_status Examples.proposalP1 "accepted";
        proposal_with_status Examples.proposalP2 "rejected" ].
Proof.
  split; [reflexivity |]. split; [reflexivity |].
  split; [| reflexivity].
  exact (proj1 (proj2 (proj2
    (C1_accept_in_separate_steps Examples.pageC "P1" Examples.requestR Examples.proposalP1
       (Resolved tt) (Resolved []) eq_refl eq_refl)))).
Defined.

(** C1 fails as stated.  On the backend, a successful accept of proposal 1
    leaves its sibling pending and the request as it was.  On the page, when
    the second call fails after the first has resolved, the run ends with the
    proposal accepted and the request shown as assigned, while the only calls
    made are the two below: nothing rejects the sibling on the backend and
    nothing takes the accept back. *)
Lemma C1_counterexample :
  Server.put_designer_proposal 1 Examples.accepted_body Examples.db0
  = (Server.ok 200 "Designer proposal updated successfully"
       {| Server.proposal_id := 1; Server.p_request_id := JNum 7;
          Server.p_merchant_id := JNum 21; Server.p_price := JNum 100;
          Server.p_status := JStr "Accepted" |},
     {| Server.customization_requests := [Examples.request7];
        Server.designer_proposals :=
          [ {| Server.proposal_id := 1; Server.p_request_id := JNum 7;
               Server.p_merchant_id := JNum 21; Server.p_price := JNum 100;
               Server.p_status := JStr "Accepted" |};
            Examples.row2 ];
        Server.payments := [];
        Server.chat := [] |})
  ∧ Server.p_status Examples.row2 = JStr "Pending"
  ∧ Server.r_status Examples.request7 = JStr "Pending"
  ∧ calls (handleAcceptProposal Examples.pageC "P1" (Resolved tt) (Thrown "Network Error")
             (Resolved []))
    = [ updateProposal "P1" accept_payload;
        updateRequest "R" (assign_payload "P1" Examples.proposalP1) ]
  ∧ handleAcceptProposal Examples.pageC "P1" (Resolved tt) (Thrown "Network Error")
      (Resolved [])
    = [ Call (updateProposal "P1" accept_payload);
        SetState (setProposals Examples.pageC (accept_in_list "P1"));
        SetState (setRequest (setProposals Examples.pageC (accept_in_list "P1"))
                    (Some Examples.requestR_assigned));
        Call (updateRequest "R" (assign_payload "P1" Examples.proposalP1));
        Toast "Error" "Network Error" true ].
Proof. repeat split; reflexivity. Qed.

End C1.

(** ** C2: at most one accepted proposal *)

Section C2.
Import Client RequestDetails.

Lemma accept_in_list_absent proposalId (ps : list Proposal) :
  proposalId ∉ map pr_id ps → accepted_count (accept_in_list proposalId ps) = 0.
Proof.
  unfold accepted_count, accept_in_list.
  induction ps as [|q ps IH]; [reflexivity |]. intros Hni.
  apply not_elem_of_cons in Hni as [Hne Hni]. simpl.
  destruct (String.eqb_spec (pr_id q) proposalId) as [He|_]; [congruence |]. simpl.
  destruct (String.eqb_spec (pr_status q) "rejected") as [Hr|Hr]; simpl.
  - rewrite Hr. simpl. by apply IH.
  - by apply IH.
Qed.

Lemma accept_in_list_count proposalId (ps : list Proposal) :
  NoDup (map pr_id ps) → (accepted_count (accept_in_list proposalId ps) ≤ 1)%nat.
Proof.
  induction ps as [|q ps IH]; [unfold accepted_count; simpl; lia |].
  intros Hnd. apply NoDup_cons in Hnd as [Hq Hnd].
  specialize (IH Hnd). unfold accepted_count, accept_in_list in *. simpl.
  destruct (String.eqb_spec (pr_id q) proposalId) as [He|Hne]; simpl.
  - rewrite He in Hq. apply accept_in_list_absent in Hq.
    unfold accepted_count, accept_in_list in Hq. rewrite Hq. lia.
  - destruct (String.eqb_spec (pr_status q) "rejected") as [Hr|Hr]; simpl.
    + rewrite Hr. simpl. exact IH.
    + exact IH.
Qed.

Lemma reject_in_list_count proposalId (ps : list Proposal) :
  (accepted_count (reject_in_list proposalId ps) ≤ accepted_count ps)%nat.
Proof.
  unfold accepted_count, reject_in_list.
  induction ps as [|q ps IH]; [simpl; lia |]. simpl.
  destruct (String.eqb (pr_id q) proposalId); simpl.
  - destruct (String.eqb (pr_status q) "accepted"); simpl; lia.
  - destruct (String.eqb (pr_status q) "accepted"); simpl; lia.
Qed.

(** The invariant of the local list, along any sequence of accepts and
    rejects. *)
Lemma decide_in_list_invariant (ds : list decision) (ps : list Proposal) :
  NoDup (map pr_id ps) → (accepted_count ps ≤ 1)%nat →
  (accepted_count (foldl decide_in_list ps ds) ≤ 1)%nat.
Proof.
  revert ps. induction ds as [|d ds IH]; intros ps Hnd Hc; [exact Hc |].
  simpl. apply IH.
  - destruct d; simpl; [by rewrite accept_in_list_ids | by rewrite reject_in_list_ids].
  - destruct d; simpl.
    + by apply accept_in_list_count.
    + etransitivity; [apply reject_in_list_count | exact Hc].
Qed.

(** C2, as amended.  In the local list of the page, whose proposals have
    pairwise distinct ids, a run of [handleAcceptProposal] whose first call
    resolved leaves at most one proposal accepted, and a run of
    [handleRejectProposal] never adds an accepted one; so a list with at most
    one accepted proposal keeps at most one along any sequence of such runs. *)
Theorem C2_local_list_single_accepted (st : State) (proposalId : string)
    (r2 : outcome unit) (r3 : outcome (list TimelineUpdate)) (r : outcome unit)
    (ds : list decision) :
  NoDup (map pr_id (proposals st)) →
  (accepted_count
     (proposals (final st (handleAcceptProposal st proposalId (Resolved tt) r2 r3))) ≤ 1)%nat
  ∧ (accepted_count (proposals (final st (handleRejectProposal st proposalId r)))
     ≤ accepted_count (proposals st))%nat
  ∧ proposals (final st (handleRejectProposal st proposalId (Resolved tt)))
    = decide_in_list (proposals st) (Reject proposalId)
  ∧ proposals (final st (handleAcceptProposal st proposalId (Resolved tt) r2 r3))
    = decide_in_list (proposals st) (Accept proposalId)
  ∧ ((accepted_count (proposals st) ≤ 1)%nat →
     (accepted_count (foldl decide_in_list (proposals st) ds) ≤ 1)%nat).
Proof.
  intros Hnd. split; [| split; [| split; [| split]]].
  - rewrite handleAcceptProposal_final_proposals. by apply accept_in_list_count.
  - destruct r; simpl; [apply reject_in_list_count | lia].
  - reflexivity.
  - apply handleAcceptProposal_final_proposals.
  - by apply decide_in_list_invariant.
Qed.

Lemma C2_local_list_single_accepted_witness :
  NoDup (map pr_id (proposals Examples.pageC))
  ∧ (accepted_count
       (proposals (final Examples.pageC
          (handleAcceptProposal Examples.pageC "P1" (Resolved tt) (Resolved tt)
             (Resolved [])))) ≤ 1)%nat.
Proof.
  assert (Hnd : NoDup (map pr_id (proposals Examples.pageC))).
  { simpl. apply NoDup_cons. split.
    - intros H. apply list_elem_of_singleton in H. discriminate H.
    - apply NoDup_singleton. }
  split; [exact Hnd |].
  exact (proj1 (C2_local_list_single_accepted Examples.pageC "P1" (Resolved tt)
                  (Resolved []) (Resolved tt) [Accept "P2"; Reject "P2"] Hnd)).
Defined.

(** C2 fails as stated: the update endpoint accepts each of the two proposals
    of request 7 in turn, and both rows end up accepted. *)
Lemma C2_counterexample :
  let db1 := (Server.put_designer_proposal 1 Examples.accepted_body Examples.db0).2 in
  let db2 := (Server.put_designer_proposal 2 Examples.accepted_body db1).2 in
  Server.code (Server.put_designer_proposal 1 Examples.accepted_body Examples.db0).1 = 200
  ∧ Server.code (Server.put_designer_proposal 2 Examples.accepted_body db1).1 = 200
  ∧ Server.designer_proposals db2
    = [ {| Server.proposal_id := 1; Server.p_request_id := JNum 7;
           Server.p_merchant_id := JNum 21; Server.p_price := JNum 100;
           Server.p_status := JStr "Accepted" |};
        {| Server.proposal_id := 2; Server.p_request_id := JNum 7;
           Server.p_merchant_id := JNum 22; Server.p_price := JNum 120;
           Server.p_status := JStr "Accepted" |} ].
Proof. repeat split; reflexivity. Qed.

End C2.

(** ** C3: a second proposal of the same designer *)

Section C3.
Import Client RequestDetails.

Lemma find_is_Some {A : Type} (f : A → bool) (l : list A) (x : A) :
  x ∈ l → f x = true → ∃ y, find f l = Some y.
Proof.
  induction l as [|a l IH]; intros Hx Hf.
  - by apply elem_of_nil in Hx.
  - simpl. destruct (f a) eqn:Ha; [by exists a |].
    apply elem_of_cons in Hx as [->|Hx]; [congruence | by apply IH].
Qed.

(** The insert of the POST endpoint does not look at the rows of the table:
    a body with the three required fields and a listed status is answered 201
    and adds a row. *)
Lemma post_designer_proposal_inserts (b : body) db :
  truthy (b !! "request_id") = true → truthy (b !! "merchant_id") = true →
  truthy (b !! "price") = true →
  includes Server.proposal_statuses (or_default (JStr "Pending") (b !! "status")) = true →
  Server.code (Server.post_designer_proposal b db).1 = 201
  ∧ length (Server.designer_proposals (Server.post_designer_proposal b db).2)
    = S (length (Server.designer_proposals db)).
Proof.
  intros H1 H2 H3 H4. unfold Server.post_designer_proposal.
  rewrite H1, H2, H3, H4. simpl. split; [reflexivity |].
  rewrite length_app. simpl. lia.
Qed.

(** C3, as amended.  The guard is on the page: when the local list holds a
    proposal of the signed-in designer, whatever its status,
    [handleSubmitProposal] shows the "Proposal already submitted" toast, calls
    nothing and leaves the page state as it is.  The POST endpoint has no such
    guard: a well-formed body adds a row whatever the table holds. *)
Theorem C3_duplicate_stopped_on_page (st : State) (u : User) (rq : ProjectRequest)
    (existing : Proposal) (proposalData : ProposalData) (r : outcome Proposal) :
  user st = Some u →
  request st = Some rq →
  existing ∈ proposals st →
  pr_designerId existing = u_id u →
  handleSubmitProposal st proposalData r
  = [Toast "Proposal already submitted"
           "You have already submitted a proposal for this request." true]
  ∧ calls (handleSubmitProposal st proposalData r) = []
  ∧ final st (handleSubmitProposal st proposalData r) = st
  ∧ (∀ (b : body) db,
       truthy (b !! "request_id") = true → truthy (b !! "merchant_id") = true →
       truthy (b !! "price") = true →
       includes Server.proposal_statuses (or_default (JStr "Pending") (b !! "status")) = true →
       Server.code (Server.post_designer_proposal b db).1 = 201
       ∧ length (Server.designer_proposals (Server.post_designer_proposal b db).2)
         = S (length (Server.designer_proposals db))).
Proof.
  intros Hu Hrq Hin Hd.
  assert (E : handleSubmitProposal st proposalData r
              = [Toast "Proposal already submitted"
                       "You have already submitted a proposal for this request." true]).
  { unfold handleSubmitProposal. rewrite Hu, Hrq.
    destruct (find_is_Some (fun p => String.eqb (pr_designerId p) (u_id u))
                (proposals st) existing Hin) as [y Hy].
    - rewrite Hd. apply String.eqb_refl.
    - by rewrite Hy. }
  rewrite E. split; [reflexivity |]. split; [reflexivity |]. split; [reflexivity |].
  intros b db. apply post_designer_proposal_inserts.
Qed.

Lemma C3_duplicate_stopped_on_page_witness :
  user Examples.pageD1 = Some Examples.designerD1
  ∧ request Examples.pageD1 = Some Examples.requestR
  ∧ Examples.proposalP1 ∈ proposals Examples.pageD1
  ∧ pr_designerId Examples.proposalP1 = u_id Examples.designerD1
  ∧ calls (handleSubmitProposal Examples.pageD1 Examples.proposal_form (Thrown "unused")) = [].
Proof.
  assert (Hin : Examples.proposalP1 ∈ proposals Examples.pageD1) by apply list_elem_of_here.
  split; [reflexivity |]. split; [reflexivity |]. split; [exact Hin |].
  split; [reflexivity |].
  exact (proj1 (proj2
    (C3_duplicate_stopped_on_page Examples.pageD1 Examples.designerD1 Examples.requestR
       Examples.proposalP1 Examples.proposal_form (Thrown "unused")
       eq_refl eq_refl Hin eq_refl))).
Defined.

(** C3 fails as stated: merchant 21 has the pending proposal 1 on request 7,
    and a second POST of merchant 21 on request 7 is answered 201 and adds
    proposal 3.  On a page of designer D1 that was loaded before P1 was
    submitted, [handleSubmitProposal] sees no proposal of D1, makes the call
    and appends what the backend answers with. *)
Lemma C3_counterexample :
  calls (handleSubmitProposal Examples.pageD1_stale Examples.proposal_form
           (Resolved Examples.proposalP3))
  = [createProposal (create_payload Examples.requestR Examples.proposal_form)]
  ∧ proposals (final Examples.pageD1_stale
                 (handleSubmitProposal Examples.pageD1_stale Examples.proposal_form
                    (Resolved Examples.proposalP3)))
    = [Examples.proposalP3]
  ∧ Server.p_request_id Examples.row1 = JNum 7
  ∧ Server.p_merchant_id Examples.row1 = JNum 21
  ∧ Server.p_status Examples.row1 = JStr "Pending"
  ∧ Server.post_designer_proposal Examples.second_proposal_body Examples.db0
    = (Server.ok 201 "Designer proposal created successfully"
         {| Server.proposal_id := 3; Server.p_request_id := JNum 7;
            Server.p_merchant_id := JNum 21; Server.p_price := JNum 90;
            Server.p_status := JStr "Pending" |},
       {| Server.customization_requests := [Examples.request7];
          Server.designer_proposals :=
            [ Examples.row1; Examples.row2;
              {| Server.proposal_id := 3; Server.p_request_id := JNum 7;
                 Server.p_merchant_id := JNum 21; Server.p_price := JNum 90;
                 Server.p_status := JStr "Pending" |} ];
          Server.payments := [];
          Server.chat := [] |}).
Proof. repeat split; reflexivity. Qed.

End C3.

(** ** C4: accepting on a request that is no longer open *)

Section C4.
Import Client RequestDetails.

(** The update endpoint for proposals never reads the requests table. *)
Lemma put_designer_proposal_ignores_requests pid (b : body) db rows :
  Server.put_designer_proposal pid b (Server.with_requests db rows)
  = ((Server.put_designer_proposal pid b db).1,
     Server.with_requests (Server.put_designer_proposal pid b db).2 rows).
Proof.
  unfold Server.put_designer_proposal, Server.update_proposals. simpl.
  destruct (truthy (b !! "status") && _); [reflexivity |].
  match goal with |- context [Nat.eqb ?n 0] => destruct (Nat.eqb n 0) end; [reflexivity |].
  match goal with |- context [filter ?P ?l] => destruct (filter P l) end; reflexivity.
Qed.

(** The calls of [handleAcceptProposal] do not depend on the status of the
    loaded request. *)
Lemma handleAcceptProposal_calls_any_status st proposalId rq s r1 r2 r3 :
  calls (handleAcceptProposal (setRequest st (Some (request_with_status rq s)))
           proposalId r1 r2 r3)
  = calls (handleAcceptProposal (setRequest st (Some rq)) proposalId r1 r2 r3).
Proof.
  unfold handleAcceptProposal, reload_timeline. simpl.
  destruct r1; [| reflexivity].
  destruct (find _ (proposals st)); [destruct r2 |]; destruct r3; reflexivity.
Qed.

(** The offer of the Accept button does not look at the status of the
    request. *)
Lemma accept_offered_any_status st rq s (q : Proposal) :
  RequestDetailsView.accept_offered (setRequest st (Some (request_with_status rq s))) q
  = RequestDetailsView.accept_offered (setRequest st (Some rq)) q.
Proof. reflexivity. Qed.

(** On the customer's own request, every pending proposal is offered. *)
Lemma accept_offered_pending st u rq (q : Proposal) :
  activeTab st = "proposals" →
  user st = Some u → request st = Some rq →
  u_role u = "customer" → u_id u = rq_customerId rq → pr_status q = "pending" →
  RequestDetailsView.accept_offered st q = true.
Proof.
  intros Htab Hu Hrq Hrole Hid Hq.
  unfold RequestDetailsView.accept_offered, RequestDetailsView.is_customer,
    RequestDetailsView.isUsersRequest, ProposalCard.accept_footer.
  rewrite Htab, Hu, Hrq, Hrole, Hid, Hq, !String.eqb_refl. reflexivity.
Qed.

(** C4, as amended.  Neither the update endpoint nor [handleAcceptProposal]
    checks the status of the request: the answer of the endpoint and what it
    writes are the same whatever the requests table holds, and the handler
    makes the same calls whatever the status of the loaded request.  Nor does
    the page when it offers the button: on the customer's own request the
    Accept button is offered for every pending proposal, whatever the status of
    the request (in the proposals tab).  The list a run of
    [handleAcceptProposal] leaves, its first
    call resolved, holds no pending proposal, so that render offers no Accept;
    this is the list of the page only. *)
Theorem C4_request_status_not_checked (st : State) (proposalId : string)
    (r2 : outcome unit) (r3 : outcome (list TimelineUpdate))
    (isCustomer : bool) (p : Proposal) :
  p ∈ proposals (final st (handleAcceptProposal st proposalId (Resolved tt) r2 r3)) →
  ProposalCard.accept_footer isCustomer p = false
  ∧ (∀ pid (b : body) db rows,
       Server.put_designer_proposal pid b (Server.with_requests db rows)
       = ((Server.put_designer_proposal pid b db).1,
          Server.with_requests (Server.put_designer_proposal pid b db).2 rows))
  ∧ (∀ rq s r1,
       calls (handleAcceptProposal (setRequest st (Some (request_with_status rq s)))
                proposalId r1 r2 r3)
       = calls (handleAcceptProposal (setRequest st (Some rq)) proposalId r1 r2 r3))
  ∧ (∀ st0 rq s q,
       RequestDetailsView.accept_offered
         (setRequest st0 (Some (request_with_status rq s))) q
       = RequestDetailsView.accept_offered (setRequest st0 (Some rq)) q)
  ∧ (∀ st0 u rq q,
       activeTab st0 = "proposals" →
       user st0 = Some u → request st0 = Some rq →
       u_role u = "customer" → u_id u = rq_customerId rq → pr_status q = "pending" →
       RequestDetailsView.accept_offered st0 q = true)
  ∧ RequestDetailsView.accept_offered
      (final st (handleAcceptProposal st proposalId (Resolved tt) r2 r3)) p = false.
Proof.
  intros Hp.
  assert (Hfoot : ∀ c, ProposalCard.accept_footer c p = false).
  { intros c. rewrite handleAcceptProposal_final_proposals in Hp.
    apply accept_in_list_status in Hp.
    unfold ProposalCard.accept_footer.
    destruct Hp as [[_ Hs]|[_ Hs]]; rewrite Hs; simpl; apply andb_false_r. }
  split; [apply Hfoot |]. split; [| split; [| split; [| split]]].
  - intros. apply put_designer_proposal_ignores_requests.
  - intros. apply handleAcceptProposal_calls_any_status.
  - intros. apply accept_offered_any_status.
  - intros st0 u rq q. apply accept_offered_pending.
  - unfold RequestDetailsView.accept_offered. rewrite Hfoot.
    by rewrite andb_false_r.
Qed.

Lemma C4_request_status_not_checked_witness :
  proposal_with_status Examples.proposalP1 "accepted"
    ∈ proposals (final Examples.pageC
         (handleAcceptProposal Examples.pageC "P1" (Resolved tt) (Resolved tt)
            (Resolved [])))
  ∧ ProposalCard.accept_footer true (proposal_with_status Examples.proposalP1 "accepted")
    = false.
Proof.
  assert (Hin : proposal_with_status Examples.proposalP1 "accepted"
                ∈ proposals (final Examples.pageC
                     (handleAcceptProposal Examples.pageC "P1" (Resolved tt) (Resolved tt)
                        (Resolved [])))) by apply list_elem_of_here.
  split; [exact Hin |].
  exact (proj1 (C4_request_status_not_checked Examples.pageC "P1" (Resolved tt)
                  (Resolved []) true _ Hin)).
Defined.

(** C4 fails as stated.  With request 7 marked accepted and proposal 1
    accepted, the update endpoint accepts proposal 2 as well: it answers 200
    and changes the row.  On the page, no call was made for P2 when P1 was
    accepted, so the page of customer C loaded afterwards shows the request
    assigned and P2 pending, with its Accept button; a run of
    [handleAcceptProposal] for P2 makes the same calls as on an open request
    and ends with the request assigned to P2. *)
Lemma C4_counterexample :
  Server.customization_requests Examples.db_assigned
  = [ {| Server.request_id := 7; Server.r_user_id := JNum 11;
         Server.r_status := JStr "Accepted";
         Server.r_description := JStr "A silk dress"; Server.r_design_images := JNull;
         Server.r_due_date := JNull; Server.r_priority := JStr "normal" |} ]
  ∧ Server.put_designer_proposal 2 Examples.accepted_body Examples.db_assigned
    = (Server.ok 200 "Designer proposal updated successfully"
         {| Server.proposal_id := 2; Server.p_request_id := JNum 7;
            Server.p_merchant_id := JNum 22; Server.p_price := JNum 120;
            Server.p_status := JStr "Accepted" |},
       Server.with_proposals Examples.db_assigned
         [ {| Server.proposal_id := 1; Server.p_request_id := JNum 7;
              Server.p_merchant_id := JNum 21; Server.p_price := JNum 100;
              Server.p_status := JStr "Accepted" |};
           {| Server.proposal_id := 2; Server.p_request_id := JNum 7;
              Server.p_merchant_id := JNum 22; Server.p_price := JNum 120;
              Server.p_status := JStr "Accepted" |} ])
  ∧ calls (handleAcceptProposal Examples.pageC "P1" (Resolved tt) (Resolved tt)
             (Resolved []))
    = [ updateProposal "P1" accept_payload;
        updateRequest "R" (assign_payload "P1" Examples.proposalP1);
        fetchTimeline "R" ]
  ∧ Examples.pageC_reloaded
    = {| id := "R"; user := Some Examples.customerC;
         request := Some Examples.requestR_assigned;
         proposals := [ proposal_with_status Examples.proposalP1 "accepted";
                        Examples.proposalP2 ];
         timeline := []; activeTab := "proposals" |}
  ∧ option_map rq_status (request Examples.pageC_reloaded) = Some "assigned"
  ∧ pr_status Examples.proposalP2 = "pending"
  ∧ RequestDetailsView.accept_offered Examples.pageC_reloaded Examples.proposalP2 = true
  ∧ calls (handleAcceptProposal Examples.pageC_reloaded "P2" (Resolved tt) (Resolved tt)
             (Resolved []))
    = [ updateProposal "P2" accept_payload;
        updateRequest "R" (assign_payload "P2" Examples.proposalP2);
        fetchTimeline "R" ]
  ∧ option_map rq_acceptedProposalId
      (request (final Examples.pageC_reloaded
         (handleAcceptProposal Examples.pageC_reloaded "P2" (Resolved tt) (Resolved tt)
            (Resolved []))))
    = Some (Some "P2").
Proof. repeat split; reflexivity. Qed.

End C4.

(** ** C5: a stage that is already in the timeline *)

Section C5.
Import Client.

(** The options left in the select are the available ones whose value is not
    in the timeline yet. *)
Lemma filteredStatuses_spec existing custom (o : TimelineUpdateForm.StatusOption) :
  o ∈ TimelineUpdateForm.filteredStatuses existing custom
  ↔ o ∈ TimelineUpdateForm.availableStatuses custom ∧ TimelineUpdateForm.value o ∉ existing.
Proof.
  unfold TimelineUpdateForm.filteredStatuses.
  rewrite !list_elem_of_In, filter_In, negb_true_iff.
  split; intros [Ho Hv]; split; try exact Ho.
  - intros Hin.
    assert (existsb (String.eqb (TimelineUpdateForm.value o)) existing = true).
    { apply existsb_exists. exists (TimelineUpdateForm.value o).
      split; [exact Hin | apply String.eqb_refl]. }
    congruence.
  - destruct (existsb _ existing) eqn:E; [| reflexivity].
    apply existsb_exists in E as (x & Hx & Heq).
    apply String.eqb_eq in Heq. subst x. contradiction.
Qed.

(** C5, as amended.  The form leaves out of its select the stages that are in
    the timeline already, and that is all: [handleSubmit] passes on the status
    the form holds whenever status and message are non-empty, and keeps that
    status afterwards; both [handleAddTimelineUpdate] append the update the
    backend answers with, whatever the timeline holds. *)
Theorem C5_duplicates_filtered_from_select_only
    (existing : list string) (custom : option (list TimelineUpdateForm.StatusOption))
    (o : TimelineUpdateForm.StatusOption) (f : TimelineUpdateForm.Form)
    (st : ManageOrder.State) (rq : ProjectRequest)
    (st' : RequestDetails.State) (rq' : ProjectRequest)
    (status message : string) (paymentRequired : bool) (paymentAmount : option Q)
    (newUpdate : TimelineUpdate) (r2 : outcome unit) :
  TimelineUpdateForm.status f ≠ "" →
  TimelineUpdateForm.message f ≠ "" →
  ManageOrder.request st = Some rq →
  RequestDetails.request st' = Some rq' →
  (o ∈ TimelineUpdateForm.filteredStatuses existing custom
   ↔ o ∈ TimelineUpdateForm.availableStatuses custom ∧ TimelineUpdateForm.value o ∉ existing)
  ∧ (TimelineUpdateForm.handleSubmit f).1
    = Some (TimelineUpdateForm.status f, TimelineUpdateForm.message f,
            TimelineUpdateForm.paymentRequired f, TimelineUpdateForm.paymentAmount f)
  ∧ TimelineUpdateForm.status (TimelineUpdateForm.handleSubmit f).2
    = TimelineUpdateForm.status f
  ∧ ManageOrder.timeline
      (final st (ManageOrder.handleAddTimelineUpdate st status message paymentRequired
                   paymentAmount (Resolved newUpdate)))
    = ManageOrder.timeline st ++ [newUpdate]
  ∧ RequestDetails.timeline
      (final st' (RequestDetails.handleAddTimelineUpdate st' status message
                    (Resolved newUpdate) r2))
    = RequestDetails.timeline st' ++ [newUpdate].
Proof.
  intros Hs Hm Hrq Hrq'.
  split; [apply filteredStatuses_spec |].
  assert (E : negb (String.eqb (TimelineUpdateForm.status f) "")
              && negb (String.eqb (TimelineUpdateForm.message f) "") = true).
  { apply andb_true_iff. split; apply negb_true_iff, String.eqb_neq; assumption. }
  unfold TimelineUpdateForm.handleSubmit. rewrite E. simpl.
  split; [reflexivity |]. split; [reflexivity |]. split.
  - unfold ManageOrder.handleAddTimelineUpdate. rewrite Hrq.
    destruct (String.eqb status "delivered"); reflexivity.
  - unfold RequestDetails.handleAddTimelineUpdate. rewrite Hrq'.
    destruct (String.eqb status "delivered"); [destruct r2 |]; reflexivity.
Qed.

Lemma C5_duplicates_filtered_from_select_only_witness :
  TimelineUpdateForm.status Examples.form_stitched ≠ ""
  ∧ TimelineUpdateForm.message Examples.form_stitched ≠ ""
  ∧ ManageOrder.request Examples.orderD1 = Some Examples.requestR_assigned
  ∧ RequestDetails.request Examples.pageD1_assigned = Some Examples.requestR_assigned
  ∧ ManageOrder.timeline
      (final Examples.orderD1
         (ManageOrder.handleAddTimelineUpdate Examples.orderD1 "stitched" "again" true
            (Some 25%Q) (Resolved Examples.update_stitched_again)))
    = [Examples.update_stitched; Examples.update_stitched_again].
Proof.
  assert (H1 : TimelineUpdateForm.status Examples.form_stitched ≠ "") by discriminate.
  assert (H2 : TimelineUpdateForm.message Examples.form_stitched ≠ "") by discriminate.
  split; [exact H1 |]. split; [exact H2 |]. split; [reflexivity |]. split; [reflexivity |].
  exact (proj1 (proj2 (proj2 (proj2
    (C5_duplicates_filtered_from_select_only ["stitched"] (Some ManageOrder.customStatuses)
       (TimelineUpdateForm.Build_StatusOption "dyed" "Dyeing Complete")
       Examples.form_stitched
       Examples.orderD1 Examples.requestR_assigned
       Examples.pageD1_assigned Examples.requestR_assigned
       "stitched" "again" true (Some 25%Q) Examples.update_stitched_again (Resolved tt)
       H1 H2 eq_refl eq_refl))))).
Defined.

(** C5 fails as stated.  On the request page of the assigned designer D1,
    loaded with "stitched" in the timeline, the select no longer offers
    "stitched", but the form that submitted it still holds it: with a new
    message typed the button is enabled, [handleSubmit] passes "stitched" on,
    the page posts it and appends the update the backend answers with, and the
    timeline holds the stage twice. *)
Lemma C5_counterexample :
  Examples.pageD1_assigned = RequestDetails.setActiveTab Examples.pageD1_loaded "timeline"
  ∧ RequestDetailsView.form_shown Examples.pageD1_assigned = true
  ∧ RequestDetailsView.existingTimelineStatuses Examples.pageD1_assigned = ["stitched"]
  ∧ map TimelineUpdateForm.value
      (TimelineUpdateForm.filteredStatuses
         (RequestDetailsView.existingTimelineStatuses Examples.pageD1_assigned)
         (Some RequestDetailsView.customStatuses))
    = ["assigned"; "dyed"; "fitting"; "out_for_delivery"; "delivered"]
  ∧ TimelineUpdateForm.status (TimelineUpdateForm.submit Examples.form_first).2 = "stitched"
  ∧ TimelineUpdateForm.submit_disabled Examples.form_stitched = false
  ∧ (TimelineUpdateForm.submit Examples.form_stitched).1
    = Some ("stitched", "again", false, None)
  ∧ FormWiring.submit_on_request_page Examples.pageD1_assigned Examples.form_stitched
      (Resolved Examples.update_stitched_again) (Resolved tt)
    = [ Call (postTimeline
                (RequestDetails.timeline_payload Examples.requestR_assigned "stitched"
                   "again"));
        SetState (RequestDetails.setTimeline Examples.pageD1_assigned
                    (fun prev => prev ++ [Examples.update_stitched_again]));
        Toast "Timeline updated" "The project timeline has been updated successfully."
              false ]
  ∧ map tu_status
      (RequestDetails.timeline
         (final Examples.pageD1_assigned
            (FormWiring.submit_on_request_page Examples.pageD1_assigned
               Examples.form_stitched (Resolved Examples.update_stitched_again)
               (Resolved tt))))
    = ["stitched"; "stitched"].
Proof. repeat split; reflexivity. Qed.

End C5.

(** ** C6: the stage "delivered" completes the request *)

Section C6.
Import Client.

(** The body [{ status: "completed" }] the request page sends is answered 400
    by the update endpoint for requests, for every key and every state of the
    tables: the statuses it lists are capitalized. *)
Lemma put_completed_payload_rejected rid db :
  Server.put_customization_request rid RequestDetails.completed_payload db
  = (Server.fail 400 "Invalid status. Must be Pending, Accepted, or Completed", db).
Proof. reflexivity. Qed.

(** C6, as amended.  When the POST of a "delivered" update resolves, both
    pages set the request of their local state to completed.  The order page
    does nothing else: it makes no call for the request.  The request page then
    sends [{ status: "completed" }] for the request in a second call; if that
    call resolves the local request stays completed, and if it fails the
    request the page started from is put back. *)
Theorem C6_delivered_completes_local_request
    (st : ManageOrder.State) (rq : ProjectRequest)
    (st' : RequestDetails.State) (rq' : ProjectRequest)
    (message : string) (paymentRequired : bool) (paymentAmount : option Q)
    (newUpdate : TimelineUpdate) (msg : string) :
  ManageOrder.request st = Some rq →
  RequestDetails.request st' = Some rq' →
  let order_run := ManageOrder.handleAddTimelineUpdate st "delivered" message
                     paymentRequired paymentAmount (Resolved newUpdate) in
  let page_run r2 := RequestDetails.handleAddTimelineUpdate st' "delivered" message
                       (Resolved newUpdate) r2 in
  ManageOrder.request (final st order_run) = Some (request_with_status rq "completed")
  ∧ calls order_run
    = [postTimeline (ManageOrder.timeline_payload rq "delivered" message
                       paymentRequired paymentAmount)]
  ∧ (∀ r2, calls (page_run r2)
           = [ postTimeline (RequestDetails.timeline_payload rq' "delivered" message);
               updateRequest (rq_id rq') RequestDetails.completed_payload ])
  ∧ RequestDetails.request (final st' (page_run (Resolved tt)))
    = Some (request_with_status rq' "completed")
  ∧ RequestDetails.request (final st' (page_run (Thrown msg))) = Some rq'
  ∧ RequestDetails.timeline (final st' (page_run (Thrown msg)))
    = RequestDetails.timeline st' ++ [newUpdate].
Proof.
  intros Hrq Hrq' order_run page_run. subst order_run page_run.
  unfold ManageOrder.handleAddTimelineUpdate, RequestDetails.handleAddTimelineUpdate.
  rewrite Hrq, Hrq'. simpl.
  split; [reflexivity |]. split; [reflexivity |].
  split; [| split; [reflexivity | split; reflexivity]].
  intros [[]|m]; reflexivity.
Qed.

Lemma C6_delivered_completes_local_request_witness :
  ManageOrder.request Examples.orderD1 = Some Examples.requestR_assigned
  ∧ RequestDetails.request Examples.pageD1_assigned = Some Examples.requestR_assigned
  ∧ ManageOrder.request
      (final Examples.orderD1
         (ManageOrder.handleAddTimelineUpdate Examples.orderD1 "delivered" "Delivered"
            true (Some 25%Q) (Resolved Examples.update_delivered)))
    = Some (request_with_status Examples.requestR_assigned "completed").
Proof.
  split; [reflexivity |]. split; [reflexivity |].
  exact (proj1
    (C6_delivered_completes_local_request Examples.orderD1 Examples.requestR_assigned
       Examples.pageD1_assigned Examples.requestR_assigned
       "Delivered" true (Some 25%Q) Examples.update_delivered "Network Error"
       eq_refl eq_refl)).
Defined.

(** C6 fails as stated.  On the request page the "delivered" update is
    appended, the call that should complete the request fails, and the run ends
    with the request assigned as before: the timeline holds "delivered" and the
    request is not completed.  On the order page the run makes one call, the
    POST of the update, and none for the request. *)
Lemma C6_counterexample :
  let run := RequestDetails.handleAddTimelineUpdate Examples.pageD1_assigned "delivered"
               "Delivered" (Resolved Examples.update_delivered) (Thrown "Network Error") in
  map tu_status (RequestDetails.timeline (final Examples.pageD1_assigned run))
  = ["stitched"; "delivered"]
  ∧ option_map rq_status (RequestDetails.request (final Examples.pageD1_assigned run))
    = Some "assigned"
  ∧ calls (ManageOrder.onSubmit Examples.orderD1 "delivered" "Delivered"
             (Resolved Examples.update_delivered))
    = [postTimeline (ManageOrder.timeline_payload Examples.requestR_assigned "delivered"
                       "Delivered" true (Some (100 * (25 # 100))%Q))].
Proof. repeat split; reflexivity. Qed.

End C6.

(** ** C7: who may send a message to whom *)

Section C7.
Import Client.

(** A body with sender, receiver and message is stored. *)
Lemma post_chat_stores (b : body) db :
  truthy (b !! "sender_id") = true → truthy (b !! "receiver_id") = true →
  truthy (b !! "message") = true →
  ∃ row, Server.post_chat b db
         = (Server.ok 201 "Chat message sent successfully" row,
            Server.with_chat db (Server.chat db ++ [row]))
         ∧ Server.c_sender_id row = or_default JNull (b !! "sender_id")
         ∧ Server.c_receiver_id row = or_default JNull (b !! "receiver_id")
         ∧ Server.c_message row = or_default JNull (b !! "message").
Proof.
  intros H1 H2 H3. unfold Server.post_chat. rewrite H1, H2, H3. simpl.
  eexists. split; [reflexivity |]. repeat split.
Qed.

(** The answer of the chat endpoint and the chat table it leaves depend on the
    body and on the chat table only. *)
Lemma post_chat_reads_chat_only (b : body) db db' :
  Server.chat db = Server.chat db' →
  (Server.post_chat b db).1 = (Server.post_chat b db').1
  ∧ Server.chat (Server.post_chat b db).2 = Server.chat (Server.post_chat b db').2.
Proof.
  intros E. unfold Server.post_chat. rewrite E.
  destruct (negb _ || negb _ || negb _); simpl; by rewrite ?E.
Qed.

(** C7, as amended.  The chat endpoint checks no relationship: a body with
    [sender_id], [receiver_id] and [message] is answered 201 and stored, and
    what the proposals and requests tables hold plays no part.  On the messages
    page [handleSendMessage] makes one call, addressed to the selected partner,
    and none when no partner is selected. *)
Theorem C7_no_authorization_on_chat_endpoint
    (b : body) (db db' : Server.DB)
    (st : Messages.State) (u : promise (option User)) (selected : User) (content : string)
    (imageUrl : option string) (r : outcome Message) :
  truthy (b !! "sender_id") = true →
  truthy (b !! "receiver_id") = true →
  truthy (b !! "message") = true →
  Server.chat db = Server.chat db' →
  Messages.user st = Some u →
  Messages.selectedPartner st = Some selected →
  (∃ row, Server.post_chat b db
          = (Server.ok 201 "Chat message sent successfully" row,
             Server.with_chat db (Server.chat db ++ [row]))
          ∧ Server.c_sender_id row = or_default JNull (b !! "sender_id")
          ∧ Server.c_receiver_id row = or_default JNull (b !! "receiver_id")
          ∧ Server.c_message row = or_default JNull (b !! "message"))
  ∧ (Server.post_chat b db).1 = (Server.post_chat b db').1
  ∧ Server.chat (Server.post_chat b db).2 = Server.chat (Server.post_chat b db').2
  ∧ calls (Messages.handleSendMessage st content imageUrl r)
    = [sendMessage (Messages.message_payload u selected content imageUrl)]
  ∧ Messages.message_payload u selected content imageUrl !! "receiverId"
    = Some (JStr (u_id selected))
  ∧ Messages.message_payload u selected content imageUrl !! "content"
    = Some (JStr content)
  ∧ (∀ st0, Messages.selectedPartner st0 = None →
       Messages.handleSendMessage st0 content imageUrl r = []).
Proof.
  intros H1 H2 H3 E Hu Hsel.
  split; [by apply post_chat_stores |].
  destruct (post_chat_reads_chat_only b db db' E) as [E1 E2].
  split; [exact E1 |]. split; [exact E2 |].
  split.
  { unfold Messages.handleSendMessage. rewrite Hu, Hsel. by destruct r. }
  split.
  { unfold Messages.message_payload. destruct imageUrl; reflexivity. }
  split.
  { unfold Messages.message_payload. destruct imageUrl; reflexivity. }
  intros st0 Hnone. unfold Messages.handleSendMessage. rewrite Hnone.
  by destruct (Messages.user st0).
Qed.

Lemma C7_no_authorization_on_chat_endpoint_witness :
  truthy (Examples.chat_body !! "sender_id") = true
  ∧ truthy (Examples.chat_body !! "receiver_id") = true
  ∧ truthy (Examples.chat_body !! "message") = true
  ∧ Server.chat Examples.empty_db = Server.chat Examples.db0
  ∧ Messages.user Examples.messagesD1 = Some (getCurrentUser (Some Examples.designerD1))
  ∧ Messages.selectedPartner Examples.messagesD1 = Some Examples.customerC
  ∧ (Server.post_chat Examples.chat_body Examples.empty_db).1
    = (Server.post_chat Examples.chat_body Examples.db0).1.
Proof.
  split; [reflexivity |]. split; [reflexivity |]. split; [reflexivity |].
  split; [reflexivity |]. split; [reflexivity |]. split; [reflexivity |].
  exact (proj1 (proj2
    (C7_no_authorization_on_chat_endpoint Examples.chat_body Examples.empty_db Examples.db0
       Examples.messagesD1 (getCurrentUser (Some Examples.designerD1)) Examples.customerC
       "hello" None (Thrown "unused") eq_refl eq_refl eq_refl eq_refl eq_refl eq_refl))).
Defined.

(** C7 fails as stated: with no proposal and no request in the tables, a
    message of user 1 to user 2 is answered 201 and stored. *)
Lemma C7_counterexample :
  Server.designer_proposals Examples.empty_db = []
  ∧ Server.customization_requests Examples.empty_db = []
  ∧ Server.post_chat Examples.chat_body Examples.empty_db
    = (Server.ok 201 "Chat message sent successfully"
         {| Server.chat_id := 1; Server.c_sender_id := JNum 1;
            Server.c_receiver_id := JNum 2; Server.c_message := JStr "hi";
            Server.c_status := JStr "sent" |},
       {| Server.customization_requests := [];
          Server.designer_proposals := [];
          Server.payments := [];
          Server.chat := [ {| Server.chat_id := 1; Server.c_sender_id := JNum 1;
                              Server.c_receiver_id := JNum 2;
                              Server.c_message := JStr "hi";
                              Server.c_status := JStr "sent" |} ] |}).
Proof. repeat split; reflexivity. Qed.

End C7.

(** ** C8: the payment of each stage *)

Section C8.
Import Client.

Lemma stage_payment_other rq (status : string) :
  status ≠ "stitched" → status ≠ "fitting" → status ≠ "delivered" →
  ManageOrder.stage_payment rq status = (false, None).
Proof.
  intros H1 H2 H3. unfold ManageOrder.stage_payment. simpl.
  apply String.eqb_neq in H1, H2, H3. by rewrite H1, H2, H3.
Qed.

(** The floor of a rational between two consecutive integers. *)
Lemma Qfloor_between (x : Q) (n : Z) :
  (inject_Z n <= x)%Q → (x < inject_Z (n + 1))%Q → Qfloor x = n.
Proof.
  intros Hle Hlt.
  pose proof (Qfloor_le x) as H1. pose proof (Qlt_floor x) as H2.
  assert (Ha : (inject_Z n < inject_Z (Qfloor x + 1))%Q) by (eapply Qle_lt_trans; eassumption).
  assert (Hb : (inject_Z (Qfloor x) < inject_Z (n + 1))%Q) by (eapply Qle_lt_trans; eassumption).
  rewrite <- Zlt_Qlt in Ha, Hb. lia.
Qed.

(** [toFixed(2)] gives the cents nearest to the amount. *)
Lemma toFixed2_nearest (x : Q) :
  (x * 100 - (1 # 2) <= inject_Z (ManageOrder.toFixed2 x))%Q
  ∧ (inject_Z (ManageOrder.toFixed2 x) <= x * 100 + (1 # 2))%Q.
Proof.
  unfold ManageOrder.toFixed2. destruct (Qle_bool 0 x).
  - pose proof (Qfloor_le (x * 100 + (1 # 2))) as H1.
    pose proof (Qlt_floor (x * 100 + (1 # 2))) as H2.
    rewrite inject_Z_plus in H2. change (inject_Z 1) with 1%Q in H2.
    split; [| exact H1]. apply Qlt_le_weak. lra.
  - pose proof (Qfloor_le (- x * 100 + (1 # 2))) as H1.
    pose proof (Qlt_floor (- x * 100 + (1 # 2))) as H2.
    rewrite inject_Z_plus in H2. change (inject_Z 1) with 1%Q in H2.
    rewrite inject_Z_opp. split; [lra |]. apply Qlt_le_weak. lra.
Qed.

(** An amount that is a whole number of cents is shown as it is. *)
Lemma toFixed2_whole (x : Q) (z : Z) :
  (x * 100 == inject_Z z)%Q → ManageOrder.toFixed2 x = z.
Proof.
  intros E. unfold ManageOrder.toFixed2. destruct (Qle_bool 0 x).
  - apply Qfloor_between; [lra |]. rewrite inject_Z_plus.
    change (inject_Z 1) with 1%Q. lra.
  - assert (Hf : Qfloor (- x * 100 + (1 # 2)) = (- z)%Z).
    { apply Qfloor_between; rewrite ?inject_Z_plus, inject_Z_opp;
        change (inject_Z 1) with 1%Q; lra. }
    rewrite Hf. lia.
Qed.

(** C8, as amended.  With P the accepted price (0 when there is none), the
    [onSubmit] of the order page gives the stages "stitched", "fitting" and
    "delivered" a payment of 0.25 * P each and every other stage none, so the
    stages that page offers carry 0.75 * P in all.  The Payment Schedule card
    lists four equal lines, each 0.25 * P shown in cents (within half a cent of
    it), and a total of P shown in cents; the first line, the initial payment,
    is attached to no stage, and the four lines add up to the total when
    0.25 * P is a whole number of cents.  The form of the request page hands on
    a status and a message only: the update it posts carries no payment. *)
Theorem C8_three_stages_carry_a_quarter (rq : ProjectRequest) (status : string) :
  status ≠ "stitched" → status ≠ "fitting" → status ≠ "delivered" →
  let P := ManageOrder.acceptedPrice_or_0 rq in
  let quarter := ManageOrder.toFixed2 (P * (25 # 100))%Q in
  ManageOrder.stage_payment rq "stitched" = (true, Some (P * (25 # 100))%Q)
  ∧ ManageOrder.stage_payment rq "fitting" = (true, Some (P * (25 # 100))%Q)
  ∧ ManageOrder.stage_payment rq "delivered" = (true, Some (P * (25 # 100))%Q)
  ∧ ManageOrder.stage_payment rq status = (false, None)
  ∧ (ManageOrder.stage_total rq (map TimelineUpdateForm.value ManageOrder.customStatuses)
     == (75 # 100) * P)%Q
  ∧ map snd (ManageOrder.payment_schedule rq)
    = [quarter; quarter; quarter; quarter; ManageOrder.toFixed2 P]
  ∧ (P * (25 # 100) * 100 - (1 # 2) <= inject_Z quarter)%Q
  ∧ (inject_Z quarter <= P * (25 # 100) * 100 + (1 # 2))%Q
  ∧ (∀ z : Z, (P * (25 # 100) * 100 == inject_Z z)%Q →
       quarter = z ∧ ManageOrder.toFixed2 P = (4 * z)%Z)
  ∧ (∀ rq' status' message,
       RequestDetails.timeline_payload rq' status' message !! "paymentRequired" = None
       ∧ RequestDetails.timeline_payload rq' status' message !! "paymentAmount" = None)
  ∧ (∀ st f r1 r2 c,
       c ∈ calls (FormWiring.submit_on_request_page st f r1 r2) →
       (∃ b : body, c = postTimeline b ∧ b !! "paymentRequired" = None
                    ∧ b !! "paymentAmount" = None)
       ∨ (∃ requestId, c = updateRequest requestId RequestDetails.completed_payload)).
Proof.
  intros H1 H2 H3 P quarter.
  split; [reflexivity |]. split; [reflexivity |]. split; [reflexivity |].
  split; [by apply stage_payment_other |].
  split; [unfold ManageOrder.stage_total; simpl; fold P; ring |].
  split; [reflexivity |].
  destruct (toFixed2_nearest (P * (25 # 100))) as [Hlo Hhi].
  split; [exact Hlo |]. split; [exact Hhi |].
  split.
  { intros z Hz. split; [by apply toFixed2_whole |].
    apply toFixed2_whole. rewrite inject_Z_mult. change (inject_Z 4) with 4%Q.
    rewrite <- Hz. ring. }
  split; [intros; split; reflexivity |].
  intros st f r1 r2 c Hc. unfold FormWiring.submit_on_request_page in Hc.
  destruct (TimelineUpdateForm.submit f).1 as [[[[status' message] ?] ?]|];
    [| by apply elem_of_nil in Hc].
  unfold RequestDetails.handleAddTimelineUpdate in Hc.
  destruct (RequestDetails.request st) as [rq'|]; [| by apply elem_of_nil in Hc].
  destruct r1 as [newUpdate|msg]; simpl in Hc.
  - apply elem_of_cons in Hc as [->|Hc]; [left; by eexists |].
    destruct (String.eqb status' "delivered"); simpl in Hc.
    + destruct r2; simpl in Hc;
        (apply elem_of_cons in Hc as [->|Hc]; [right; by eexists |]);
        by apply elem_of_nil in Hc.
    + by apply elem_of_nil in Hc.
  - apply elem_of_cons in Hc as [->|Hc]; [left; by eexists |].
    by apply elem_of_nil in Hc.
Qed.

Lemma C8_three_stages_carry_a_quarter_witness :
  "dyed" ≠ "stitched" ∧ "dyed" ≠ "fitting" ∧ "dyed" ≠ "delivered"
  ∧ ManageOrder.stage_payment Examples.requestR_assigned "dyed" = (false, None).
Proof.
  assert (H1 : "dyed" ≠ "stitched") by discriminate.
  assert (H2 : "dyed" ≠ "fitting") by discriminate.
  assert (H3 : "dyed" ≠ "delivered") by discriminate.
  split; [exact H1 |]. split; [exact H2 |]. split; [exact H3 |].
  exact (proj1 (proj2 (proj2 (proj2
    (C8_three_stages_carry_a_quarter Examples.requestR_assigned "dyed" H1 H2 H3))))).
Defined.

(** C8 fails as stated.  For the accepted price 100 the [onSubmit] of the
    order page gives the intermediate stage "dyed" no payment, and the
    payments of its six stages sum to 75, not to 100.  On the request page of
    the assigned designer, the form posts the stage "fitting" without any
    payment.  For the accepted price 100.50 the card shows four lines of
    25.13 above a total of 100.50. *)
Lemma C8_counterexample :
  rq_acceptedPrice Examples.requestR_assigned = Some 100%Q
  ∧ ManageOrder.stage_payment Examples.requestR_assigned "dyed" = (false, None)
  ∧ map TimelineUpdateForm.value ManageOrder.customStatuses
    = ["assigned"; "stitched"; "dyed"; "fitting"; "out_for_delivery"; "delivered"]
  ∧ (ManageOrder.stage_total Examples.requestR_assigned
       (map TimelineUpdateForm.value ManageOrder.customStatuses) == 75)%Q
  ∧ ¬ (ManageOrder.stage_total Examples.requestR_assigned
         (map TimelineUpdateForm.value ManageOrder.customStatuses) == 100)%Q
  ∧ RequestDetailsView.form_shown Examples.pageD1_assigned = true
  ∧ option_map rq_acceptedPrice (RequestDetails.request Examples.pageD1_assigned)
    = Some (Some 100%Q)
  ∧ calls (FormWiring.submit_on_request_page Examples.pageD1_assigned Examples.form_fitting
             (Resolved Examples.update_fitting) (Resolved tt))
    = [postTimeline {[ "requestId" := JStr "R"; "status" := JStr "fitting";
                       "message" := JStr "Fitted" ]}]
  ∧ map snd (ManageOrder.payment_schedule Examples.requestR_10050)
    = [2513%Z; 2513%Z; 2513%Z; 2513%Z; 10050%Z].
Proof.
  split; [reflexivity |]. split; [reflexivity |]. split; [reflexivity |].
  split; [reflexivity |]. split; [intros H; discriminate H |].
  repeat split; reflexivity.
Qed.

End C8.

(** ** C9: recording a payment *)

Section C9.
Import Client.

(** A body with the six required fields, a listed status and a listed type is
    stored as sent. *)
Lemma post_payment_stores (b : body) db :
  truthy (b !! "user_id") = true → truthy (b !! "merchant_id") = true →
  truthy (b !! "order_id") = true → truthy (b !! "amount") = true →
  truthy (b !! "payment_method") = true → truthy (b !! "payment_type") = true →
  includes Server.payment_statuses (or_default (JStr "Pending") (b !! "status")) = true →
  includes Server.payment_types (or_default JNull (b !! "payment_type")) = true →
  ∃ row, Server.post_payment b db
         = (Server.ok 201 "Payment created successfully" row,
            Server.with_payments db (Server.payments db ++ [row]))
         ∧ Server.pay_amount row = or_default JNull (b !! "amount")
         ∧ Server.pay_status row = or_default (JStr "Pending") (b !! "status").
Proof.
  intros H1 H2 H3 H4 H5 H6 H7 H8. unfold Server.post_payment.
  rewrite H1, H2, H3, H4, H5, H6, H7, H8. simpl.
  eexists. split; [reflexivity |]. split; reflexivity.
Qed.

(** No payment is stored with the status "paid": it is not a listed status. *)
Lemma post_payment_paid_rejected (b : body) db :
  b !! "status" = Some (JStr "paid") →
  Server.code (Server.post_payment b db).1 = 400 ∧ (Server.post_payment b db).2 = db.
Proof.
  intros Hs. unfold Server.post_payment. rewrite Hs.
  destruct (negb _ || negb _ || negb _ || negb _ || negb _ || negb _); simpl; by split.
Qed.

(** C9, as amended.  The payments endpoint compares the amount with nothing.
    A body with the six required fields, a listed status ("Pending" when none
    is sent) and a listed payment type is answered 201 and stored with the
    amount and the status as sent; the status "paid" is not listed and is
    answered 400.  On the payment page [handleMakePayment] sends the
    [paymentAmount] of the loaded update, so the amounts cannot differ there;
    the run leaves the loaded update as it was. *)
Theorem C9_amount_not_compared
    (b : body) (db : Server.DB)
    (st : Payment.State) (rq : ProjectRequest) (update : TimelineUpdate) (amount : Q)
    (r : outcome unit) :
  truthy (b !! "user_id") = true → truthy (b !! "merchant_id") = true →
  truthy (b !! "order_id") = true → truthy (b !! "amount") = true →
  truthy (b !! "payment_method") = true → truthy (b !! "payment_type") = true →
  includes Server.payment_statuses (or_default (JStr "Pending") (b !! "status")) = true →
  includes Server.payment_types (or_default JNull (b !! "payment_type")) = true →
  Payment.request st = Some rq →
  Payment.timelineUpdate st = Some update →
  tu_paymentAmount update = Some amount →
  Qeq_bool amount 0 = false →
  (∃ row, Server.post_payment b db
          = (Server.ok 201 "Payment created successfully" row,
             Server.with_payments db (Server.payments db ++ [row]))
          ∧ Server.pay_amount row = or_default JNull (b !! "amount")
          ∧ Server.pay_status row = or_default (JStr "Pending") (b !! "status"))
  ∧ (∀ (b' : body) db', b' !! "status" = Some (JStr "paid") →
       Server.code (Server.post_payment b' db').1 = 400
       ∧ (Server.post_payment b' db').2 = db')
  ∧ calls (Payment.handleMakePayment st r)
    = [postPayments (Payment.payment_payload rq update amount)]
  ∧ Payment.payment_payload rq update amount !! "amount" = Some (JNum amount)
  ∧ Payment.timelineUpdate (final st (Payment.handleMakePayment st r)) = Some update.
Proof.
  intros H1 H2 H3 H4 H5 H6 H7 H8 Hrq Hup Ham Hnz.
  split; [by apply post_payment_stores |].
  split; [intros b' db'; apply post_payment_paid_rejected |].
  unfold Payment.handleMakePayment. rewrite Hrq, Hup, Ham, Hnz.
  split; [by destruct r |]. split; [reflexivity |].
  destruct r; simpl; exact Hup.
Qed.

Lemma C9_amount_not_compared_witness :
  truthy (Examples.payment_body !! "user_id") = true
  ∧ truthy (Examples.payment_body !! "merchant_id") = true
  ∧ truthy (Examples.payment_body !! "order_id") = true
  ∧ truthy (Examples.payment_body !! "amount") = true
  ∧ truthy (Examples.payment_body !! "payment_method") = true
  ∧ truthy (Examples.payment_body !! "payment_type") = true
  ∧ includes Server.payment_statuses
      (or_default (JStr "Pending") (Examples.payment_body !! "status")) = true
  ∧ includes Server.payment_types
      (or_default JNull (Examples.payment_body !! "payment_type")) = true
  ∧ Payment.request Examples.paymentC = Some Examples.requestR_assigned
  ∧ Payment.timelineUpdate Examples.paymentC = Some Examples.update_stitched
  ∧ tu_paymentAmount Examples.update_stitched = Some 25%Q
  ∧ Qeq_bool 25 0 = false
  ∧ calls (Payment.handleMakePayment Examples.paymentC (Resolved tt))
    = [postPayments (Payment.payment_payload Examples.requestR_assigned
                       Examples.update_stitched 25%Q)].
Proof.
  do 12 (split; [reflexivity |]).
  exact (proj1 (proj2 (proj2
    (C9_amount_not_compared Examples.payment_body Examples.empty_db
       Examples.paymentC Examples.requestR_assigned Examples.update_stitched 25%Q
       (Resolved tt)
       eq_refl eq_refl eq_refl eq_refl eq_refl eq_refl eq_refl eq_refl
       eq_refl eq_refl eq_refl eq_refl)))).
Defined.

(** C9 fails as stated.  The endpoint stores a payment of 999 on order 7,
    whatever any timeline update asks for, and stores it as "Pending", not as
    paid.  On the page, a payment that went through leaves the update pending:
    the run ends with the success toast and the navigation. *)
Lemma C9_counterexample :
  Server.post_payment Examples.payment_body Examples.empty_db
  = (Server.ok 201 "Payment created successfully"
       {| Server.payment_id := 1; Server.pay_user_id := JNum 11;
          Server.pay_merchant_id := JNum 21; Server.pay_order_id := JNum 7;
          Server.pay_amount := JNum 999; Server.pay_payment_method := JStr "card";
          Server.pay_payment_type := JStr "Customer Payment";
          Server.pay_status := JStr "Pending"; Server.pay_transaction_id := JNull |},
     {| Server.customization_requests := [];
        Server.designer_proposals := [];
        Server.payments :=
          [ {| Server.payment_id := 1; Server.pay_user_id := JNum 11;
               Server.pay_merchant_id := JNum 21; Server.pay_order_id := JNum 7;
               Server.pay_amount := JNum 999; Server.pay_payment_method := JStr "card";
               Server.pay_payment_type := JStr "Customer Payment";
               Server.pay_status := JStr "Pending";
               Server.pay_transaction_id := JNull |} ];
        Server.chat := [] |})
  ∧ Payment.handleMakePayment Examples.paymentC (Resolved tt)
    = [ SetState (Payment.setProcessingPayment Examples.paymentC true);
        Call (postPayments (Payment.payment_payload Examples.requestR_assigned
                              Examples.update_stitched 25%Q));
        Toast "Payment successful" "Your payment has been processed." false;
        Navigate "/requests/R";
        SetState Examples.paymentC ]
  ∧ option_map tu_paymentStatus
      (Payment.timelineUpdate
         (final Examples.paymentC (Payment.handleMakePayment Examples.paymentC (Resolved tt))))
    = Some (Some "pending").
Proof. repeat split; reflexivity. Qed.

End C9.

(** ** The pages against the backend of the repository *)

(** The vocabulary of the pages (accepted, rejected, assigned, completed;
    [requestId]) is not the one of the endpoints (Pending, Accepted, Cancelled,
    Completed; [request_id], [merchant_id]).  Against these endpoints every
    run of the handlers below takes its error path. *)

Section AgainstBackend.
Import Client RequestDetails.

Lemma create_payload_rejected rq proposalData db :
  Server.post_designer_proposal (create_payload rq proposalData) db
  = (Server.fail 400 "Missing required fields", db).
Proof. reflexivity. Qed.

Lemma assign_payload_rejected rid proposalId acceptedProposal db :
  Server.put_customization_request rid (assign_payload proposalId acceptedProposal) db
  = (Server.fail 400 "Invalid status. Must be Pending, Accepted, or Completed", db).
Proof. reflexivity. Qed.

Lemma handleAcceptProposal_against_backend st proposalId pid db r2 r3 :
  handleAcceptProposal st proposalId
    (axios (Server.put_designer_proposal pid accept_payload db).1) r2 r3
  = [ Call (updateProposal proposalId accept_payload);
      Toast "Error" "Request failed with status code 400" true ].
Proof. rewrite put_accept_payload_rejected. reflexivity. Qed.

Lemma handleRejectProposal_against_backend st proposalId pid db :
  handleRejectProposal st proposalId
    (axios (Server.put_designer_proposal pid reject_payload db).1)
  = [ Call (updateProposal proposalId reject_payload);
      Toast "Error" "Request failed with status code 400" true ].
Proof. rewrite put_reject_payload_rejected. reflexivity. Qed.

Lemma handleAddTimelineUpdate_against_backend st rq message newUpdate rid db :
  request st = Some rq →
  request (final st (handleAddTimelineUpdate st "delivered" message (Resolved newUpdate)
                       (axios (Server.put_customization_request rid completed_payload db).1)))
  = Some rq.
Proof.
  intros Hrq. rewrite put_completed_payload_rejected.
  unfold handleAddTimelineUpdate. rewrite Hrq. reflexivity.
Qed.

End AgainstBackend.

(** * More of the code *)

(** ** The update endpoints by key *)

Section UpdateByKey.
Import Server.

Lemma set_proposal_column_id r a : proposal_id (set_proposal_column r a) = proposal_id r.
Proof.
  unfold set_proposal_column.
  destruct (String.eqb a.1 "price"); [reflexivity |].
  by destruct (String.eqb a.1 "status").
Qed.

Lemma foldl_set_proposal_column_id updates r :
  proposal_id (foldl set_proposal_column r updates) = proposal_id r.
Proof.
  revert r. induction updates as [|a updates IH]; intros r; [reflexivity |].
  simpl. by rewrite IH, set_proposal_column_id.
Qed.

(** The rows an UPDATE returns: none exactly when no row has the key. *)
Lemma update_proposals_returned updates pid rows :
  (update_proposals updates pid rows).2 = []
  ↔ existsb (fun r => Nat.eqb (proposal_id r) pid) rows = false.
Proof.
  unfold update_proposals. simpl.
  induction rows as [|r rows IH]; [done |].
  simpl. rewrite filter_cons.
  destruct (Nat.eqb (proposal_id r) pid) eqn:E; simpl.
  - rewrite decide_True; [done |]. by rewrite foldl_set_proposal_column_id.
  - rewrite decide_False; [exact IH |]. by rewrite E.
Qed.

(** Without a row of the key an UPDATE changes nothing. *)
Lemma update_proposals_miss updates pid rows :
  existsb (fun r => Nat.eqb (proposal_id r) pid) rows = false →
  (update_proposals updates pid rows).1 = rows.
Proof.
  unfold update_proposals. simpl.
  induction rows as [|r rows IH]; [done |]. simpl.
  intros H. apply orb_false_iff in H as [E H]. rewrite E. f_equal. by apply IH.
Qed.

Lemma with_proposals_same db : with_proposals db (designer_proposals db) = db.
Proof. by destruct db. Qed.

Lemma with_requests_same db : with_requests db (customization_requests db) = db.
Proof. by destruct db. Qed.

End UpdateByKey.

(** X1.  [PUT /api/customization-requests/:requestId] never answers "No
    fields to update": it always adds the assignment of [updated_at].  A call
    with an empty body is answered 200 when a row has the key and 404 when
    none has, and leaves every column of the model as it was. *)
Theorem X1_put_request_empty_body (requestId : nat) (db : Server.DB) :
  (∀ b : body,
     Server.message (Server.put_customization_request requestId b db).1
     ≠ "No fields to update")
  ∧ (Server.put_customization_request requestId ∅ db).2 = db
  ∧ Server.code (Server.put_customization_request requestId ∅ db).1
    = if existsb (fun r => Nat.eqb (Server.request_id r) requestId)
                 (Server.customization_requests db)
      then 200 else 404.
Proof.
  split; [| split].
  - intros b. unfold Server.put_customization_request.
    destruct (truthy (b !! "status") && _); [discriminate |].
    match goal with |- context [Nat.eqb (length ?l) 0] =>
      assert (E : Nat.eqb (length l) 0 = false)
        by (rewrite !length_app; simpl; apply Nat.eqb_neq; lia);
      rewrite E end.
    destruct (Server.update_requests _ requestId _) as [rows' [|row returned]];
      discriminate.
  - unfold Server.put_customization_request, Server.update_requests. simpl.
    match goal with |- context [map ?f ?l] =>
      assert (E : map f l = l)
        by (rewrite <- (map_id l) at 2; apply map_ext; intros r;
            by destruct (Nat.eqb _ _));
      rewrite E end.
    destruct (filter _ _); simpl; [reflexivity | apply with_requests_same].
  - unfold Server.put_customization_request, Server.update_requests. simpl.
    induction (Server.customization_requests db) as [|r rows IH]; [reflexivity |].
    simpl. rewrite filter_cons.
    destruct (Nat.eqb (Server.request_id r) requestId) eqn:E; simpl.
    + rewrite decide_True; [reflexivity | exact E].
    + rewrite decide_False; [| by rewrite E].
      destruct (filter _ _); exact IH.
Qed.

Section ProposalByKey.
Import Server.

Lemma foldl_price_status_row (price : option jsval) v r :
  foldl set_proposal_column r (pushed "price" price ++ [("status", v)])
  = {| proposal_id := proposal_id r; p_request_id := p_request_id r;
       p_merchant_id := p_merchant_id r;
       p_price := match price with Some x => x | None => p_price r end;
       p_status := v |}.
Proof. destruct price; destruct r; reflexivity. Qed.

End ProposalByKey.

(** X2.  For a body with a listed status, [PUT /api/designer-proposals/:proposalId]
    is answered 200 when a row has the key and 404 when none has, and then
    nothing is written.  It never adds or removes a row; in a row of the key
    it sets the status, and the price when the body carries one, and keeps the
    request and the merchant. *)
Theorem X2_put_proposal_by_key (pid : nat) (b : body) (db : Server.DB) (v : jsval) :
  b !! "status" = Some v →
  truthy_val v = true →
  includes Server.proposal_statuses v = true →
  let res := Server.put_designer_proposal pid b db in
  let present := existsb (fun r => Nat.eqb (Server.proposal_id r) pid)
                         (Server.designer_proposals db) in
  Server.code res.1 = (if present then 200 else 404)
  ∧ (present = false → res.2 = db)
  ∧ length (Server.designer_proposals res.2) = length (Server.designer_proposals db)
  ∧ (∀ (i : nat) r, Server.designer_proposals db !! i = Some r →
       Server.proposal_id r = pid →
       Server.designer_proposals res.2 !! i
       = Some {| Server.proposal_id := pid;
                 Server.p_request_id := Server.p_request_id r;
                 Server.p_merchant_id := Server.p_merchant_id r;
                 Server.p_price := match b !! "price" with
                                   | Some x => x
                                   | None => Server.p_price r
                                   end;
                 Server.p_status := v |}).
Proof.
  intros Hs Ht Hi res present. subst res.
  unfold Server.put_designer_proposal. rewrite Hs.
  change (truthy (Some v)) with (truthy_val v).
  change (or_default JNull (Some v)) with v.
  rewrite Ht, Hi. cbn [andb negb].
  assert (E : Nat.eqb (length (Server.pushed "price" (b !! "price") ++ [("status", v)])) 0
              = false) by (rewrite length_app; simpl; apply Nat.eqb_neq; lia).
  rewrite E.
  pose proof (update_proposals_returned
                (Server.pushed "price" (b !! "price") ++ [("status", v)]) pid
                (Server.designer_proposals db)) as Hret.
  pose proof (update_proposals_miss
                (Server.pushed "price" (b !! "price") ++ [("status", v)]) pid
                (Server.designer_proposals db)) as Hmiss.
  fold present in Hret, Hmiss.
  destruct (Server.update_proposals _ pid (Server.designer_proposals db))
    as [rows' returned] eqn:Eu.
  assert (Erows : rows' = (Server.update_proposals
                             (Server.pushed "price" (b !! "price") ++ [("status", v)]) pid
                             (Server.designer_proposals db)).1) by (by rewrite Eu).
  simpl in Hret, Hmiss.
  destruct returned as [|row returned]; simpl.
  - assert (Hp : present = false) by (by apply Hret). rewrite Hp.
    split; [reflexivity |]. split; [done |]. split; [reflexivity |].
    intros i r Hr Hid. exfalso.
    assert (present = true); [| congruence].
    apply existsb_exists. exists r. split.
    + apply list_elem_of_In. by eapply list_elem_of_lookup_2.
    + by apply Nat.eqb_eq.
  - assert (Hp : present = true).
    { destruct present; [reflexivity |]. by specialize (proj2 Hret eq_refl). }
    rewrite Hp. split; [reflexivity |]. split; [discriminate |].
    split.
    + rewrite Erows. unfold Server.update_proposals. simpl. apply length_map.
    + intros i r Hr Hid. rewrite Erows. unfold Server.update_proposals. simpl.
      rewrite list_lookup_fmap, Hr. simpl.
      rewrite (proj2 (Nat.eqb_eq _ _) Hid), foldl_price_status_row, Hid. reflexivity.
Qed.

(** ** The statuses the handlers write *)

Section ListedStatuses.
Import Server ServerMore.

Lemma post_designer_proposal_listed (b : body) db :
  Forall (fun r => includes proposal_statuses (p_status r) = true) (designer_proposals db) →
  Forall (fun r => includes proposal_statuses (p_status r) = true)
         (designer_proposals (post_designer_proposal b db).2).
Proof.
  intros H. unfold post_designer_proposal.
  destruct (negb _ || negb _ || negb _); [exact H |].
  destruct (includes proposal_statuses _) eqn:E; simpl; [| exact H].
  apply Forall_app. split; [exact H |]. by apply Forall_singleton.
Qed.

Lemma put_designer_proposal_listed pid (b : body) db :
  Forall (fun r => includes proposal_statuses (p_status r) = true) (designer_proposals db) →
  Forall (fun r => includes proposal_statuses (p_status r) = true)
         (designer_proposals (put_designer_proposal pid b db).2).
Proof.
  intros H. unfold put_designer_proposal.
  destruct (truthy (b !! "status")) eqn:Et; cbn [andb].
  - destruct (includes proposal_statuses (or_default JNull (b !! "status"))) eqn:Ei;
      cbn [negb]; [| exact H].
    destruct (Nat.eqb _ 0); [exact H |].
    unfold update_proposals. cbn [fst snd].
    match goal with |- context [filter ?P ?l] => destruct (filter P l) end; [exact H |].
    simpl. apply Forall_fmap. eapply Forall_impl; [exact H |].
    intros r Hr. simpl. destruct (Nat.eqb (proposal_id r) pid); [| exact Hr].
    rewrite foldl_price_status_row. exact Ei.
  - cbn [negb]. rewrite app_nil_r.
    destruct (Nat.eqb _ 0); [exact H |].
    unfold update_proposals. cbn [fst snd].
    match goal with |- context [filter ?P ?l] => destruct (filter P l) end; [exact H |].
    simpl. apply Forall_fmap. eapply Forall_impl; [exact H |].
    intros r Hr. simpl. destruct (Nat.eqb (proposal_id r) pid); [| exact Hr].
    destruct (b !! "price"); simpl; exact Hr.
Qed.

Lemma delete_designer_proposal_listed pid db :
  Forall (fun r => includes proposal_statuses (p_status r) = true) (designer_proposals db) →
  Forall (fun r => includes proposal_statuses (p_status r) = true)
         (designer_proposals (delete_designer_proposal pid db).2).
Proof.
  intros H. unfold delete_designer_proposal.
  destruct (Nat.eqb _ 0); [exact H |]. simpl.
  rewrite Forall_forall in *. intros r Hr. apply H.
  apply list_elem_of_In in Hr. apply filter_In in Hr as [Hr _]. by apply list_elem_of_In.
Qed.

End ListedStatuses.

(** X3.  The status column of [designer_proposals] stays within "Pending",
    "Accepted" and "Cancelled": if every row has a listed status, every row
    still has one after any sequence of POST, PUT and DELETE requests on
    designer proposals, whatever their bodies. *)
Theorem X3_proposal_statuses_stay_listed (db : Server.DB)
    (rqs : list ServerMore.proposal_request) :
  Forall (fun r => includes Server.proposal_statuses (Server.p_status r) = true)
         (Server.designer_proposals db) →
  Forall (fun r => includes Server.proposal_statuses (Server.p_status r) = true)
         (Server.designer_proposals (foldl ServerMore.serve_proposal db rqs)).
Proof.
  revert db. induction rqs as [|rq rqs IH]; intros db H; [exact H |].
  simpl. apply IH. destruct rq as [b|pid b|pid]; simpl.
  - by apply post_designer_proposal_listed.
  - by apply put_designer_proposal_listed.
  - by apply delete_designer_proposal_listed.
Qed.

(** ** Deleting *)

Section Deleting.

Lemma filter_none_iff {A : Type} (f : A → bool) (l : list A) :
  Nat.eqb (length (List.filter f l)) 0 = negb (existsb f l).
Proof.
  induction l as [|a l IH]; [reflexivity |]. simpl.
  destruct (f a); simpl; [reflexivity | exact IH].
Qed.

Lemma filter_negb_all {A : Type} (f : A → bool) (l : list A) :
  existsb f l = false → List.filter (fun a => negb (f a)) l = l.
Proof.
  induction l as [|a l IH]; [reflexivity |]. simpl.
  intros H. apply orb_false_iff in H as [E H]. rewrite E. simpl. f_equal. by apply IH.
Qed.

Lemma existsb_filter_negb {A : Type} (f : A → bool) (l : list A) :
  existsb f (List.filter (fun a => negb (f a)) l) = false.
Proof.
  induction l as [|a l IH]; [reflexivity |]. simpl.
  destruct (f a) eqn:E; simpl; [exact IH |]. by rewrite E.
Qed.

End Deleting.

(** X4.  [DELETE /api/designer-proposals/:proposalId] is answered 200 when a
    row has the key and 404 when none has.  It leaves in the table exactly the
    rows of the other keys, in their order, and does not touch the other
    tables; a second DELETE of the same key is answered 404 and changes
    nothing. *)
Theorem X4_delete_proposal_then_not_found (pid : nat) (db : Server.DB) :
  let res := ServerMore.delete_designer_proposal pid db in
  let hit r := Nat.eqb (Server.proposal_id r) pid in
  Server.code res.1 = (if existsb hit (Server.designer_proposals db) then 200 else 404)
  ∧ Server.designer_proposals res.2
    = List.filter (fun r => negb (hit r)) (Server.designer_proposals db)
  ∧ Server.customization_requests res.2 = Server.customization_requests db
  ∧ Server.payments res.2 = Server.payments db
  ∧ Server.chat res.2 = Server.chat db
  ∧ ServerMore.delete_designer_proposal pid res.2
    = (Server.fail 404 "Designer proposal not found", res.2).
Proof.
  intros res hit. subst res. unfold ServerMore.delete_designer_proposal.
  fold hit. rewrite (filter_none_iff hit).
  destruct (existsb hit (Server.designer_proposals db)) eqn:E; simpl.
  - repeat (split; [reflexivity |]).
    rewrite (filter_none_iff hit), existsb_filter_negb. reflexivity.
  - split; [reflexivity |]. split; [symmetry; by apply filter_negb_all |].
    repeat (split; [reflexivity |]).
    rewrite (filter_none_iff hit), E. reflexivity.
Qed.

(** ** Payments *)

Section PaymentRows.
Import Server ServerMore.

(** The row an UPDATE of payments leaves, column by column. *)
Lemma payment_updates_row (amount method type status tx : option jsval) r :
  foldl set_payment_column r
    (pushed "amount" amount ++ pushed_if_truthy "payment_method" method
     ++ pushed_if_truthy "payment_type" type ++ pushed_if_truthy "status" status
     ++ pushed "transaction_id" tx)
  = {| payment_id := payment_id r; pay_user_id := pay_user_id r;
       pay_merchant_id := pay_merchant_id r; pay_order_id := pay_order_id r;
       pay_amount := match amount with Some x => x | None => pay_amount r end;
       pay_payment_method := if truthy method then or_default JNull method
                             else pay_payment_method r;
       pay_payment_type := if truthy type then or_default JNull type
                           else pay_payment_type r;
       pay_status := if truthy status then or_default JNull status else pay_status r;
       pay_transaction_id := match tx with Some x => x | None => pay_transaction_id r end |}.
Proof.
  unfold pushed_if_truthy.
  destruct amount, (truthy method), (truthy type), (truthy status), tx, r; reflexivity.
Qed.

(** What [PUT /api/payments/:paymentId] leaves in the table: the table as it
    was, or each row of the key with the assignments of the body. *)
Lemma put_payment_rows pid (b : body) db :
  payments (put_payment pid b db).2 = payments db
  ∨ ((truthy (b !! "payment_type") = true →
      includes payment_types (or_default JNull (b !! "payment_type")) = true)
     ∧ (truthy (b !! "status") = true →
        includes payment_statuses (or_default JNull (b !! "status")) = true)
     ∧ payments (put_payment pid b db).2
       = map (fun r => if Nat.eqb (payment_id r) pid
                       then foldl set_payment_column r
                              (pushed "amount" (b !! "amount")
                               ++ pushed_if_truthy "payment_method" (b !! "payment_method")
                               ++ pushed_if_truthy "payment_type" (b !! "payment_type")
                               ++ pushed_if_truthy "status" (b !! "status")
                               ++ pushed "transaction_id" (b !! "transaction_id"))
                       else r) (payments db)).
Proof.
  unfold put_payment.
  destruct (truthy (b !! "payment_type") && _) eqn:E1; [by left |].
  destruct (truthy (b !! "status") && _) eqn:E2; [by left |].
  destruct (Nat.eqb _ 0); [by left |].
  unfold update_payments. cbn [fst snd].
  match goal with |- context [List.filter ?P ?l] => destruct (List.filter P l) end;
    [by left |].
  right. split; [| split; [| reflexivity]].
  - intros Ht. rewrite Ht in E1. simpl in E1. by apply negb_false_iff in E1.
  - intros Ht. rewrite Ht in E2. simpl in E2. by apply negb_false_iff in E2.
Qed.

End PaymentRows.

(** X5.  The status column of [payments] stays within "Pending", "Completed"
    and "Failed" and the payment type within "Customer Payment" and "Merchant
    Payout": if every row is so, every row still is after any sequence of
    POST, PUT and DELETE requests on payments, whatever their bodies. *)
Theorem X5_payment_statuses_stay_listed (db : Server.DB)
    (rqs : list ServerMore.payment_request) :
  Forall (fun r => includes Server.payment_statuses (Server.pay_status r) = true
                   ∧ includes Server.payment_types (Server.pay_payment_type r) = true)
         (Server.payments db) →
  Forall (fun r => includes Server.payment_statuses (Server.pay_status r) = true
                   ∧ includes Server.payment_types (Server.pay_payment_type r) = true)
         (Server.payments (foldl ServerMore.serve_payment db rqs)).
Proof.
  revert db. induction rqs as [|rq rqs IH]; intros db H; [exact H |].
  simpl. apply IH. destruct rq as [b|pid b|pid]; simpl.
  - unfold Server.post_payment.
    destruct (negb _ || negb _ || negb _ || negb _ || negb _ || negb _); [exact H |].
    destruct (includes Server.payment_statuses _) eqn:E1; simpl; [| exact H].
    destruct (includes Server.payment_types _) eqn:E2; simpl; [| exact H].
    apply Forall_app. split; [exact H |]. apply Forall_singleton. by split.
  - destruct (put_payment_rows pid b db) as [E|(Ht & Hs & E)]; rewrite E; [exact H |].
    apply Forall_fmap. eapply Forall_impl; [exact H |].
    intros r [Hr1 Hr2]. simpl. destruct (Nat.eqb (Server.payment_id r) pid); [| by split].
    rewrite payment_updates_row. simpl. split.
    + destruct (truthy (b !! "status")); [by apply Hs | exact Hr1].
    + destruct (truthy (b !! "payment_type")); [by apply Ht | exact Hr2].
  - unfold ServerMore.delete_payment.
    destruct (Nat.eqb _ 0); [exact H |]. simpl.
    rewrite Forall_forall in *. intros r Hr. apply H.
    apply list_elem_of_In in Hr. apply filter_In in Hr as [Hr _]. by apply list_elem_of_In.
Qed.

(** X6.  [PUT /api/payments/:paymentId] never adds or removes a row and never
    changes the key, the user, the merchant or the order of a row; the amount
    of a row changes only when the body carries an amount, and the rows of the
    other keys stay as they are. *)
Theorem X6_put_payment_keeps_parties (pid : nat) (b : body) (db : Server.DB)
    (i : nat) (r : Server.payment_row) :
  Server.payments db !! i = Some r →
  ∃ r', Server.payments (ServerMore.put_payment pid b db).2 !! i = Some r'
        ∧ Server.payment_id r' = Server.payment_id r
        ∧ Server.pay_user_id r' = Server.pay_user_id r
        ∧ Server.pay_merchant_id r' = Server.pay_merchant_id r
        ∧ Server.pay_order_id r' = Server.pay_order_id r
        ∧ (b !! "amount" = None → Server.pay_amount r' = Server.pay_amount r)
        ∧ (Server.payment_id r ≠ pid → r' = r)
        ∧ length (Server.payments (ServerMore.put_payment pid b db).2)
          = length (Server.payments db).
Proof.
  intros Hr.
  destruct (put_payment_rows pid b db) as [E|(_ & _ & E)]; rewrite E.
  - exists r. by repeat split.
  - rewrite list_lookup_fmap, Hr, length_map. simpl.
    destruct (Nat.eqb_spec (Server.payment_id r) pid) as [He|Hne].
    + rewrite payment_updates_row. eexists. split; [reflexivity |]. simpl.
      repeat split; try done. by intros ->.
    + exists r. by repeat split.
Qed.

(** ** Chat messages *)

Section ChatRows.
Import Server ServerMore.

Lemma chat_updates_row (message status : option jsval) r :
  foldl set_chat_column r
    (pushed_if_truthy "message" message ++ pushed_if_truthy "status" status)
  = {| chat_id := chat_id r; c_sender_id := c_sender_id r;
       c_receiver_id := c_receiver_id r;
       c_message := if truthy message then or_default JNull message else c_message r;
       c_status := if truthy status then or_default JNull status else c_status r |}.
Proof.
  unfold pushed_if_truthy.
  destruct (truthy message), (truthy status), r; reflexivity.
Qed.

(** The chat table after [PUT /api/chat/:chatId]: unless the body has neither
    a message nor a status, each row of the key has the assignments of the
    body. *)
Lemma put_chat_rows cid (b : body) db :
  chat (put_chat cid b db).2
  = if truthy (b !! "message") || truthy (b !! "status")
    then map (fun r => if Nat.eqb (chat_id r) cid
                       then foldl set_chat_column r
                              (pushed_if_truthy "message" (b !! "message")
                               ++ pushed_if_truthy "status" (b !! "status"))
                       else r) (chat db)
    else chat db.
Proof.
  unfold put_chat.
  assert (E : Nat.eqb (length (pushed_if_truthy "message" (b !! "message")
                               ++ pushed_if_truthy "status" (b !! "status"))) 0
              = negb (truthy (b !! "message") || truthy (b !! "status"))).
  { unfold pushed_if_truthy.
    destruct (truthy (b !! "message")), (truthy (b !! "status")); reflexivity. }
  rewrite E. destruct (truthy (b !! "message") || truthy (b !! "status")); [| reflexivity].
  cbn [negb]. unfold update_chat. cbn [fst snd].
  match goal with |- context [List.filter ?P ?l] => destruct (List.filter P l) eqn:Ef end;
    [| reflexivity].
  simpl. induction (chat db) as [|r rows IH]; [reflexivity |].
  simpl in Ef |- *. destruct (Nat.eqb (chat_id r) cid) eqn:Er.
  - rewrite chat_updates_row in Ef. simpl in Ef. rewrite Er in Ef. discriminate Ef.
  - rewrite Er in Ef. f_equal. by apply IH.
Qed.

End ChatRows.

(** X7.  [PUT /api/chat/:chatId] never adds or removes a message and never
    changes the sender or the receiver of one; the rows of the other keys stay
    as they are.  A message that is absent or empty in the body leaves the
    text as it is, and a row of the key takes any non-empty status the body
    carries: the status is not validated. *)
Theorem X7_put_chat_keeps_parties (cid : nat) (b : body) (db : Server.DB)
    (i : nat) (r : Server.chat_row) :
  Server.chat db !! i = Some r →
  ∃ r', Server.chat (ServerMore.put_chat cid b db).2 !! i = Some r'
        ∧ Server.chat_id r' = Server.chat_id r
        ∧ Server.c_sender_id r' = Server.c_sender_id r
        ∧ Server.c_receiver_id r' = Server.c_receiver_id r
        ∧ (truthy (b !! "message") = false → Server.c_message r' = Server.c_message r)
        ∧ (Server.chat_id r = cid → truthy (b !! "status") = true →
           Server.c_status r' = or_default JNull (b !! "status"))
        ∧ (Server.chat_id r ≠ cid → r' = r)
        ∧ length (Server.chat (ServerMore.put_chat cid b db).2)
          = length (Server.chat db).
Proof.
  intros Hr. rewrite put_chat_rows.
  destruct (truthy (b !! "message") || truthy (b !! "status")) eqn:E.
  - rewrite list_lookup_fmap, Hr, length_map. simpl.
    destruct (Nat.eqb_spec (Server.chat_id r) cid) as [He|Hne].
    + rewrite chat_updates_row. eexists. split; [reflexivity |]. simpl.
      repeat split; try done.
      * by intros ->.
      * by intros _ ->.
    + exists r. by repeat split.
  - apply orb_false_iff in E as [_ Es]. exists r.
    repeat split; try done. intros _ Ht. congruence.
Qed.

(** ** The token middleware *)

Section TokenFacts.
Import ServerMore.

Lemma split_nonempty sep s : split sep s ≠ [].
Proof.
  destruct s as [|c s]; simpl; [discriminate |].
  destruct (Ascii.eqb c sep); [discriminate |]. by destruct (split sep s).
Qed.

Lemma split_word sep word : free_of sep word = true → split sep word = [word].
Proof.
  induction word as [|c word IH]; [reflexivity |]. simpl.
  intros H. apply andb_true_iff in H as [Hc Hw].
  apply negb_true_iff in Hc. rewrite Hc, (IH Hw). reflexivity.
Qed.

Lemma split_word_sep sep word rest :
  free_of sep word = true →
  split sep (word +:+ String sep rest) = word :: split sep rest.
Proof.
  induction word as [|c word IH]; simpl.
  - intros _. by rewrite Ascii.eqb_refl.
  - intros H. apply andb_true_iff in H as [Hc Hw].
    apply negb_true_iff in Hc. rewrite Hc, (IH Hw). reflexivity.
Qed.

Lemma token_of_scheme scheme rest :
  free_of space scheme = true →
  token_of (Some (scheme +:+ String space rest)) = head (split space rest).
Proof.
  intros H. unfold token_of.
  assert (E : String.eqb (scheme +:+ String space rest) "" = false)
    by (by destruct scheme).
  rewrite E, (split_word_sep space scheme rest H). simpl.
  by destruct (split space rest).
Qed.

End TokenFacts.

(** X8.  [authenticateToken] reads the second word of the authorization
    header and nothing else: the first word, the scheme, is not looked at, so
    two headers that differ in it only are treated alike.  A header that is
    absent, of one word, or with an empty second word is answered 401 without
    the token being verified; otherwise the request goes on exactly when the
    second word verifies, and is answered 403 when it does not. *)
Theorem X8_token_is_second_word (claims : Type) (verify : string → option claims)
    (scheme scheme' rest : string) :
  ServerMore.free_of ServerMore.space scheme = true →
  ServerMore.free_of ServerMore.space scheme' = true →
  let header w := Some (w +:+ String ServerMore.space rest) in
  ServerMore.authenticateToken claims verify (header scheme)
  = ServerMore.authenticateToken claims verify (header scheme')
  ∧ ServerMore.authenticateToken claims verify (header scheme)
    = match head (ServerMore.split ServerMore.space rest) with
      | Some token =>
          if String.eqb token "" then
            ServerMore.Denied 401 "Access denied. No token provided."
          else match verify token with
               | Some decoded => ServerMore.Next decoded
               | None => ServerMore.Denied 403 "Invalid token"
               end
      | None => ServerMore.Denied 401 "Access denied. No token provided."
      end
  ∧ ServerMore.authenticateToken claims verify (Some scheme)
    = ServerMore.Denied 401 "Access denied. No token provided."
  ∧ ServerMore.authenticateToken claims verify None
    = ServerMore.Denied 401 "Access denied. No token provided.".
Proof.
  intros H H' header. subst header. unfold ServerMore.authenticateToken.
  rewrite !token_of_scheme by assumption.
  split; [reflexivity |]. split; [reflexivity |]. split; [| reflexivity].
  unfold ServerMore.token_of. destruct (String.eqb scheme ""); [reflexivity |].
  by rewrite (split_word _ _ H).
Qed.

(** ** The payment page *)

Section PaymentPage.
Import Client.

Lemma select_update_sound timelineData updateId u :
  Payment.select_update timelineData updateId = Some u →
  u ∈ timelineData ∧ tu_id u = updateId ∧ tu_paymentRequired u = Some true
  ∧ tu_paymentStatus u ≠ Some "paid".
Proof.
  unfold Payment.select_update.
  destruct (find _ timelineData) as [update|] eqn:Ef; [| discriminate].
  apply find_some in Ef as [Hin Hid]. apply String.eqb_eq in Hid.
  destruct (tu_paymentRequired update) as [[|]|] eqn:Er; simpl; try discriminate.
  destruct (tu_paymentStatus update) as [s|] eqn:Es.
  - destruct (String.eqb_spec s "paid") as [->|Hs]; [discriminate |].
    intros [= <-]. rewrite Er, Es. repeat split; try done.
    + by apply list_elem_of_In.
    + congruence.
  - intros [= <-]. rewrite Er, Es. repeat split; try done. by apply list_elem_of_In.
Qed.

End PaymentPage.

(** X9.  Whatever update the route names, every call the payment page makes
    is a payment for an update of the loaded timeline that has the id of the
    route, requires a payment and is not paid yet, with the amount of that
    update, which is not zero.  So for an id that is not in the timeline, or
    whose update needs no payment or is paid, the page makes no call. *)
Theorem X9_payment_page_pays_what_is_due (st : Payment.State)
    (timelineData : list Client.TimelineUpdate) (updateId : string)
    (r : Client.outcome unit) (c : Client.api_call) :
  Payment.timelineUpdate st = Payment.select_update timelineData updateId →
  c ∈ Client.calls (Payment.handleMakePayment st r) →
  ∃ rq u a, c = Client.postPayments (Payment.payment_payload rq u a)
            ∧ Payment.request st = Some rq
            ∧ u ∈ timelineData
            ∧ Client.tu_id u = updateId
            ∧ Client.tu_paymentRequired u = Some true
            ∧ Client.tu_paymentStatus u ≠ Some "paid"
            ∧ Client.tu_paymentAmount u = Some a
            ∧ Qeq_bool a 0 = false.
Proof.
  intros Hsel Hc. unfold Payment.handleMakePayment in Hc.
  destruct (Payment.request st) as [rq|]; [| by apply elem_of_nil in Hc].
  destruct (Payment.timelineUpdate st) as [u|] eqn:Hu; [| by apply elem_of_nil in Hc].
  destruct (Client.tu_paymentAmount u) as [a|] eqn:Ha; [| by apply elem_of_nil in Hc].
  destruct (Qeq_bool a 0) eqn:Hz; [by apply elem_of_nil in Hc |].
  symmetry in Hsel. apply select_update_sound in Hsel as (H1 & H2 & H3 & H4).
  exists rq, u, a.
  assert (c = Client.postPayments (Payment.payment_payload rq u a)).
  { destruct r; simpl in Hc;
      repeat (apply elem_of_cons in Hc as [->|Hc]; [reflexivity |]);
      by apply elem_of_nil in Hc. }
  by repeat split.
Qed.


(** ** What the request page offers *)

Section RequestPageView.
Import Client RequestDetails RequestDetailsView.

Lemma and4_true (a b c : bool) : a && b && c = true → a = true ∧ b = true ∧ c = true.
Proof. destruct a, b, c; simpl; intros; by repeat split. Qed.

(** The proposal the page finds as accepted after the update of
    [handleAcceptProposal] is the first of the key, with its new status. *)
Lemma find_accepted_accept_in_list proposalId (ps : list Proposal) :
  find (fun p => String.eqb (pr_status p) "accepted") (accept_in_list proposalId ps)
  = option_map (fun p => proposal_with_status p "accepted")
      (find (fun p => String.eqb (pr_id p) proposalId) ps).
Proof.
  unfold accept_in_list. induction ps as [|q ps IH]; [reflexivity |]. simpl.
  destruct (String.eqb (pr_id q) proposalId) eqn:E; simpl; [reflexivity |].
  destruct (String.eqb (pr_status q) "rejected") eqn:Er; simpl.
  - apply String.eqb_eq in Er. rewrite Er. simpl. exact IH.
  - exact IH.
Qed.

End RequestPageView.

(** X11.  What the page offers for a submission agrees with the guard of the
    handler.  When the Submit Proposal tab is shown,
    [handleSubmitProposal] makes the [createProposal] call and not the
    "already submitted" toast.  When that call resolves with a proposal of the
    signed-in designer, the page goes to the proposals tab, neither the tab nor
    the button for a submission is shown any more, and a further
    [handleSubmitProposal] makes no call. *)
Theorem X11_submit_offered_then_made (st : RequestDetails.State)
    (proposalData proposalData' : RequestDetails.ProposalData)
    (r r' : Client.outcome Client.Proposal) (newProposal : Client.Proposal)
    (u : Client.User) :
  RequestDetailsView.submit_tab_shown st = true →
  RequestDetails.user st = Some u →
  Client.pr_designerId newProposal = Client.u_id u →
  let st' := Client.final st
               (RequestDetails.handleSubmitProposal st proposalData
                  (Client.Resolved newProposal)) in
  (∃ rq, RequestDetails.request st = Some rq
         ∧ Client.calls (RequestDetails.handleSubmitProposal st proposalData r)
           = [Client.createProposal (RequestDetails.create_payload rq proposalData)])
  ∧ RequestDetails.proposals st' = RequestDetails.proposals st ++ [newProposal]
  ∧ RequestDetails.activeTab st' = "proposals"
  ∧ RequestDetailsView.submit_tab_shown st' = false
  ∧ RequestDetailsView.submit_button_shown st' = false
  ∧ Client.calls (RequestDetails.handleSubmitProposal st' proposalData' r') = [].
Proof.
  intros Hshown Hu Hd st'.
  unfold RequestDetailsView.submit_tab_shown, RequestDetailsView.is_designer,
    RequestDetailsView.request_status_is, RequestDetailsView.userProposal in Hshown.
  rewrite Hu in Hshown.
  apply and4_true in Hshown as (Hrole & Hopen & Hnone).
  destruct (RequestDetails.request st) as [rq|] eqn:Hrq; [| discriminate].
  destruct (find _ (RequestDetails.proposals st)) as [p|] eqn:Hfind; [discriminate |].
  assert (Hrun : RequestDetails.handleSubmitProposal st proposalData (Client.Resolved newProposal)
                 = [ Client.Call (Client.createProposal
                                    (RequestDetails.create_payload rq proposalData));
                     Client.SetState (RequestDetails.setProposals st
                                        (fun prev => prev ++ [newProposal]));
                     Client.Toast "Proposal submitted"
                       "Your proposal has been successfully submitted." false;
                     Client.SetState (RequestDetails.setActiveTab
                                        (RequestDetails.setProposals st
                                           (fun prev => prev ++ [newProposal]))
                                        "proposals") ]).
  { unfold RequestDetails.handleSubmitProposal. by rewrite Hu, Hrq, Hfind. }
  assert (Hfind' : ∃ y, find (fun p => String.eqb (Client.pr_designerId p) (Client.u_id u))
                          (RequestDetails.proposals st ++ [newProposal]) = Some y).
  { apply (find_is_Some _ _ newProposal).
    - apply elem_of_app. right. apply list_elem_of_here.
    - rewrite Hd. apply String.eqb_refl. }
  destruct Hfind' as [y Hy].
  split.
  { exists rq. split; [reflexivity |].
    unfold RequestDetails.handleSubmitProposal. rewrite Hu, Hrq, Hfind. by destruct r. }
  subst st'. rewrite Hrun. simpl.
  split; [reflexivity |]. split; [reflexivity |].
  unfold RequestDetailsView.submit_tab_shown, RequestDetailsView.submit_button_shown,
    RequestDetailsView.userProposal, RequestDetails.handleSubmitProposal. simpl.
  rewrite Hu, Hrq, Hy.
  split; [apply andb_false_r |]. split; [apply andb_false_r | reflexivity].
Qed.

(** X12.  After a run of [handleAcceptProposal] whose first call resolved, the
    request page agrees with itself: the proposal it finds as accepted is the
    target, and the request carries the id, the price, the designer and the
    designer's name of that very proposal.  On the page of the customer who
    owns the request the Timeline tab is then shown. *)
Theorem X12_assigned_request_joins_accepted_proposal (st : RequestDetails.State)
    (proposalId : string) (rq : Client.ProjectRequest) (target : Client.Proposal)
    (r2 : Client.outcome unit) (r3 : Client.outcome (list Client.TimelineUpdate)) :
  RequestDetails.request st = Some rq →
  find (fun p => String.eqb (Client.pr_id p) proposalId) (RequestDetails.proposals st)
  = Some target →
  let st' := Client.final st
               (RequestDetails.handleAcceptProposal st proposalId (Client.Resolved tt) r2 r3) in
  ∃ ap rq', RequestDetailsView.acceptedProposal st' = Some ap
            ∧ RequestDetails.request st' = Some rq'
            ∧ ap = Client.proposal_with_status target "accepted"
            ∧ Client.rq_status rq' = "assigned"
            ∧ Client.rq_acceptedProposalId rq' = Some (Client.pr_id ap)
            ∧ Client.rq_acceptedPrice rq' = Some (Client.pr_price ap)
            ∧ Client.rq_designerId rq' = Some (Client.pr_designerId ap)
            ∧ Client.rq_designerName rq' = Some (Client.pr_designerName ap)
            ∧ (RequestDetailsView.isUsersRequest st = true →
               RequestDetailsView.timeline_tab_shown st' = true).
Proof.
  intros Hrq Hfind st'.
  assert (Hid : Client.pr_id target = proposalId).
  { apply find_some in Hfind as [_ H]. by apply String.eqb_eq. }
  assert (Hps : RequestDetails.proposals st'
                = RequestDetails.accept_in_list proposalId (RequestDetails.proposals st))
    by apply handleAcceptProposal_final_proposals.
  assert (Hrq' : RequestDetails.request st'
                 = Some (Client.request_assigned rq proposalId target)).
  { subst st'. unfold RequestDetails.handleAcceptProposal, RequestDetails.reload_timeline.
    rewrite Hrq, Hfind. destruct r2, r3; reflexivity. }
  assert (Hus : RequestDetails.user st' = RequestDetails.user st).
  { subst st'. unfold RequestDetails.handleAcceptProposal, RequestDetails.reload_timeline.
    rewrite Hrq, Hfind. destruct r2, r3; reflexivity. }
  exists (Client.proposal_with_status target "accepted"),
         (Client.request_assigned rq proposalId target).
  split.
  { unfold RequestDetailsView.acceptedProposal.
    rewrite Hps, find_accepted_accept_in_list, Hfind. reflexivity. }
  split; [exact Hrq' |]. split; [reflexivity |]. split; [reflexivity |].
  split; [simpl; by rewrite Hid |]. split; [reflexivity |].
  split; [reflexivity |]. split; [reflexivity |].
  intros Hown. unfold RequestDetailsView.timeline_tab_shown,
    RequestDetailsView.isUsersRequest in *.
  rewrite Hrq', Hus. rewrite Hrq in Hown. simpl.
  destruct (RequestDetails.user st); [| discriminate]. by rewrite Hown.
Qed.

(** ** The timeline as it is shown *)

Section TimelineOrder.
Import Client.
Variable getTime : string → Z.

Lemma insert_update_Permutation u l :
  Timeline.insert_update getTime u l ≡ₚ u :: l.
Proof.
  induction l as [|v l IH]; [reflexivity |]. simpl.
  destruct (Z.leb _ _); [reflexivity |].
  rewrite IH. apply Permutation_swap.
Qed.

Lemma insert_update_sorted u l :
  StronglySorted (fun a b => (getTime (tu_timestamp a) ≤ getTime (tu_timestamp b))%Z) l →
  StronglySorted (fun a b => (getTime (tu_timestamp a) ≤ getTime (tu_timestamp b))%Z)
                 (Timeline.insert_update getTime u l).
Proof.
  induction l as [|v l IH]; intros Hs; simpl.
  - constructor; constructor.
  - destruct (Z.leb_spec (getTime (tu_timestamp u)) (getTime (tu_timestamp v))) as [Hle|Hlt].
    + constructor; [exact Hs |]. constructor; [exact Hle |].
      apply StronglySorted_inv in Hs as [_ Hv].
      eapply Forall_impl; [exact Hv |]. simpl. intros w Hw. lia.
    + apply StronglySorted_inv in Hs as [Hl Hv].
      constructor; [by apply IH |].
      rewrite insert_update_Permutation. constructor; [lia | exact Hv].
Qed.

End TimelineOrder.

(** X13.  The timeline shows the updates it is given, each once, in the order
    of their times; updates of the same time keep their order, and a list that
    is in the order of time already is shown as it is. *)
Theorem X13_sortedUpdates_sorts (getTime : string → Z)
    (updates : list Client.TimelineUpdate) :
  Timeline.sortedUpdates getTime updates ≡ₚ updates
  ∧ StronglySorted (fun a b => (getTime (Client.tu_timestamp a)
                                ≤ getTime (Client.tu_timestamp b))%Z)
                   (Timeline.sortedUpdates getTime updates)
  ∧ (StronglySorted (fun a b => (getTime (Client.tu_timestamp a)
                                 ≤ getTime (Client.tu_timestamp b))%Z) updates →
     Timeline.sortedUpdates getTime updates = updates).
Proof.
  split; [| split].
  - induction updates as [|u l IH]; [reflexivity |]. simpl.
    rewrite insert_update_Permutation. by constructor.
  - induction updates as [|u l IH]; [constructor |]. simpl.
    by apply insert_update_sorted.
  - induction updates as [|u l IH]; [reflexivity |]. intros Hs.
    apply StronglySorted_inv in Hs as [Hl Hu]. simpl. rewrite (IH Hl).
    destruct l as [|v l]; [reflexivity |]. simpl.
    apply Forall_cons in Hu as [Huv _].
    destruct (Z.leb_spec (getTime (Client.tu_timestamp u))
                         (getTime (Client.tu_timestamp v))); [reflexivity | lia].
Qed.

(** ** The timeline form in its pages *)


(** ** The proposal form and the list of proposals *)

(** X15.  The proposal form hands over a proposal only with a time and a
    message that are not empty and with a price that parses to a number
    greater than zero: a finite one, which the body [handleSubmitProposal]
    then sends carries as it is, or the infinity, which that body carries as
    [null].  The body also carries the time, the message and the id of the
    request. *)
Theorem X15_proposal_form_positive_price (parseFloat : string → number)
    (price estimatedTime message : string) (proposalData : RequestDetails.ProposalData)
    (rq : Client.ProjectRequest) :
  ProposalForm.handleSubmit parseFloat price estimatedTime message = inr proposalData →
  parseFloat price = RequestDetails.price proposalData
  ∧ (RequestDetails.price proposalData = Infinity
     ∨ ∃ q, RequestDetails.price proposalData = Finite q ∧ (0 < q)%Q)
  ∧ RequestDetails.estimatedTime proposalData = estimatedTime ∧ estimatedTime ≠ ""
  ∧ RequestDetails.message proposalData = message ∧ message ≠ ""
  ∧ RequestDetails.create_payload rq proposalData !! "price"
    = Some (json_number (RequestDetails.price proposalData))
  ∧ (∀ q, RequestDetails.price proposalData = Finite q →
       RequestDetails.create_payload rq proposalData !! "price" = Some (JNum q)
       ∧ truthy (RequestDetails.create_payload rq proposalData !! "price") = true)
  ∧ (RequestDetails.price proposalData = Infinity →
     RequestDetails.create_payload rq proposalData !! "price" = Some JNull)
  ∧ RequestDetails.create_payload rq proposalData !! "requestId"
    = Some (JStr (Client.rq_id rq))
  ∧ RequestDetails.create_payload rq proposalData !! "estimatedTime"
    = Some (JStr estimatedTime)
  ∧ RequestDetails.create_payload rq proposalData !! "message" = Some (JStr message).
Proof.
  unfold ProposalForm.handleSubmit.
  destruct (String.eqb_spec price ""); [discriminate |].
  destruct (String.eqb_spec estimatedTime ""); [discriminate |].
  destruct (String.eqb_spec message ""); [discriminate |]. simpl.
  destruct (ProposalForm.invalid_price (parseFloat price)) eqn:E; [discriminate |].
  intros [= <-]. simpl.
  assert (Hpos : parseFloat price = Infinity
                 ∨ ∃ q, parseFloat price = Finite q ∧ (0 < q)%Q).
  { destruct (parseFloat price) as [q| | |]; simpl in E; try discriminate.
    - right. exists q. split; [reflexivity |].
      apply Qnot_le_lt. intros Hle. apply Qle_bool_iff in Hle. congruence.
    - by left. }
  split; [reflexivity |]. split; [exact Hpos |].
  split; [reflexivity |]. split; [assumption |].
  split; [reflexivity |]. split; [assumption |].
  split; [reflexivity |].
  split.
  { intros q Hq. unfold RequestDetails.create_payload. simpl. rewrite Hq.
    split; [reflexivity |]. simpl.
    destruct Hpos as [Hinf | (q' & Hq' & Hlt)]; [congruence |].
    assert (q' = q) by congruence. subst q'.
    apply negb_true_iff. destruct (Qeq_bool q 0) eqn:Ez; [| reflexivity].
    apply Qeq_bool_eq in Ez. rewrite Ez in Hlt. by apply Qlt_irrefl in Hlt. }
  split.
  { intros Hinf. unfold RequestDetails.create_payload. simpl. by rewrite Hinf. }
  repeat split.
Qed.

Section StatusOnly.
Import Client RequestDetails.

Lemma proposal_with_own_status p : proposal_with_status p (pr_status p) = p.
Proof. by destruct p. Qed.

Lemma decided_up_to_status (f : Proposal → Proposal) (ps : list Proposal) (i : nat) p :
  (∀ q, ∃ s, f q = proposal_with_status q s) →
  ps !! i = Some p →
  ∃ s, map f ps !! i = Some (proposal_with_status p s).
Proof.
  intros Hf Hp. rewrite list_lookup_fmap, Hp. simpl.
  destruct (Hf p) as [s ->]. by exists s.
Qed.

End StatusOnly.

(** X16.  The accept and reject handlers change nothing of a listed proposal
    but its status: after a run of either, whatever the outcomes of its calls,
    the list has the same length and holds at each place the proposal that was
    there, up to its status.  A run of [handleRejectProposal] leaves the
    proposals other than its target as they are, and a run of either whose
    first call failed leaves the whole page as it is. *)
Theorem X16_decisions_change_status_only (st : RequestDetails.State) (proposalId : string)
    (r1 r2 : Client.outcome unit) (r3 : Client.outcome (list Client.TimelineUpdate))
    (i : nat) (p : Client.Proposal) (msg : string) :
  RequestDetails.proposals st !! i = Some p →
  let accepted := Client.final st (RequestDetails.handleAcceptProposal st proposalId r1 r2 r3) in
  let rejected := Client.final st (RequestDetails.handleRejectProposal st proposalId r1) in
  (∃ s, RequestDetails.proposals accepted !! i = Some (Client.proposal_with_status p s))
  ∧ (∃ s, RequestDetails.proposals rejected !! i = Some (Client.proposal_with_status p s))
  ∧ length (RequestDetails.proposals accepted) = length (RequestDetails.proposals st)
  ∧ length (RequestDetails.proposals rejected) = length (RequestDetails.proposals st)
  ∧ (Client.pr_id p ≠ proposalId → RequestDetails.proposals rejected !! i = Some p)
  ∧ Client.final st (RequestDetails.handleAcceptProposal st proposalId
                       (Client.Thrown msg) r2 r3) = st
  ∧ Client.final st (RequestDetails.handleRejectProposal st proposalId (Client.Thrown msg))
    = st.
Proof.
  intros Hp accepted rejected.
  assert (Ha : RequestDetails.proposals accepted = RequestDetails.proposals st
               ∨ RequestDetails.proposals accepted
                 = RequestDetails.accept_in_list proposalId (RequestDetails.proposals st)).
  { subst accepted. destruct r1 as [[]|m]; [right | by left].
    apply handleAcceptProposal_final_proposals. }
  assert (Hr : RequestDetails.proposals rejected = RequestDetails.proposals st
               ∨ RequestDetails.proposals rejected
                 = RequestDetails.reject_in_list proposalId (RequestDetails.proposals st)).
  { subst rejected. destruct r1 as [[]|m]; [by right | by left]. }
  split; [| split; [| split; [| split; [| split; [| split; reflexivity]]]]].
  - destruct Ha as [-> | ->].
    + exists (Client.pr_status p). by rewrite proposal_with_own_status.
    + apply decided_up_to_status; [| exact Hp]. intros q.
      destruct (String.eqb (Client.pr_id q) proposalId); [by eexists |].
      destruct (negb _ && negb _); [by eexists |].
      exists (Client.pr_status q). by rewrite proposal_with_own_status.
  - destruct Hr as [-> | ->].
    + exists (Client.pr_status p). by rewrite proposal_with_own_status.
    + apply decided_up_to_status; [| exact Hp]. intros q.
      destruct (String.eqb (Client.pr_id q) proposalId); [by eexists |].
      exists (Client.pr_status q). by rewrite proposal_with_own_status.
  - destruct Ha as [-> | ->]; [reflexivity |].
    unfold RequestDetails.accept_in_list. apply length_map.
  - destruct Hr as [-> | ->]; [reflexivity |].
    unfold RequestDetails.reject_in_list. apply length_map.
  - intros Hne. destruct Hr as [-> | ->]; [exact Hp |].
    unfold RequestDetails.reject_in_list. rewrite list_lookup_fmap, Hp. simpl.
    destruct (String.eqb_spec (Client.pr_id p) proposalId); [contradiction | reflexivity].
Qed.

(** ** A price of zero *)


(** ** The pages and the endpoints of the repository *)

(** X18.  Against the update endpoint for proposals, the accept and the reject
    handler of the request page always fail: the endpoint answers 400 to the
    lowercase status they send, whatever the key and the tables, writes
    nothing, and the run shows the error toast and leaves the page as it
    was. *)
Theorem X18_decisions_fail_against_endpoint (st : RequestDetails.State)
    (proposalId : string) (pid : nat) (db : Server.DB)
    (r2 : Client.outcome unit) (r3 : Client.outcome (list Client.TimelineUpdate)) :
  let answer_accept := Server.put_designer_proposal pid RequestDetails.accept_payload db in
  let answer_reject := Server.put_designer_proposal pid RequestDetails.reject_payload db in
  let accept := RequestDetails.handleAcceptProposal st proposalId
                  (Client.axios answer_accept.1) r2 r3 in
  let reject := RequestDetails.handleRejectProposal st proposalId
                  (Client.axios answer_reject.1) in
  answer_accept.2 = db ∧ answer_reject.2 = db
  ∧ accept = [ Client.Call (Client.updateProposal proposalId RequestDetails.accept_payload);
               Client.Toast "Error" "Request failed with status code 400" true ]
  ∧ reject = [ Client.Call (Client.updateProposal proposalId RequestDetails.reject_payload);
               Client.Toast "Error" "Request failed with status code 400" true ]
  ∧ Client.final st accept = st
  ∧ Client.final st reject = st.
Proof.
  intros answer_accept answer_reject accept reject.
  subst accept reject answer_accept answer_reject.
  rewrite put_accept_payload_rejected, put_reject_payload_rejected.
  repeat split.
Qed.

(** X19.  The bodies the pages send do not carry the fields the endpoints
    read.  The body of a new proposal and the body of a chat message are
    answered 400 "Missing required fields" by their POST endpoints, and the
    body that assigns a request and the one that completes it are answered 400
    for their status by the PUT endpoint for requests; nothing is written,
    whatever the data and the tables. *)
Theorem X19_page_bodies_rejected (rq : Client.ProjectRequest)
    (proposalData : RequestDetails.ProposalData)
    (u : Client.promise (option Client.User)) (selected : Client.User)
    (content : string) (imageUrl : option string)
    (proposalId : string) (acceptedProposal : Client.Proposal)
    (rid : nat) (db : Server.DB) :
  Server.post_designer_proposal (RequestDetails.create_payload rq proposalData) db
  = (Server.fail 400 "Missing required fields", db)
  ∧ Server.post_chat (Messages.message_payload u selected content imageUrl) db
    = (Server.fail 400 "Missing required fields", db)
  ∧ Server.put_customization_request rid
      (RequestDetails.assign_payload proposalId acceptedProposal) db
    = (Server.fail 400 "Invalid status. Must be Pending, Accepted, or Completed", db)
  ∧ Server.put_customization_request rid RequestDetails.completed_payload db
    = (Server.fail 400 "Invalid status. Must be Pending, Accepted, or Completed", db).
Proof.
  split; [reflexivity |]. split; [by destruct imageUrl |]. split; reflexivity.
Qed.

(** X20.  Against the update endpoint for requests, the request page never
    completes a request: on "delivered" it appends the update, sets the local
    request to completed, is answered 400 for the lowercase status, and puts
    the request back.  The run ends with the request it started from and the
    update in the timeline, and the tables are as they were. *)
Theorem X20_completion_taken_back_against_endpoint (st : RequestDetails.State)
    (rq : Client.ProjectRequest) (message : string) (newUpdate : Client.TimelineUpdate)
    (rid : nat) (db : Server.DB) :
  RequestDetails.request st = Some rq →
  let answer := Server.put_customization_request rid RequestDetails.completed_payload db in
  let run := RequestDetails.handleAddTimelineUpdate st "delivered" message
               (Client.Resolved newUpdate) (Client.axios answer.1) in
  answer.2 = db
  ∧ RequestDetails.request (Client.final st run) = Some rq
  ∧ RequestDetails.timeline (Client.final st run) = RequestDetails.timeline st ++ [newUpdate]
  ∧ Client.SetState
      (RequestDetails.setRequest
         (RequestDetails.setTimeline st (fun prev => prev ++ [newUpdate]))
         (Some (Client.request_with_status rq "completed"))) ∈ run.
Proof.
  intros Hrq answer run. subst run answer.
  rewrite put_completed_payload_rejected.
  unfold RequestDetails.handleAddTimelineUpdate. rewrite Hrq. simpl.
  split; [reflexivity |]. split; [reflexivity |]. split; [reflexivity |].
  apply list_elem_of_further, list_elem_of_further, list_elem_of_here.
Qed.

(** ** The loaders of the order page and of the messages page *)


Section MessagesLoader.
Import Client Messages.
Variable latest : list Message → option Message.
Variable requests_of : list (string * string) → outcome (list ProjectRequest).
Variable proposals_of : list (string * string) → outcome (list Proposal).
Variable request_by_id : string → outcome (option ProjectRequest).
Variable user_by_id : string → outcome (option User).
Variable messages_of : string → string → outcome (list Message).

Lemma calls_app {S : Type} (a b : list (event S)) : calls (a ++ b) = calls a ++ calls b.
Proof. unfold calls. apply omap_app. Qed.

Lemma bind_events {S A B : Type} (m : run S A) (k : A → run S B) :
  (bind m k).1 = m.1 ++ match m.2 with
                        | Resolved a => (k a).1
                        | Thrown _ => []
                        end.
Proof. unfold bind. destruct m.2; simpl; [reflexivity | by rewrite app_nil_r]. Qed.

Lemma calls_SetState {S : Type} (s : S) (evs : list (event S)) :
  calls (SetState s :: evs) = calls evs.
Proof. reflexivity. Qed.

Lemma final_SetState {S : Type} (s0 s : S) (evs : list (event S)) :
  final s0 (SetState s :: evs) = final s evs.
Proof. reflexivity. Qed.

Lemma bind_roleless {A B : Type} (m : run State A) (k : A → run State B) :
  Forall (fun e => roleless_event e = true) m.1 →
  (∀ a, Forall (fun e => roleless_event e = true) (k a).1) →
  Forall (fun e => roleless_event e = true) (bind m k).1.
Proof.
  intros Hm Hk. unfold bind. destruct m.2 as [a|msg]; simpl; [| exact Hm].
  apply Forall_app. split; [exact Hm | apply Hk].
Qed.

Lemma ret_roleless {A : Type} (a : A) :
  Forall (fun e => roleless_event e = true) (ret (S := State) a).1.
Proof. constructor. Qed.

Lemma partner_of_roleless (userData : promise (option User)) (found : User) :
  Forall (fun e => roleless_event e = true)
         (partner_of latest messages_of userData found).1.
Proof.
  unfold partner_of. apply bind_roleless.
  - repeat constructor.
  - intros a. apply ret_roleless.
Qed.

Lemma foldl_roleless {A B : Type} (step : run State A → B → run State A) (l : list B) :
  (∀ acc x, Forall (fun e => roleless_event e = true) acc.1 →
            Forall (fun e => roleless_event e = true) (step acc x).1) →
  ∀ acc, Forall (fun e => roleless_event e = true) acc.1 →
         Forall (fun e => roleless_event e = true) (foldl step acc l).1.
Proof.
  intros Hstep. induction l as [|x l IH]; intros acc Hacc; [exact Hacc |].
  simpl. apply IH. by apply Hstep.
Qed.

(** The branch a user without role takes makes the calls of such a user
    only, and sets nothing. *)
Lemma designer_partners_roleless (userData : promise (option User)) :
  Forall (fun e => roleless_event e = true)
         (designer_partners latest proposals_of request_by_id user_by_id messages_of
            userData).1.
Proof.
  unfold designer_partners. apply bind_roleless; [repeat constructor |].
  intros acceptedProposals. apply foldl_roleless; [| apply ret_roleless].
  intros acc proposal Hacc. apply bind_roleless; [exact Hacc |].
  intros partners. apply bind_roleless; [repeat constructor |].
  intros [rq|]; [| apply ret_roleless].
  apply bind_roleless; [repeat constructor |].
  intros [c|]; [| apply ret_roleless].
  apply bind_roleless; [apply partner_of_roleless |].
  intros p. apply ret_roleless.
Qed.

Lemma final_roleless (st : State) (evs rest : list (event State)) :
  Forall (fun e => roleless_event e = true) evs →
  final st (evs ++ rest) = final st rest.
Proof.
  intros H. unfold final. rewrite foldl_app. f_equal.
  induction H as [|e evs He _ IH]; [reflexivity |]. simpl.
  destruct e; try discriminate He. exact IH.
Qed.

Lemma calls_roleless (evs : list (event State)) :
  Forall (fun e => roleless_event e = true) evs →
  Forall (fun c => roleless_call c = true) (calls evs).
Proof.
  intros H. induction H as [|e evs He _ IH]; [constructor |].
  destruct e; try discriminate He. simpl. constructor; assumption.
Qed.

(** What is stored once the partners are known, and the calls made. *)
Lemma store_partners_calls (st : State) (userData : promise (option User))
    (partners : list ChatPartner) :
  calls (store_partners messages_of st userData partners).1
  = match partners with
    | [] => []
    | first :: _ => [getMessages "undefined" (u_id (partner first))]
    end.
Proof.
  unfold store_partners, bind, getMessages_of. simpl.
  destruct partners as [|first ?]; [reflexivity |]. simpl.
  by destruct (messages_of _ _).
Qed.

Lemma store_partners_final (st : State) (userData : promise (option User))
    (partners : list ChatPartner) :
  let st' := final st (store_partners messages_of st userData partners).1 in
  chatPartners st' = partners
  ∧ selectedPartner st' = match partners with
                          | [] => selectedPartner st
                          | first :: _ => Some (partner first)
                          end
  ∧ user st' = user st.
Proof.
  unfold store_partners, bind, getMessages_of. simpl.
  destruct partners as [|first ?]; [by repeat split |]. simpl.
  destruct (messages_of _ _); by repeat split.
Qed.

(** The loader, for the Promise of any user: the state it starts with, then
    the branch of a user without role, then the partners stored. *)
Lemma checkAuthAndFetchData_unfold (st : State) (me : option User) :
  checkAuthAndFetchData latest requests_of proposals_of request_by_id user_by_id
    messages_of st (getCurrentUser me)
  = SetState (setUser st (Some (getCurrentUser me)))
    :: (bind (designer_partners latest proposals_of request_by_id user_by_id messages_of
                (getCurrentUser me))
             (store_partners messages_of (setUser st (Some (getCurrentUser me)))
                (getCurrentUser me))).1.
Proof. reflexivity. Qed.

End MessagesLoader.


(** ** The properties above on the data of the examples *)

Lemma X2_put_proposal_by_key_witness :
  Examples.accepted_body !! "status" = Some (JStr "Accepted")
  ∧ truthy_val (JStr "Accepted") = true
  ∧ includes Server.proposal_statuses (JStr "Accepted") = true
  ∧ Server.code (Server.put_designer_proposal 1 Examples.accepted_body Examples.db0).1 = 200.
Proof.
  do 3 (split; [reflexivity |]).
  exact (proj1 (X2_put_proposal_by_key 1 Examples.accepted_body Examples.db0
                  (JStr "Accepted") eq_refl eq_refl eq_refl)).
Defined.

Lemma X3_proposal_statuses_stay_listed_witness :
  Forall (fun r => includes Server.proposal_statuses (Server.p_status r) = true)
         (Server.designer_proposals Examples.db0)
  ∧ Forall (fun r => includes Server.proposal_statuses (Server.p_status r) = true)
           (Server.designer_proposals
              (foldl ServerMore.serve_proposal Examples.db0
                 [ ServerMore.PutProposal 1 Examples.accepted_body;
                   ServerMore.PostProposal Examples.second_proposal_body;
                   ServerMore.DeleteProposal 2 ])).
Proof.
  assert (H : Forall (fun r => includes Server.proposal_statuses (Server.p_status r) = true)
                     (Server.designer_proposals Examples.db0)).
  { repeat constructor. }
  split; [exact H |].
  exact (X3_proposal_statuses_stay_listed Examples.db0 _ H).
Defined.

Lemma X5_payment_statuses_stay_listed_witness :
  Forall (fun r => includes Server.payment_statuses (Server.pay_status r) = true
                   ∧ includes Server.payment_types (Server.pay_payment_type r) = true)
         (Server.payments Examples.db_paid)
  ∧ Forall (fun r => includes Server.payment_statuses (Server.pay_status r) = true
                     ∧ includes Server.payment_types (Server.pay_payment_type r) = true)
           (Server.payments
              (foldl ServerMore.serve_payment Examples.db_paid
                 [ ServerMore.PutPayment 1 Examples.completed_body;
                   ServerMore.PostPayment Examples.payment_body ])).
Proof.
  assert (H : Forall (fun r => includes Server.payment_statuses (Server.pay_status r) = true
                               ∧ includes Server.payment_types (Server.pay_payment_type r)
                                 = true)
                     (Server.payments Examples.db_paid)).
  { repeat constructor. }
  split; [exact H |].
  exact (X5_payment_statuses_stay_listed Examples.db_paid _ H).
Defined.

Lemma X6_put_payment_keeps_parties_witness :
  ∃ r, Server.payments Examples.db_paid !! 0%nat = Some r
       ∧ ∃ r', Server.payments
                 (ServerMore.put_payment 1 Examples.completed_body Examples.db_paid).2
               !! 0%nat = Some r'
               ∧ Server.pay_user_id r' = Server.pay_user_id r.
Proof.
  eexists. split; [reflexivity |].
  destruct (X6_put_payment_keeps_parties 1 Examples.completed_body Examples.db_paid 0 _
              eq_refl) as (r' & H1 & _ & H3 & _).
  exists r'. split; [exact H1 | exact H3].
Defined.

Lemma X7_put_chat_keeps_parties_witness :
  ∃ r, Server.chat Examples.db_chat !! 0%nat = Some r
       ∧ ∃ r', Server.chat (ServerMore.put_chat 1 Examples.read_body Examples.db_chat).2
               !! 0%nat = Some r'
               ∧ Server.c_sender_id r' = Server.c_sender_id r.
Proof.
  eexists. split; [reflexivity |].
  destruct (X7_put_chat_keeps_parties 1 Examples.read_body Examples.db_chat 0 _
              eq_refl) as (r' & H1 & _ & H3 & _).
  exists r'. split; [exact H1 | exact H3].
Defined.

Lemma X8_token_is_second_word_witness :
  ServerMore.free_of ServerMore.space "Bearer" = true
  ∧ ServerMore.free_of ServerMore.space "Basic" = true
  ∧ ServerMore.authenticateToken unit Examples.verify_abc
      (Some ("Bearer" +:+ String ServerMore.space "abc"))
    = ServerMore.authenticateToken unit Examples.verify_abc
        (Some ("Basic" +:+ String ServerMore.space "abc")).
Proof.
  split; [reflexivity |]. split; [reflexivity |].
  exact (proj1 (X8_token_is_second_word unit Examples.verify_abc "Bearer" "Basic" "abc"
                  eq_refl eq_refl)).
Defined.

Lemma X9_payment_page_pays_what_is_due_witness :
  Payment.timelineUpdate Examples.paymentC
  = Payment.select_update [Examples.update_stitched] "U1"
  ∧ Client.postPayments (Payment.payment_payload Examples.requestR_assigned
                           Examples.update_stitched 25%Q)
    ∈ Client.calls (Payment.handleMakePayment Examples.paymentC (Client.Resolved tt))
  ∧ ∃ rq u a, Client.postPayments (Payment.payment_payload Examples.requestR_assigned
                                     Examples.update_stitched 25%Q)
              = Client.postPayments (Payment.payment_payload rq u a)
              ∧ Client.tu_paymentStatus u ≠ Some "paid".
Proof.
  assert (Hc : Client.postPayments (Payment.payment_payload Examples.requestR_assigned
                                      Examples.update_stitched 25%Q)
               ∈ Client.calls (Payment.handleMakePayment Examples.paymentC
                                 (Client.Resolved tt))) by apply list_elem_of_here.
  split; [reflexivity |]. split; [exact Hc |].
  destruct (X9_payment_page_pays_what_is_due Examples.paymentC [Examples.update_stitched]
              "U1" (Client.Resolved tt) _ eq_refl Hc)
    as (rq & u & a & H1 & _ & _ & _ & _ & H6 & _).
  exists rq, u, a. split; [exact H1 | exact H6].
Defined.


Lemma X11_submit_offered_then_made_witness :
  RequestDetailsView.submit_tab_shown Examples.pageD1_stale = true
  ∧ RequestDetails.user Examples.pageD1_stale = Some Examples.designerD1
  ∧ Client.pr_designerId Examples.proposalP3 = Client.u_id Examples.designerD1
  ∧ RequestDetailsView.submit_tab_shown
      (Client.final Examples.pageD1_stale
         (RequestDetails.handleSubmitProposal Examples.pageD1_stale Examples.proposal_form
            (Client.Resolved Examples.proposalP3)))
    = false.
Proof.
  do 3 (split; [reflexivity |]).
  exact (proj1 (proj2 (proj2 (proj2
    (X11_submit_offered_then_made Examples.pageD1_stale Examples.proposal_form
       Examples.proposal_form (Client.Thrown "unused") (Client.Thrown "unused")
       Examples.proposalP3 Examples.designerD1 eq_refl eq_refl eq_refl))))).
Defined.

Lemma X12_assigned_request_joins_accepted_proposal_witness :
  RequestDetails.request Examples.pageC = Some Examples.requestR
  ∧ find (fun p => String.eqb (Client.pr_id p) "P1") (RequestDetails.proposals Examples.pageC)
    = Some Examples.proposalP1
  ∧ ∃ ap, RequestDetailsView.acceptedProposal Examples.pageC_assigned = Some ap
          ∧ ap = Client.proposal_with_status Examples.proposalP1 "accepted".
Proof.
  do 2 (split; [reflexivity |]).
  destruct (X12_assigned_request_joins_accepted_proposal Examples.pageC "P1"
              Examples.requestR Examples.proposalP1 (Client.Resolved tt) (Client.Resolved [])
              eq_refl eq_refl) as (ap & rq' & H1 & _ & H3 & _).
  exists ap. split; [exact H1 | exact H3].
Defined.


Lemma X15_proposal_form_positive_price_witness :
  ProposalForm.handleSubmit Examples.parse_90 "90" "1 week" "Cheaper now"
  = inr Examples.proposal_form
  ∧ (RequestDetails.price Examples.proposal_form = Infinity
     ∨ ∃ q, RequestDetails.price Examples.proposal_form = Finite q ∧ (0 < q)%Q).
Proof.
  split; [reflexivity |].
  exact (proj1 (proj2
    (X15_proposal_form_positive_price Examples.parse_90 "90" "1 week" "Cheaper now"
       Examples.proposal_form Examples.requestR eq_refl))).
Defined.

Lemma X16_decisions_change_status_only_witness :
  RequestDetails.proposals Examples.pageC !! 0%nat = Some Examples.proposalP1
  ∧ ∃ s, RequestDetails.proposals
           (Client.final Examples.pageC
              (RequestDetails.handleAcceptProposal Examples.pageC "P2" (Client.Resolved tt)
                 (Client.Resolved tt) (Client.Resolved []))) !! 0%nat
         = Some (Client.proposal_with_status Examples.proposalP1 s).
Proof.
  split; [reflexivity |].
  exact (proj1 (X16_decisions_change_status_only Examples.pageC "P2" (Client.Resolved tt)
                  (Client.Resolved tt) (Client.Resolved []) 0 Examples.proposalP1
                  "unused" eq_refl)).
Defined.


Lemma X20_completion_taken_back_against_endpoint_witness :
  RequestDetails.request Examples.pageD1_assigned = Some Examples.requestR_assigned
  ∧ RequestDetails.request
      (Client.final Examples.pageD1_assigned
         (RequestDetails.handleAddTimelineUpdate Examples.pageD1_assigned "delivered"
            "Delivered" (Client.Resolved Examples.update_delivered)
            (Client.axios
               (Server.put_customization_request 7 RequestDetails.completed_payload
                  Examples.db_assigned).1)))
    = Some Examples.requestR_assigned.
Proof.
  split; [reflexivity |].
  exact (proj1 (proj2
    (X20_completion_taken_back_against_endpoint Examples.pageD1_assigned
       Examples.requestR_assigned "Delivered" Examples.update_delivered 7
       Examples.db_assigned eq_refl))).
Defined.

Lemma X13_sortedUpdates_sorts_witness :
  StronglySorted (fun a b => (Examples.day_of (Client.tu_timestamp a)
                              ≤ Examples.day_of (Client.tu_timestamp b))%Z)
                 [Examples.update_stitched; Examples.update_stitched_again]
  ∧ Timeline.sortedUpdates Examples.day_of
      [Examples.update_stitched; Examples.update_stitched_again]
    = [Examples.update_stitched; Examples.update_stitched_again].
Proof.
  assert (H : StronglySorted (fun a b => (Examples.day_of (Client.tu_timestamp a)
                                          ≤ Examples.day_of (Client.tu_timestamp b))%Z)
                             [Examples.update_stitched; Examples.update_stitched_again]).
  { repeat constructor. intros Hgt. discriminate Hgt. }
  split; [exact H |].
  exact (proj2 (proj2 (X13_sortedUpdates_sorts Examples.day_of
                         [Examples.update_stitched; Examples.update_stitched_again])) H).
Defined.
